(** * Recipe adjuster ([app.py]): a shallow embedding and its properties

    The development follows the source file top-down: the Python run-time
    notions the program relies on (exceptions, [str] methods, the [re]
    pattern language, [int]/[float] arithmetic, [fractions.Fraction]) come
    first, then each function of [app.py] under its own name, then the
    properties.

    Modelling conventions.
    - A Python [str] is a Rocq [string]; a character is a code point below
      256, and [isspace], [\d] and [lower] are Python's on that range.
    - A Python [int] is a [Z]; a Python [float] is an IEEE-754 binary64
      value, [spec_float] with precision 53 and maximal exponent 1024.
    - A call that can raise returns [res A]; [try ... except Exception]
      is [catch].
    - [math.log] is the C library's and is not bit-specified: it is the
      section variable [libm_log]. *)

From Stdlib Require Import ZArith QArith Qabs List String Ascii Bool Lia Wellfounded.
From Stdlib Require Import DecimalString SpecFloat.
From Equations Require Import Equations.
Import ListNotations.

Open Scope bool_scope.
Open Scope list_scope.
Open Scope string_scope.
Open Scope Z_scope.

(** ** Exceptions *)

Inductive exn : Type :=
| SyntaxError
| ZeroDivisionError
| OverflowError
| ValueError
| TypeError
| AttributeError
| IndexError.

Inductive res (A : Type) : Type :=
| Ok (a : A)
| Raise (e : exn).
Arguments Ok {A} a.
Arguments Raise {A} e.

Definition bind {A B : Type} (c : res A) (k : A -> res B) : res B :=
  match c with
  | Ok a => k a
  | Raise e => Raise e
  end.

Notation "x <- c ;; k" := (bind c (fun x => k))
  (at level 61, c at next level, right associativity).

(** [try: c except Exception: d] *)
Definition catch {A : Type} (c : res A) (d : A) : A :=
  match c with
  | Ok a => a
  | Raise _ => d
  end.

Fixpoint mapM {A B : Type} (f : A -> res B) (l : list A) : res (list B) :=
  match l with
  | [] => Ok []
  | a :: l' => b <- f a ;; bs <- mapM f l' ;; Ok (b :: bs)
  end.

(** ** [str] *)

Module PyStr.

Definition ord (c : ascii) : N := N_of_ascii c.

Definition between (lo hi : N) (c : ascii) : bool :=
  (lo <=? ord c)%N && (ord c <=? hi)%N.

(** [str.isspace] on one character, which is also [\s] of a [str]
    pattern: TAB..CR, FS..US, SPACE, NEL and NBSP. *)
Definition isspace (c : ascii) : bool :=
  between 9 13 c || between 28 32 c || (ord c =? 133)%N || (ord c =? 160)%N.

(** [\d] of a [str] pattern: the decimal digits, below 256 only [0-9]. *)
Definition isdigit (c : ascii) : bool := between 48 57 c.

Definition isupper_ascii (c : ascii) : bool := between 65 90 c.
Definition islower_ascii (c : ascii) : bool := between 97 122 c.

(** [[a-zA-Z]] *)
Definition isalpha_ascii (c : ascii) : bool :=
  islower_ascii c || isupper_ascii c.

(** [str.lower] on one character: A-Z, and the Latin-1 capitals
    U+00C0..U+00DE without the multiplication sign U+00D7. *)
Definition lower_char (c : ascii) : ascii :=
  if isupper_ascii c || (between 192 222 c && negb (ord c =? 215)%N)
  then ascii_of_N (ord c + 32)
  else c.

Fixpoint lower (s : string) : string :=
  match s with
  | EmptyString => EmptyString
  | String c s' => String (lower_char c) (lower s')
  end.

Fixpoint lstrip (s : string) : string :=
  match s with
  | EmptyString => EmptyString
  | String c s' => if isspace c then lstrip s' else s
  end.

Fixpoint rstrip (s : string) : string :=
  match s with
  | EmptyString => EmptyString
  | String c s' =>
      match rstrip s' with
      | EmptyString => if isspace c then EmptyString else String c EmptyString
      | r => String c r
      end
  end.

Definition strip (s : string) : string := rstrip (lstrip s).

(** [needle in hay] *)
Fixpoint contains (needle hay : string) : bool :=
  prefix needle hay ||
  match hay with
  | EmptyString => false
  | String _ hay' => contains needle hay'
  end.

(** Truthiness of a [str]. *)
Definition nonempty (s : string) : bool :=
  match s with
  | EmptyString => false
  | String _ _ => true
  end.

(** [str(n)] for an [int]. *)
Definition of_int (z : Z) : string := NilZero.string_of_int (Z.to_int z).

(** The longest prefix of characters satisfying [p], and the rest. *)
Fixpoint span (p : ascii -> bool) (s : string) : string * string :=
  match s with
  | EmptyString => (EmptyString, EmptyString)
  | String c s' =>
      if p c then let '(a, b) := span p s' in (String c a, b)
      else (EmptyString, s)
  end.

(** The first [n] characters. *)
Fixpoint take (n : nat) (s : string) : string :=
  match n, s with
  | S n', String c s' => String c (take n' s')
  | _, _ => EmptyString
  end.

Fixpoint repeat (c : ascii) (n : nat) : string :=
  match n with
  | O => EmptyString
  | S n' => String c (repeat c n')
  end.

End PyStr.

(** ** [re]: the fragment of the pattern language the program uses *)

Module Re.

(** Quantifiers are greedy and apply to character classes, as in the
    one pattern of the program. *)
Inductive regex : Type :=
| Chr (p : ascii -> bool)               (* one character of a class *)
| Rep (p : ascii -> bool) (least : nat) (* [p*] is [Rep p 0], [p+] is [Rep p 1] *)
| Opt (r : regex)                       (* [r?] *)
| Grp (name : string) (r : regex)       (* [(?P<name>r)] *)
| Cat (r1 r2 : regex).

(** The groups that took part in the match, latest first. *)
Definition groups : Type := list (string * string).

Fixpoint group (g : groups) (name : string) : option string :=
  match g with
  | [] => None
  | (n, v) :: g' => if String.eqb n name then Some v else group g' name
  end.

(** Greedy repetition with backtracking: the longest run is tried
    first, each shorter one after the continuation has failed. *)
Fixpoint rep {R : Type} (p : ascii -> bool) (least : nat) (s : string)
    (k : string -> option R) : option R :=
  match s with
  | String c s' =>
      if p c then
        match rep p (Nat.pred least) s' k with
        | Some r => Some r
        | None => match least with O => k s | S _ => None end
        end
      else match least with O => k s | S _ => None end
  | EmptyString => match least with O => k s | S _ => None end
  end.

(** The backtracking matcher in continuation-passing style: [k] is
    given the rest of the subject and the groups so far. *)
Fixpoint run {R : Type} (r : regex) (s : string) (g : groups)
    (k : string -> groups -> option R) : option R :=
  match r with
  | Chr p =>
      match s with
      | String c s' => if p c then k s' g else None
      | EmptyString => None
      end
  | Rep p least => rep p least s (fun s' => k s' g)
  | Opt r1 =>
      match run r1 s g k with
      | Some x => Some x
      | None => k s g
      end
  | Grp name r1 =>
      run r1 s g (fun s' g' =>
        k s' ((name, PyStr.take (String.length s - String.length s') s) :: g'))
  | Cat r1 r2 => run r1 s g (fun s' g' => run r2 s' g' k)
  end.

(** [re.match(r, s)]: anchored at the start, not at the end. *)
Definition rmatch (r : regex) (s : string) : option groups :=
  run r s [] (fun _ g => Some g).

(** [.] without DOTALL: anything but a newline. *)
Definition dot (c : ascii) : bool := negb (PyStr.ord c =? 10)%N.

(** [re.split(r",|\n", s)] *)
Fixpoint split_comma_newline (s : string) : list string :=
  match s with
  | EmptyString => [EmptyString]
  | String c s' =>
      let r := split_comma_newline s' in
      if (PyStr.ord c =? 44)%N || (PyStr.ord c =? 10)%N then EmptyString :: r
      else match r with
           | h :: t => String c h :: t
           | [] => [String c EmptyString]
           end
  end.

End Re.

(** [[\d\.\/]] *)
Definition qty_char (c : ascii) : bool :=
  PyStr.isdigit c || (PyStr.ord c =? 46)%N || (PyStr.ord c =? 47)%N.

(** [(?P<qty>[\d\.\/]+)?\s*(?P<unit>[a-zA-Z])\s(?P<name>.+)] *)
Definition ingredient_re : Re.regex :=
  Re.Cat (Re.Opt (Re.Grp "qty" (Re.Rep qty_char 1)))
 (Re.Cat (Re.Rep PyStr.isspace 0)
 (Re.Cat (Re.Grp "unit" (Re.Chr PyStr.isalpha_ascii))
 (Re.Cat (Re.Chr PyStr.isspace)
         (Re.Grp "name" (Re.Rep Re.dot 1))))).

(** ** [float]: IEEE-754 binary64 *)

Module PyFloat.

Definition prec : Z := 53.
Definition emax : Z := 1024.

Definition float : Type := spec_float.

Definition zero : float := S754_zero false.
Definition inf : float := S754_infinity false.
Definition nan : float := S754_nan.

Definition add : float -> float -> float := SFadd prec emax.
Definition sub : float -> float -> float := SFsub prec emax.
Definition mul : float -> float -> float := SFmul prec emax.
Definition div : float -> float -> float := SFdiv prec emax.
Definition ltb : float -> float -> bool := SFltb.

(** The nearest binary64 value to an integer, ties to even;
    an infinity when the integer is out of range. *)
Definition of_Z (z : Z) : float := binary_normalize prec emax z 0 false.

(** The nearest binary64 value to [p/q], signed by [s]: the quotient
    is computed to more than [prec] bits with its remainder, then
    rounded once. *)
Definition of_ratio (s : bool) (p q : positive) : float :=
  SFdiv prec emax (S754_finite s p 0) (S754_finite false q 0).

Definition one : float := of_Z 1.
Definition half : float := of_ratio false 1 2.

Definition is_zero (x : float) : bool :=
  match x with S754_zero _ => true | _ => false end.

Definition is_nan (x : float) : bool :=
  match x with S754_nan => true | _ => false end.

Definition is_inf (x : float) : bool :=
  match x with S754_infinity _ => true | _ => false end.

Definition sign_bit (x : float) : bool :=
  match x with
  | S754_zero s | S754_infinity s | S754_finite s _ _ => s
  | S754_nan => false
  end.

(** Equality of representations (a value has one canonical form). *)
Definition same (x y : float) : bool :=
  match x, y with
  | S754_zero a, S754_zero b => Bool.eqb a b
  | S754_infinity a, S754_infinity b => Bool.eqb a b
  | S754_nan, S754_nan => true
  | S754_finite a m e, S754_finite b m' e' =>
      Bool.eqb a b && Pos.eqb m m' && Z.eqb e e'
  | _, _ => false
  end.

Definition sgn (s : bool) (z : Z) : Z := if s then - z else z.

(** [float(n)] and the implicit conversion of an [int] operand. *)
Definition of_int (z : Z) : res float :=
  let f := of_Z z in
  if is_inf f then Raise OverflowError else Ok f.

(** The integer nearest to [m/2^k], ties to even. *)
Definition round_half_even (n d : Z) : Z :=
  let q := n / d in
  let r := n mod d in
  match 2 * r ?= d with
  | Lt => q
  | Gt => q + 1
  | Eq => if Z.even q then q else q + 1
  end.

(** [round(x)]: the nearest [int], ties to even. *)
Definition round_int (x : float) : res Z :=
  match x with
  | S754_nan => Raise ValueError
  | S754_infinity _ => Raise OverflowError
  | S754_zero _ => Ok 0
  | S754_finite s m e =>
      if 0 <=? e then Ok (sgn s (Zpos m * 2 ^ e))
      else Ok (sgn s (round_half_even (Zpos m) (2 ^ (- e))))
  end.

(** [int(x)]: truncation toward zero. *)
Definition trunc_int (x : float) : res Z :=
  match x with
  | S754_nan => Raise ValueError
  | S754_infinity _ => Raise OverflowError
  | S754_zero _ => Ok 0
  | S754_finite s m e =>
      if 0 <=? e then Ok (sgn s (Zpos m * 2 ^ e))
      else Ok (sgn s (Zpos m / 2 ^ (- e)))
  end.

(** [x.as_integer_ratio()]: the exact value in lowest terms. *)
Definition as_integer_ratio (x : float) : res (Z * Z) :=
  match x with
  | S754_nan => Raise ValueError
  | S754_infinity _ => Raise OverflowError
  | S754_zero _ => Ok (0, 1)
  | S754_finite s m e =>
      if 0 <=? e then Ok (sgn s (Zpos m * 2 ^ e), 1)
      else
        let d := 2 ^ (- e) in
        let g := Z.gcd (Zpos m) d in
        Ok (sgn s (Zpos m / g), d / g)
  end.

(** [round(x, 2)]: the exact value is rounded to two decimals, ties
    to even, and the decimal result read back as the nearest float;
    infinities and NaN round to themselves. *)
Definition round2 (x : float) : float :=
  match x with
  | S754_finite s m e =>
      let n :=
        if 0 <=? e then Zpos m * 2 ^ e * 100
        else round_half_even (Zpos m * 100) (2 ^ (- e)) in
      match n with
      | Zpos p => of_ratio s p 100
      | _ => S754_zero s
      end
  | _ => x
  end.

(** The exact canonical form of [r * 2^e] when it is representable:
    the mantissa is shifted left up to [prec] bits, the exponent not
    below the least one. *)
Definition normalize (s : bool) (r : positive) (e : Z) : float :=
  let k := Z.min (prec - Zpos (digits2_pos r)) (e - emin prec emax) in
  match k with
  | Zpos k' => S754_finite s (Pos.iter xO r k') (e - k)
  | _ => S754_finite s r e
  end.

(** C's [fmod]: exact, with the sign of the dividend. *)
Definition fmod (x y : float) : float :=
  match x, y with
  | S754_nan, _ | _, S754_nan => nan
  | S754_infinity _, _ => nan
  | _, S754_zero _ => nan
  | S754_zero _, _ => x
  | S754_finite _ _ _, S754_infinity _ => x
  | S754_finite sx mx ex, S754_finite _ my ey =>
      let e := Z.min ex ey in
      match (Zpos mx * 2 ^ (ex - e)) mod (Zpos my * 2 ^ (ey - e)) with
      | Zpos r => normalize sx r e
      | _ => S754_zero sx
      end
  end.

(** C's [floor]. *)
Definition floor (x : float) : float :=
  match x with
  | S754_finite s m e =>
      if 0 <=? e then x
      else
        let q := Zpos m / 2 ^ (- e) in
        let r := Zpos m mod 2 ^ (- e) in
        let n := if s && negb (r =? 0) then q + 1 else q in
        match n with
        | Zpos p => binary_normalize prec emax (sgn s (Zpos p)) 0 false
        | _ => S754_zero s
        end
  | _ => x
  end.

(** Truthiness: anything but a zero. *)
Definition truthy (x : float) : bool := negb (is_zero x).

(** [float_floor_div] of floatobject.c, for a divisor that is not zero. *)
Definition floor_div (vx wx : float) : float :=
  let md := fmod vx wx in
  let dv := div (sub vx md) wx in
  let dv :=
    if truthy md && xorb (ltb wx zero) (ltb md zero) then sub dv one
    else dv in
  if truthy dv then
    let fl := floor dv in
    if ltb half (sub dv fl) then add fl one else fl
  else S754_zero (sign_bit (div vx wx)).

(** *** Decimal conversions *)

(** The nearest float to [n * 10^t], as a float literal and
    [float(str)] read it; an infinity when out of range. *)
Definition of_decimal (s : bool) (n : positive) (t : Z) : float :=
  if 0 <=? t then binary_normalize prec emax (sgn s (Zpos n * 10 ^ t)) 0 false
  else of_ratio s n (Z.to_pos (10 ^ (- t))).

(** The exact value [m * 2^e] as a quotient of integers. *)
Definition ratio_of (m : positive) (e : Z) : Z * Z :=
  if 0 <=? e then (Zpos m * 2 ^ e, 1) else (Zpos m, 2 ^ (- e)).

(** The least [k >= k0] with [p < q * 10^k]. *)
Fixpoint decpt_up (fuel : nat) (p q k : Z) : Z :=
  match fuel with
  | O => k
  | S fuel' => if p <? q * 10 ^ k then k else decpt_up fuel' p q (k + 1)
  end.

(** The least [j >= j0] with [q <= p * 10^j]. *)
Fixpoint decpt_down (fuel : nat) (p q j : Z) : Z :=
  match fuel with
  | O => j
  | S fuel' => if q <=? p * 10 ^ j then j else decpt_down fuel' p q (j + 1)
  end.

(** The position [k] of the decimal point: [10^(k-1) <= p/q < 10^k]. *)
Definition decpt (p q : Z) : Z :=
  if q <=? p then decpt_up 400 p q 1 else 1 - decpt_down 400 p q 1.

(** The shortest decimal [d * 10^t] that reads back as [x], the
    nearest to [x] when two of that length do (ties to the even
    digit); [n] is the number of digits tried. *)
Fixpoint shortest (fuel : nat) (x : float) (s : bool) (p q k n : Z) : Z * Z :=
  let t := k - n in
  let num := if 0 <=? t then p else p * 10 ^ (- t) in
  let den := if 0 <=? t then q * 10 ^ t else q in
  let lo := num / den in
  let hi := lo + 1 in
  let r := num mod den in
  let ok_lo := same (of_decimal s (Z.to_pos lo) t) x in
  let ok_hi := same (of_decimal s (Z.to_pos hi) t) x in
  let near :=
    match 2 * r ?= den with
    | Lt => lo
    | Gt => hi
    | Eq => if Z.even lo then lo else hi
    end in
  match fuel with
  | O => (near, t)
  | S fuel' =>
      if ok_lo && ok_hi then (near, t)
      else if ok_lo then (lo, t)
      else if ok_hi then (hi, t)
      else shortest fuel' x s p q k (n + 1)
  end.

Fixpoint strip_zeros (fuel : nat) (d t : Z) : Z * Z :=
  match fuel with
  | O => (d, t)
  | S fuel' =>
      if (d mod 10 =? 0) && negb (d =? 0) then strip_zeros fuel' (d / 10) (t + 1)
      else (d, t)
  end.

Definition zeros (n : Z) : string := PyStr.repeat "0"%char (Z.to_nat n).

(** [repr(x)], which is also [str(x)] and [format(x, "")]. *)
Definition repr (x : float) : string :=
  match x with
  | S754_nan => "nan"
  | S754_infinity s => if s then "-inf" else "inf"
  | S754_zero s => if s then "-0.0" else "0.0"
  | S754_finite s m e =>
      let '(p, q) := ratio_of m e in
      let '(d, t) := shortest 17 x s p q (decpt p q) 1 in
      let '(d, t) := strip_zeros 20 d t in
      let ds := PyStr.of_int d in
      let len := Z.of_nat (String.length ds) in
      let pt := t + len in
      let body :=
        if (-4 <? pt) && (pt <=? 16) then
          if pt <=? 0 then "0." ++ zeros (- pt) ++ ds
          else if len <=? pt then ds ++ zeros (pt - len) ++ ".0"
          else PyStr.take (Z.to_nat pt) ds ++ "." ++
               substring (Z.to_nat pt) (Z.to_nat (len - pt)) ds
        else
          let ex := pt - 1 in
          let es := PyStr.of_int (Z.abs ex) in
          let mant :=
            match ds with
            | String c EmptyString => ds
            | String c rest => String c ("." ++ rest)
            | EmptyString => ds
            end in
          mant ++ "e" ++ (if ex <? 0 then "-" else "+") ++
          (if Z.abs ex <? 10 then "0" else "") ++ es in
      (if s then "-" else "") ++ body
  end.

(** The value of a string of decimal digits. *)
Fixpoint digits_value (s : string) (acc : Z) : Z :=
  match s with
  | EmptyString => acc
  | String c s' => digits_value s' (10 * acc + (Z.of_N (PyStr.ord c) - 48))
  end.

Definition of_literal (s : bool) (ip fp : string) (ex : Z) : float :=
  match digits_value (ip ++ fp) 0 with
  | Zpos d => of_decimal s d (ex - Z.of_nat (String.length fp))
  | _ => S754_zero s
  end.

(** The white space [float(str)] strips. *)
Definition float_space (c : ascii) : bool :=
  PyStr.between 9 13 c || (PyStr.ord c =? 32)%N ||
  (PyStr.ord c =? 133)%N || (PyStr.ord c =? 160)%N.

Fixpoint lstrip_float (s : string) : string :=
  match s with
  | EmptyString => EmptyString
  | String c s' => if float_space c then lstrip_float s' else s
  end.

Fixpoint rstrip_float (s : string) : string :=
  match s with
  | EmptyString => EmptyString
  | String c s' =>
      match rstrip_float s' with
      | EmptyString => if float_space c then EmptyString else String c EmptyString
      | r => String c r
      end
  end.

(** Underscores go, each one only between two digits. *)
Fixpoint drop_underscores (prev : ascii) (s : string) : option string :=
  match s with
  | EmptyString => if (PyStr.ord prev =? 95)%N then None else Some EmptyString
  | String c s' =>
      if (PyStr.ord c =? 95)%N then
        if PyStr.isdigit prev then drop_underscores c s' else None
      else if (PyStr.ord prev =? 95)%N && negb (PyStr.isdigit c) then None
      else option_map (String c) (drop_underscores c s')
  end.

Definition split_sign (s : string) : bool * string :=
  match s with
  | String "-"%char s' => (true, s')
  | String "+"%char s' => (false, s')
  | _ => (false, s)
  end.

(** The exponent part: nothing, or [e], an optional sign and digits. *)
Definition exponent (s : string) : option Z :=
  match s with
  | EmptyString => Some 0
  | String c s' =>
      if (PyStr.ord c =? 101)%N || (PyStr.ord c =? 69)%N then
        let '(neg, ds) := split_sign s' in
        match PyStr.span PyStr.isdigit ds with
        | (String _ _ as d, EmptyString) => Some (sgn neg (digits_value d 0))
        | _ => None
        end
      else None
  end.

(** [float(s)] for a [str]. *)
Definition of_str (s : string) : res float :=
  match drop_underscores " "%char (rstrip_float (lstrip_float s)) with
  | None => Raise ValueError
  | Some u =>
      let '(neg, body) := split_sign u in
      let low := PyStr.lower body in
      if String.eqb low "inf" || String.eqb low "infinity" then Ok (S754_infinity neg)
      else if String.eqb low "nan" then Ok S754_nan
      else
        let '(ip, r1) := PyStr.span PyStr.isdigit body in
        let '(fp, r2) :=
          match r1 with
          | String "."%char r => PyStr.span PyStr.isdigit r
          | _ => (EmptyString, r1)
          end in
        if PyStr.nonempty (ip ++ fp) then
          match exponent r2 with
          | Some ex => Ok (of_literal neg ip fp ex)
          | None => Raise ValueError
          end
        else Raise ValueError
  end.

End PyFloat.


(** ** Numbers: [int] and [float] *)

Inductive pynum : Type :=
| PInt (z : Z)
| PFloat (f : PyFloat.float).

Module PyNum.

Definition to_float (x : pynum) : res PyFloat.float :=
  match x with
  | PInt z => PyFloat.of_int z
  | PFloat f => Ok f
  end.

(** [a / b] on [int]s: the correctly rounded quotient. *)
Definition int_true_divide (a b : Z) : res pynum :=
  if b =? 0 then Raise ZeroDivisionError
  else if a =? 0 then Ok (PFloat (S754_zero (b <? 0)))
  else
    let f := PyFloat.of_ratio (xorb (a <? 0) (b <? 0))
               (Z.to_pos (Z.abs a)) (Z.to_pos (Z.abs b)) in
    if PyFloat.is_inf f then Raise OverflowError else Ok (PFloat f).

(** [x / y] *)
Definition truediv (x y : pynum) : res pynum :=
  match x, y with
  | PInt a, PInt b => int_true_divide a b
  | _, _ =>
      fx <- to_float x ;;
      fy <- to_float y ;;
      if PyFloat.is_zero fy then Raise ZeroDivisionError
      else Ok (PFloat (PyFloat.div fx fy))
  end.

(** [x // y] *)
Definition floordiv (x y : pynum) : res pynum :=
  match x, y with
  | PInt a, PInt b =>
      if b =? 0 then Raise ZeroDivisionError else Ok (PInt (a / b))
  | _, _ =>
      fx <- to_float x ;;
      fy <- to_float y ;;
      if PyFloat.is_zero fy then Raise ZeroDivisionError
      else Ok (PFloat (PyFloat.floor_div fx fy))
  end.

(** [x * y] *)
Definition mul (x y : pynum) : res pynum :=
  match x, y with
  | PInt a, PInt b => Ok (PInt (a * b))
  | _, _ =>
      fx <- to_float x ;;
      fy <- to_float y ;;
      Ok (PFloat (PyFloat.mul fx fy))
  end.

(** [round(x, 2)] *)
Definition round2 (x : pynum) : pynum :=
  match x with
  | PInt z => PInt z
  | PFloat f => PFloat (PyFloat.round2 f)
  end.

(** [round(x)] *)
Definition round_int (x : pynum) : res Z :=
  match x with
  | PInt z => Ok z
  | PFloat f => PyFloat.round_int f
  end.

(** [int(x)] *)
Definition to_int (x : pynum) : res Z :=
  match x with
  | PInt z => Ok z
  | PFloat f => PyFloat.trunc_int f
  end.

(** [str(x)] *)
Definition str (x : pynum) : string :=
  match x with
  | PInt z => PyStr.of_int z
  | PFloat f => PyFloat.repr f
  end.

(** [x >= 0] *)
Definition ge0 (x : pynum) : bool :=
  match x with
  | PInt z => 0 <=? z
  | PFloat f => SFleb PyFloat.zero f
  end.

(** [x < 0] *)
Definition lt0 (x : pynum) : bool :=
  match x with
  | PInt z => z <? 0
  | PFloat f => SFltb f PyFloat.zero
  end.

End PyNum.

(** ** [eval] on the text of the [qty] group

    The group holds only digits, [.] and [/], so the expressions it can
    spell are number literals and [...] joined by [/] and [//]. *)

Module PyEval.

Inductive value : Type :=
| VNum (x : pynum)
| VEllipsis.

Inductive token : Type :=
| TNum (x : pynum)
| TEllipsis
| TSlash
| TDoubleSlash.

(** Where the tokenizer stands inside a token. *)
Inductive lex_state : Type :=
| LStart
| LInt (ds : string)        (* digits of an integer part *)
| LFrac (ip fp : string)    (* after the point: integer and fraction digits *)
| LDot                      (* one [.] *)
| LDotDot                   (* two *)
| LSlash.                   (* one [/] *)

Definition is_char (c : ascii) (n : N) : bool := (PyStr.ord c =? n)%N.

(** A decimal integer literal: leading zeros only on zero itself. *)
Definition emit_int (ds : string) : res token :=
  let v := PyFloat.digits_value ds 0 in
  match ds with
  | String "0"%char _ => if v =? 0 then Ok (TNum (PInt 0)) else Raise SyntaxError
  | _ => Ok (TNum (PInt v))
  end.

Definition emit_float (ip fp : string) : token :=
  TNum (PFloat (PyFloat.of_literal false ip fp 0)).

Definition start (c : ascii) : res lex_state :=
  if PyStr.isdigit c then Ok (LInt (String c EmptyString))
  else if is_char c 46 then Ok LDot
  else if is_char c 47 then Ok LSlash
  else Raise SyntaxError.

(** At the end of the text. A lone [.] or [..] is the token DOT, which
    no expression here can hold. *)
Definition flush (st : lex_state) : res (list token) :=
  match st with
  | LStart => Ok []
  | LInt ds => t <- emit_int ds ;; Ok [t]
  | LFrac ip fp => Ok [emit_float ip fp]
  | LDot | LDotDot => Raise SyntaxError
  | LSlash => Ok [TSlash]
  end.

Definition push (c : ascii) (s : string) : string := s ++ String c EmptyString.

Fixpoint lex (st : lex_state) (s : string) : res (list token) :=
  match s with
  | EmptyString => flush st
  | String c s' =>
      match st with
      | LStart => st' <- start c ;; lex st' s'
      | LInt ds =>
          if PyStr.isdigit c then lex (LInt (push c ds)) s'
          else if is_char c 46 then lex (LFrac ds EmptyString) s'
          else t <- emit_int ds ;; st' <- start c ;; ts <- lex st' s' ;; Ok (t :: ts)
      | LFrac ip fp =>
          if PyStr.isdigit c then lex (LFrac ip (push c fp)) s'
          else st' <- start c ;; ts <- lex st' s' ;; Ok (emit_float ip fp :: ts)
      | LDot =>
          if PyStr.isdigit c then lex (LFrac EmptyString (String c EmptyString)) s'
          else if is_char c 46 then lex LDotDot s'
          else Raise SyntaxError
      | LDotDot =>
          if is_char c 46 then ts <- lex LStart s' ;; Ok (TEllipsis :: ts)
          else Raise SyntaxError
      | LSlash =>
          if is_char c 47 then ts <- lex LStart s' ;; Ok (TDoubleSlash :: ts)
          else st' <- start c ;; ts <- lex st' s' ;; Ok (TSlash :: ts)
      end
  end.

Inductive binop : Type := Div | FloorDiv.

Inductive expr : Type :=
| Const (v : value)
| BinOp (l : expr) (op : binop) (r : expr).

Definition atom (t : token) : option value :=
  match t with
  | TNum x => Some (VNum x)
  | TEllipsis => Some VEllipsis
  | _ => None
  end.

Definition operator (t : token) : option binop :=
  match t with
  | TSlash => Some Div
  | TDoubleSlash => Some FloorDiv
  | _ => None
  end.

(** [atom (op atom)*], grouped to the left. *)
Fixpoint parse_rest (acc : expr) (ts : list token) : res expr :=
  match ts with
  | [] => Ok acc
  | o :: a :: ts' =>
      match operator o, atom a with
      | Some op, Some v => parse_rest (BinOp acc op (Const v)) ts'
      | _, _ => Raise SyntaxError
      end
  | _ => Raise SyntaxError
  end.

Definition parse (ts : list token) : res expr :=
  match ts with
  | a :: ts' =>
      match atom a with
      | Some v => parse_rest (Const v) ts'
      | None => Raise SyntaxError
      end
  | [] => Raise SyntaxError
  end.

Definition apply (op : binop) (a b : value) : res value :=
  match a, b with
  | VNum x, VNum y =>
      r <- match op with
           | Div => PyNum.truediv x y
           | FloorDiv => PyNum.floordiv x y
           end ;;
      Ok (VNum r)
  | _, _ => Raise TypeError
  end.

Fixpoint eval_expr (e : expr) : res value :=
  match e with
  | Const v => Ok v
  | BinOp l op r => a <- eval_expr l ;; b <- eval_expr r ;; apply op a b
  end.

Definition eval (s : string) : res value :=
  ts <- lex LStart s ;;
  e <- parse ts ;;
  eval_expr e.

End PyEval.

(** ** [fractions.Fraction]

    A [Fraction] is a [Q] kept in lowest terms. *)

Module Fractions.

(** [Fraction(n, d)] *)
Definition make (n d : Z) : res Q :=
  match d with
  | Z0 => Raise ZeroDivisionError
  | Zpos p => Ok (Qred (n # p))
  | Zneg p => Ok (Qred (- n # p))
  end.

(** [Fraction(x)] for an [int] or a [float]: the exact value. *)
Definition of_num (x : pynum) : res Q :=
  match x with
  | PInt z => Ok (z # 1)
  | PFloat f =>
      nd <- PyFloat.as_integer_ratio f ;;
      Ok (fst nd # Z.to_pos (snd nd))
  end.

Definition numerator (f : Q) : Z := Qnum f.
Definition denominator (f : Q) : Z := Zpos (Qden f).

(** The divisor of Euclid's algorithm shrinks in absolute value. *)
Definition abs_lt (x y : Z) : Prop := Z.abs x < Z.abs y.

Lemma abs_lt_wf : well_founded abs_lt.
Proof.
  apply (well_founded_lt_compat Z Z.abs_nat).
  unfold abs_lt. intros x y H. lia.
Qed.

(** The accessibility proof is guarded, so that the loop below
    computes by reduction. *)
#[local] Instance abs_lt_WellFounded : WellFounded abs_lt :=
  Acc_intro_generator 11 abs_lt_wf.

(** The [while True] loop of [limit_denominator]; it leaves by
    [break] with [(p0, q0, p1, q1)], and [n // d] raises when [d]
    is zero. *)
Equations? loop (max_denominator p0 q0 p1 q1 n d : Z) : res (Z * Z * Z * Z)
  by wf d abs_lt :=
  loop max_denominator p0 q0 p1 q1 n d with Z.eq_dec d 0 := {
    | left _ => Raise ZeroDivisionError
    | right _ =>
        if max_denominator <? q0 + (n / d) * q1 then Ok (p0, q0, p1, q1)
        else loop max_denominator p1 q1 (p0 + (n / d) * p1) (q0 + (n / d) * q1)
                  d (n - (n / d) * d) }.
Proof.
  unfold abs_lt.
  assert (H : n - n / d * d = n mod d) by (rewrite Z.mod_eq by assumption; ring).
  rewrite H.
  destruct (Z.lt_ge_cases 0 d) as [Hd | Hd].
  - pose proof (Z.mod_pos_bound n d Hd). lia.
  - assert (Hd' : d < 0) by lia.
    pose proof (Z.mod_neg_bound n d Hd'). lia.
Qed.

(** [self.limit_denominator(max_denominator)] *)
Definition limit_denominator (self : Q) (max_denominator : Z) : res Q :=
  if max_denominator <? 1 then Raise ValueError
  else if denominator self <=? max_denominator then Ok self
  else
    r <- loop max_denominator 0 1 1 0 (numerator self) (denominator self) ;;
    let '(p0, q0, p1, q1) := r in
    if q1 =? 0 then Raise ZeroDivisionError
    else
      let k := (max_denominator - q0) / q1 in
      bound1 <- make (p0 + k * p1) (q0 + k * q1) ;;
      bound2 <- make p1 q1 ;;
      if Qle_bool (Qabs (bound2 - self)) (Qabs (bound1 - self)) then Ok bound2
      else Ok bound1.

(** [str(f)] *)
Definition str (f : Q) : string :=
  if denominator f =? 1 then PyStr.of_int (numerator f)
  else PyStr.of_int (numerator f) ++ "/" ++ PyStr.of_int (denominator f).

End Fractions.

(** ** The data set

    [pd.read_excel(EXCEL_PATH, sheet_name=None)] gives a dict from sheet
    name to DataFrame, in the order of the sheets. A cell is a [str], an
    [int] or a [float] (an empty cell is NaN). *)

Inductive pyval : Type :=
| VStr (s : string)
| VInt (z : Z)
| VFloat (f : PyFloat.float).

(** [str(v)], and [astype(str)] on one cell. *)
Definition py_str (v : pyval) : string :=
  match v with
  | VStr s => s
  | VInt z => PyStr.of_int z
  | VFloat f => PyFloat.repr f
  end.

(** [float(v)] *)
Definition py_float (v : pyval) : res PyFloat.float :=
  match v with
  | VStr s => PyFloat.of_str s
  | VInt z => PyFloat.of_int z
  | VFloat f => Ok f
  end.

Record DataFrame : Type := {
  columns : list string;
  rows : list (list pyval)
}.

Definition workbook : Type := list (string * DataFrame).

(** The position of a column label. *)
Fixpoint column_index (col : string) (cols : list string) : nat :=
  match cols with
  | [] => O
  | c :: cols' => if String.eqb c col then O else S (column_index col cols')
  end.

(** [row[col]] *)
Definition cell (cols : list string) (col : string) (row : list pyval) : pyval :=
  nth (column_index col cols) row (VFloat PyFloat.nan).

(** [col in df.columns] *)
Definition has_column (df : DataFrame) (col : string) : bool :=
  existsb (String.eqb col) (columns df).

(** [df.empty] *)
Definition empty (df : DataFrame) : bool :=
  match columns df, rows df with
  | _ :: _, _ :: _ => false
  | _, _ => true
  end.

(** ** Config *)

Definition BASE_SERVINGS : Z := 2.

Definition LINEAR_INGREDIENTS : list string :=
  ["rice"; "flour"; "water"; "milk"; "oil"; "ghee"; "sugar";
   "jaggery"; "coconut"; "curd"].
Definition LOG_INGREDIENTS : list string :=
  ["salt"; "spice"; "turmeric"; "chilli"; "pepper"; "masala"].
Definition FIXED_INGREDIENTS : list string :=
  ["cardamom"; "cloves"; "cinnamon"; "bay leaf"; "mustard"; "curry leaves"].

(** A dict literal, in the order its keys are iterated. *)
Definition LANGUAGE_SUFFIX : list (string * string) :=
  [("TamilName", "ta"); ("tamilname", "ta");
   ("hindiName", "hn"); ("malayalamName", "kl");
   ("kannadaName", "kn"); ("teluguName", "te");
   ("frenchName", "french"); ("spanishName", "spanish");
   ("germanName", "german")].

(** ** Helper functions *)

(** The default of [precision], [1/8], evaluated once at definition. *)
Definition default_precision : pynum :=
  Eval vm_compute in catch (PyNum.truediv (PInt 1) (PInt 8)) (PInt 0).

Definition to_mixed_fraction (val precision : pynum) : res string :=
  self <- Fractions.of_num val ;;
  inv <- PyNum.truediv (PInt 1) precision ;;
  max_denominator <- PyNum.to_int inv ;;
  frac <- Fractions.limit_denominator self max_denominator ;;
  let whole := Fractions.numerator frac / Fractions.denominator frac in
  let remainder := Fractions.numerator frac mod Fractions.denominator frac in
  rem <- Fractions.make remainder (Fractions.denominator frac) ;;
  if Fractions.numerator rem =? 0 then Ok (PyStr.of_int whole)
  else if whole =? 0 then Ok (Fractions.str rem)
  else Ok (PyStr.of_int whole ++ " and " ++ Fractions.str rem).

(** [int(round(float(minutes)))] *)
Definition rounded_minutes (minutes : pyval) : res Z :=
  x <- py_float minutes ;;
  PyFloat.round_int x.

Definition format_time (minutes : pyval) : string :=
  catch
    (m <- rounded_minutes minutes ;;
     let hrs := m / 60 in
     let mins := m mod 60 in
     Ok ((if hrs =? 0 then ""
          else PyStr.of_int hrs ++ " hr" ++ (if 1 <? hrs then "s" else "") ++ " ") ++
         (if mins =? 0 then ""
          else PyStr.of_int mins ++ " min" ++ (if 1 <? mins then "s" else ""))))
    (py_str minutes).

(** The rows whose cell under [col], as a string, lowered and stripped,
    is [lower]: [df[df[col].astype(str).str.lower().str.strip() == lower]]. *)
Definition select (df : DataFrame) (col lower : string) : DataFrame :=
  {| columns := columns df;
     rows := filter (fun row =>
               String.eqb (PyStr.strip (PyStr.lower (py_str (cell (columns df) col row))))
                          lower)
             (rows df) |}.

(** One of the two [for] loops over name columns, on one sheet. *)
Fixpoint detect_in_columns (df : DataFrame) (lower : string)
    (cols : list (string * string)) : option (string * string * DataFrame) :=
  match cols with
  | [] => None
  | (col, code) :: cols' =>
      if has_column df col then
        let hit := select df col lower in
        if negb (empty hit) then Some (col, code, hit)
        else detect_in_columns df lower cols'
      else detect_in_columns df lower cols'
  end.

Fixpoint detect_in_sheets (xls : workbook) (lower : string)
    : option (string * string * string * DataFrame) :=
  match xls with
  | [] => None
  | (sheet, df) :: xls' =>
      match detect_in_columns df lower LANGUAGE_SUFFIX with
      | Some (col, code, hit) => Some (sheet, col, code, hit)
      | None =>
          match detect_in_columns df lower [("name", "en"); ("Name", "en")] with
          | Some (col, code, hit) => Some (sheet, col, code, hit)
          | None => detect_in_sheets xls' lower
          end
      end
  end.

(** [None] stands for the tuple [(None, None, None, None)]. *)
Definition detect_row (xls : workbook) (recipe_name : string)
    : option (string * string * string * DataFrame) :=
  let lower := PyStr.lower recipe_name in
  detect_in_sheets xls lower.

Record IngredientEntry : Type := {
  amount : pynum;
  unit : string;
  name : string;
  formattedAmount : string
}.

(** [m.group(g)] of a match object, [None] when the group took no part. *)
Definition group_text (m : Re.groups) (g : string) : res string :=
  match Re.group m g with
  | Some s => Ok s
  | None => Raise AttributeError
  end.

(** The body of the [for] loop: the entry appended for [it], if any. *)
Definition parse_item (it : string) : res (option IngredientEntry) :=
  match Re.rmatch ingredient_re it with
  | None => Ok None
  | Some m =>
      let amt :=
        match Re.group m "qty" with
        | Some (String _ _ as qty) => catch (PyEval.eval qty) (PyEval.VNum (PInt 1))
        | _ => PyEval.VNum (PInt 1)
        end in
      u <- group_text m "unit" ;;
      n <- group_text m "name" ;;
      match amt with
      | PyEval.VNum a =>
          Ok (Some {| amount := a;
                      unit := PyStr.strip u;
                      name := PyStr.strip n;
                      formattedAmount := PyNum.str (PyNum.round2 a) |})
      | PyEval.VEllipsis => Raise TypeError
      end
  end.

Fixpoint parse_items (items : list string) : res (list IngredientEntry) :=
  match items with
  | [] => Ok []
  | it :: items' =>
      r <- parse_item it ;;
      out <- parse_items items' ;;
      Ok (match r with Some e => e :: out | None => out end)
  end.

(** [[i.strip() for i in re.split(r",|\n", s) if i.strip()]] *)
Definition fragments (s : string) : list string :=
  map PyStr.strip
    (filter (fun i => PyStr.nonempty (PyStr.strip i)) (Re.split_comma_newline s)).

Definition parse_ingredient_line (line : pyval) : res (list IngredientEntry) :=
  let items := fragments (py_str line) in
  parse_items items.

(** [any(k in name for k in keys)] *)
Definition any_in (keys : list string) (name : string) : bool :=
  existsb (fun k => PyStr.contains k name) keys.

Definition scale_cooking_time (t : pyval) (servings base : Z) : pyval :=
  catch
    (x <- py_float t ;;
     r <- PyNum.truediv (PInt servings) (PInt base) ;;
     y <- PyNum.mul (PFloat x) r ;;
     n <- PyNum.round_int y ;;
     Ok (VInt n))
    (VStr "N/A").

Record AdjustmentResult : Type := {
  recipe : string;
  base_servings : Z;
  new_servings : Z;
  original_time : string;
  adjusted_time : string;
  ingredients : list IngredientEntry
}.

(** What the view returns: a JSON body with its status. *)
Inductive response : Type :=
| Adjusted (r : AdjustmentResult)              (* 200 *)
| Failed (error : string) (status : Z).

(** [next((c for c in cols if p(c)), None)] *)
Definition first_column (p : string -> bool) (cols : list string) : option string :=
  find p cols.

(** [a or b] on two optional column labels. *)
Definition or_else (a b : option string) : option string :=
  match a with
  | Some c => if PyStr.nonempty c then a else b
  | None => b
  end.

Section Libm.

(** [math.log] on a positive [int]. *)
Variable libm_log : Z -> PyFloat.float.

Definition log (x : Z) : res PyFloat.float :=
  if x <=? 0 then Raise ValueError else Ok (libm_log x).

Definition scale_ingredient (item : IngredientEntry) (servings base : Z)
    : res IngredientEntry :=
  let name' := PyStr.lower (name item) in
  let qty := amount item in
  scaled <-
    (if any_in FIXED_INGREDIENTS name' then Ok qty
     else if any_in LOG_INGREDIENTS name' then
       ls <- log servings ;;
       lb <- log base ;;
       r <- PyNum.truediv (PFloat ls) (PFloat lb) ;;
       PyNum.mul qty r
     else
       r <- PyNum.truediv (PInt servings) (PInt base) ;;
       PyNum.mul qty r) ;;
  let rounded := PyNum.round2 scaled in
  formatted <- to_mixed_fraction scaled default_precision ;;
  Ok {| amount := rounded;
        unit := unit item;
        name := name item;
        formattedAmount := formatted |}.

(** The view, from the decoded payload on: [recipe_name] is
    [payload.get("recipe_name", "")] and [servings] is
    [int(payload.get("servings", BASE_SERVINGS))]. *)
Definition adjust_ingredients (xls : workbook) (recipe_name : string)
    (servings : Z) : res response :=
  let recipe := PyStr.strip recipe_name in
  match detect_row xls recipe with
  | None => Ok (Failed "Recipe not found" 404)
  | Some (sheet, lang_col, lang_code, df_row) =>
      match rows df_row with
      | [] => Raise IndexError
      | row :: _ =>
          let index := columns df_row in
          let ing_col :=
            or_else
              (first_column (fun c =>
                 PyStr.contains ("ingredients_" ++ lang_code) (PyStr.lower c)) index)
              (first_column (fun c =>
                 PyStr.contains "ingredients_en" (PyStr.lower c)) index) in
          match ing_col with
          | None => Ok (Failed "Ingredient column not found" 500)
          | Some ing_col =>
              let cook_col :=
                first_column (fun c =>
                  String.eqb (PyStr.lower c) "cooking" ||
                  String.eqb (PyStr.lower c) "cookingtime") index in
              let original_time :=
                match cook_col with
                | Some c => if PyStr.nonempty c then cell index c row else VStr "N/A"
                | None => VStr "N/A"
                end in
              let new_time := scale_cooking_time original_time servings BASE_SERVINGS in
              base_ing <- parse_ingredient_line (cell index ing_col row) ;;
              adjusted_ing <-
                mapM (fun i => scale_ingredient i servings BASE_SERVINGS) base_ing ;;
              Ok (Adjusted
                    {| recipe := recipe;
                       base_servings := BASE_SERVINGS;
                       new_servings := servings;
                       original_time := format_time original_time;
                       adjusted_time := format_time new_time;
                       ingredients := adjusted_ing |})
          end
      end
  end.

End Libm.

(** ** The key check *)

(** [new.join(s)] with [new] at both ends too: what [s.replace("", new)] is. *)
Fixpoint intersperse (new s : string) : string :=
  match s with
  | EmptyString => new
  | String c s' => new ++ String c (intersperse new s')
  end.

(** The occurrences of [old] are replaced from the left, each search
    starting after the one before; [skip] characters of the last
    occurrence are still to pass. *)
Fixpoint replace_from (old new : string) (skip : nat) (s : string) : string :=
  match s with
  | EmptyString => EmptyString
  | String c s' =>
      match skip with
      | S k => replace_from old new k s'
      | O =>
          if prefix old s then new ++ replace_from old new (Nat.pred (String.length old)) s'
          else String c (replace_from old new O s')
      end
  end.

(** [s.replace(old, new)] *)
Definition replace (old new s : string) : string :=
  match old with
  | EmptyString => intersperse new s
  | _ => replace_from old new O s
  end.

(** [os.getenv("API_KEY") or "abc123securetoken"], from the value of
    the environment variable when it is set. *)
Definition API_KEY (env : option string) : string :=
  match env with
  | Some k => if PyStr.nonempty k then k else "abc123securetoken"
  | None => "abc123securetoken"
  end.

(** What a guarded view does: [abort] with a status, or the call. *)
Inductive guarded (A : Type) : Type :=
| Aborted (status : Z) (description : string)
| Called (a : A).
Arguments Aborted {A} status description.
Arguments Called {A} a.

(** The wrapper that [require_key(fn)] returns; [authorization] is the
    header of the request when it has one, [fn] the call of the view. *)
Definition require_key {A : Type} (api_key : string) (authorization : option string)
    (fn : A) : guarded A :=
  let token :=
    replace "Bearer " "" (match authorization with Some h => h | None => "" end) in
  if negb (String.eqb token api_key) then Aborted 401 "Unauthorized"
  else Called fn.

(** * Vocabulary of the properties *)

(** ** The shape of a match *)

(** What [ingredient_re] matches, read off the subject directly: the
    run of quantity characters, the run of white space, one letter, one
    white space character, and the rest up to a newline. *)
Definition shape_tail (g : Re.groups) (s : string) : option Re.groups :=
  match s with
  | String u (String w r3) =>
      if PyStr.isalpha_ascii u && PyStr.isspace w then
        match PyStr.span Re.dot r3 with
        | (String _ _ as nm, _) => Some (("name", nm) :: ("unit", String u EmptyString) :: g)
        | _ => None
        end
      else None
  | _ => None
  end.

Definition ingredient_shape (it : string) : option Re.groups :=
  let '(q, r1) := PyStr.span qty_char it in
  shape_tail (match q with EmptyString => [] | _ => [("qty", q)] end)
             (snd (PyStr.span PyStr.isspace r1)).

(** ** Signs *)

(** Not negative: the sign bit is clear (NaN carries none). *)
Definition positive_sign (x : PyFloat.float) : Prop := PyFloat.sign_bit x = false.

Fixpoint all_chars (p : ascii -> bool) (s : string) : bool :=
  match s with
  | EmptyString => true
  | String c s' => p c && all_chars p s'
  end.

Definition nonneg (x : pynum) : Prop :=
  match x with
  | PInt z => 0 <= z
  | PFloat f => positive_sign f
  end.

Definition nonneg_value (v : PyEval.value) : Prop :=
  match v with
  | PyEval.VNum x => nonneg x
  | PyEval.VEllipsis => True
  end.

Definition nonneg_token (t : PyEval.token) : Prop :=
  match t with
  | PyEval.TNum x => nonneg x
  | _ => True
  end.

Fixpoint nonneg_expr (e : PyEval.expr) : Prop :=
  match e with
  | PyEval.Const v => nonneg_value v
  | PyEval.BinOp l _ r => nonneg_expr l /\ nonneg_expr r
  end.

Definition digits_state (st : PyEval.lex_state) : Prop :=
  match st with
  | PyEval.LInt ds => all_chars PyStr.isdigit ds = true
  | PyEval.LFrac ip fp =>
      all_chars PyStr.isdigit ip = true /\ all_chars PyStr.isdigit fp = true
  | _ => True
  end.

(** ** Fractions *)

(** The state before an iteration of the loop of [limit_denominator]
    on [N/D] with bound [M], after the first one:
    [p0/q0] and [p1/q1] are the last two convergents of [N/D], of
    determinant [sigma], and [n/d] is the complete quotient left. *)
Definition loop_state (N D M sigma p0 q0 p1 q1 n d : Z) : Prop :=
  (sigma = 1 \/ sigma = -1) /\
  p0 * q1 - p1 * q0 = sigma /\
  N = p1 * n + p0 * d /\
  D = q1 * n + q0 * d /\
  0 < d < n /\
  Z.gcd n d = 1 /\
  0 <= q0 <= M /\
  1 <= q1 <= M.

(** The fraction shown: the whole part alone, the proper fraction
    alone, or both joined by "and". *)
Definition mixed_form (r : Q) : string :=
  let whole := Qnum r / Zpos (Qden r) in
  let part := Qnum r mod Zpos (Qden r) in
  if part =? 0 then PyStr.of_int whole
  else if whole =? 0 then PyStr.of_int part ++ "/" ++ PyStr.of_int (Zpos (Qden r))
  else PyStr.of_int whole ++ " and " ++
       PyStr.of_int part ++ "/" ++ PyStr.of_int (Zpos (Qden r)).

(** The float a decimal literal denotes. *)
Definition flt (s : string) : PyFloat.float := catch (PyFloat.of_str s) PyFloat.nan.

(** ** Parts of an answer, and examples *)

(** "<h> hr", with "s" when there is more than one. *)
Definition hour_part (h : Z) : string :=
  PyStr.of_int h ++ " hr" ++ (if 1 <? h then "s" else "").

(** "<m> min", with "s" when there is more than one. *)
Definition minute_part (m : Z) : string :=
  PyStr.of_int m ++ " min" ++ (if 1 <? m then "s" else "").

(** An [int], or a [float] that is neither an infinity nor NaN. *)
Definition finite (x : pynum) : Prop :=
  match x with
  | PInt _ => True
  | PFloat (S754_infinity _) | PFloat S754_nan => False
  | PFloat _ => True
  end.

(** [round(amount * servings / base, 2)], the product taken as the code
    takes it: [amount * (servings / base)]. *)
Definition linear_amount (amount : pynum) (servings base : Z) : res pynum :=
  ratio <- PyNum.truediv (PInt servings) (PInt base) ;;
  scaled <- PyNum.mul amount ratio ;;
  Ok (PyNum.round2 scaled).

(** A stand-in for [math.log] where an example needs one. *)
Definition log2_floor (x : Z) : PyFloat.float := PyFloat.of_Z (Z.log2 x).

Definition rice : IngredientEntry :=
  {| amount := PInt 2; unit := "c"; name := "rice"; formattedAmount := "2" |}.

Definition salt : IngredientEntry :=
  {| amount := PFloat (flt "0.5"); unit := "t"; name := "salt";
     formattedAmount := "0.5" |}.

(** What "1/3 t cardamom" parses to. *)
Definition cardamom : IngredientEntry :=
  {| amount := PFloat (flt "0.3333333333333333"); unit := "t"; name := "cardamom";
     formattedAmount := "0.33" |}.

(** One sheet, one recipe stored as "pongal". *)
Definition pongal_book : workbook :=
  [("Sheet1",
    {| columns := ["name"; "ingredients_en"; "cooking"];
       rows := [[VStr "pongal"; VStr "2 c rice, 1/2 t salt"; VStr "30"]] |})].

(** The same recipe on a sheet without any ingredient column. *)
Definition pongal_bare : workbook :=
  [("Sheet1",
    {| columns := ["name"; "cooking"];
       rows := [[VStr "pongal"; VStr "30"]] |})].

(** The name columns [detect_row] looks at, in its order on a sheet. *)
Definition name_columns : list (string * string) :=
  (LANGUAGE_SUFFIX ++ [("name", "en"); ("Name", "en")])%list.

(** A literal of 310 digits: as a float literal it overflows to infinity. *)
Definition overflowing_literal : string := "1" ++ PyStr.repeat "0"%char 309 ++ ".".

(** ** Rows, fragments and a second example *)

(** [row] is a row of [df] whose cell under [col], as a string,
    lowered and stripped, is [lower]. *)
Definition names_row (df : DataFrame) (col lower : string) (row : list pyval) : Prop :=
  In row (rows df) /\
  PyStr.strip (PyStr.lower (py_str (cell (columns df) col row))) = lower.

(** Some name column of [df] holds [lower]. *)
Definition sheet_has (df : DataFrame) (lower : string) : Prop :=
  exists col code row,
    In (col, code) name_columns /\ has_column df col = true /\ names_row df col lower row.

(** The time cell the view reads from the matched row. *)
Definition time_cell (index : list string) (row : list pyval) : pyval :=
  match first_column (fun c => String.eqb (PyStr.lower c) "cooking" ||
                               String.eqb (PyStr.lower c) "cookingtime") index with
  | Some c => if PyStr.nonempty c then cell index c row else VStr "N/A"
  | None => VStr "N/A"
  end.

(** Two sheets; the recipe "Pongal" is on the second, under a Tamil
    name column, with no time column. *)
Definition festival_book : workbook :=
  [("Breakfast",
    {| columns := ["name"; "ingredients_en"; "cooking"];
       rows := [[VStr "idli"; VStr "2 c rice"; VInt 20]] |});
   ("Festival",
    {| columns := ["TamilName"; "name"; "ingredients_en"];
       rows := [[VStr "Pongal"; VStr "sweet pongal"; VStr "2 c rice, 1/2 t salt"]] |})].

Definition festival_sheet : DataFrame :=
  {| columns := ["TamilName"; "name"; "ingredients_en"];
     rows := [[VStr "Pongal"; VStr "sweet pongal"; VStr "2 c rice, 1/2 t salt"]] |}.

(** The answer for "Pongal" from [festival_book], for four. *)
Definition festival_answer : AdjustmentResult :=
  {| recipe := "Pongal";
     base_servings := 2;
     new_servings := 4;
     original_time := "N/A";
     adjusted_time := "N/A";
     ingredients :=
       [{| amount := PFloat (flt "4.0"); unit := "c"; name := "rice";
           formattedAmount := "4" |};
        {| amount := PFloat (flt "1.0"); unit := "t"; name := "salt";
           formattedAmount := "1" |}] |}.

(** The fragments the pattern matches. *)
Definition matched (it : string) : bool :=
  match Re.rmatch ingredient_re it with
  | Some _ => true
  | None => false
  end.

(** The run of digits, points and slashes a fragment starts with. *)
Definition quantity_text (it : string) : string := fst (PyStr.span qty_char it).

(** [,] or a newline. *)
Definition separator (c : ascii) : bool :=
  (PyStr.ord c =? 44)%N || (PyStr.ord c =? 10)%N.

(** * Properties *)

(** ** The error monad *)

Lemma bind_Ok {A B : Type} (c : res A) (k : A -> res B) (b : B) :
  bind c k = Ok b -> exists a, c = Ok a /\ k a = Ok b.
Proof.
  destruct c as [a | e]; simpl; intros H.
  - exists a. split; [reflexivity | exact H].
  - discriminate H.
Qed.

Ltac bind_inv H :=
  let a := fresh "a" in
  let Ha := fresh "Ha" in
  apply bind_Ok in H; destruct H as [a [Ha H]].

(** ** Characters and strings *)

Ltac each_char c :=
  destruct c as [[] [] [] [] [] [] [] []]; vm_compute; try reflexivity; try discriminate.

Lemma qty_char_not_space (c : ascii) : qty_char c = true -> PyStr.isspace c = false.
Proof. each_char c. Qed.

Lemma qty_char_not_alpha (c : ascii) : qty_char c = true -> PyStr.isalpha_ascii c = false.
Proof. each_char c. Qed.

Lemma space_not_alpha (c : ascii) : PyStr.isspace c = true -> PyStr.isalpha_ascii c = false.
Proof. each_char c. Qed.

Lemma span_append (p : ascii -> bool) (s : string) :
  s = fst (PyStr.span p s) ++ snd (PyStr.span p s).
Proof.
  induction s as [| c s IH]; simpl.
  - reflexivity.
  - destruct (p c); simpl.
    + destruct (PyStr.span p s) as [a b]; simpl in *. now rewrite <- IH.
    + reflexivity.
Qed.

Lemma length_append (a b : string) :
  String.length (a ++ b) = (String.length a + String.length b)%nat.
Proof. induction a as [| c a IH]; simpl; [reflexivity | now rewrite IH]. Qed.

Lemma take_append (a b : string) :
  PyStr.take (String.length (a ++ b) - String.length b) (a ++ b) = a.
Proof.
  rewrite length_append.
  replace (String.length a + String.length b - String.length b)%nat
    with (String.length a) by lia.
  induction a as [| c a IH]; simpl.
  - destruct b; reflexivity.
  - now rewrite IH.
Qed.

Lemma take_span (p : ascii -> bool) (s : string) :
  PyStr.take (String.length s - String.length (snd (PyStr.span p s))) s
  = fst (PyStr.span p s).
Proof.
  rewrite (span_append p s) at 1 3. apply take_append.
Qed.

(** ** The matcher *)

(** A greedy run whose continuation refuses every subject that starts
    with a character of the class can only end at the longest run. *)
Lemma rep_refused {R : Type} (p : ascii -> bool) (k : string -> option R) :
  (forall c s, p c = true -> k (String c s) = None) ->
  forall (s : string) (least : nat),
    Re.rep p least s k =
    if (least <=? String.length (fst (PyStr.span p s)))%nat
    then k (snd (PyStr.span p s)) else None.
Proof.
  intros Hk s. induction s as [| c s IH]; intros least; simpl.
  - destruct least; reflexivity.
  - destruct (p c) eqn:Hc.
    + rewrite IH. destruct (PyStr.span p s) as [a b]; simpl.
      destruct least as [| n]; simpl.
      * destruct (k b); [reflexivity | now apply Hk].
      * destruct (n <=? String.length a)%nat; [| reflexivity].
        destruct (k b); reflexivity.
    + simpl. destruct least; reflexivity.
Qed.

(** A greedy run before a continuation that never fails ends at the
    longest run. *)
Lemma rep_accepted {R : Type} (p : ascii -> bool) (k : string -> option R) :
  (forall s, k s <> None) ->
  forall (s : string) (least : nat),
    Re.rep p least s k =
    if (least <=? String.length (fst (PyStr.span p s)))%nat
    then k (snd (PyStr.span p s)) else None.
Proof.
  intros Hk s. induction s as [| c s IH]; intros least; simpl.
  - destruct least; reflexivity.
  - destruct (p c) eqn:Hc.
    + rewrite IH. destruct (PyStr.span p s) as [a b]; simpl.
      destruct least as [| n]; simpl.
      * destruct (k b) eqn:Hb; [reflexivity | now apply Hk in Hb].
      * destruct (n <=? String.length a)%nat; [| reflexivity].
        destruct (k b); reflexivity.
    + simpl. destruct least; reflexivity.
Qed.

Lemma sub_succ_self (n : nat) : (S n - n)%nat = 1%nat.
Proof. lia. Qed.

Lemma span_nothing (p : ascii -> bool) (s : string) :
  fst (PyStr.span p s) = EmptyString -> snd (PyStr.span p s) = s.
Proof.
  destruct s as [| c s]; simpl; [reflexivity |].
  destruct (p c); [| reflexivity].
  destruct (PyStr.span p s); discriminate.
Qed.

Lemma span_something (p : ascii -> bool) (s : string) (c : ascii) (a : string) :
  fst (PyStr.span p s) = String c a -> exists s', s = String c s' /\ p c = true.
Proof.
  destruct s as [| c' s]; simpl; [discriminate |].
  destruct (p c') eqn:Hc; [| discriminate].
  destruct (PyStr.span p s); simpl. intros [= -> _]. eauto.
Qed.

(** The pattern from the unit letter on, with the groups [g] matched so far. *)
Lemma run_tail (g : Re.groups) (s : string) :
  Re.run (Re.Cat (Re.Grp "unit" (Re.Chr PyStr.isalpha_ascii))
         (Re.Cat (Re.Chr PyStr.isspace) (Re.Grp "name" (Re.Rep Re.dot 1))))
         s g (fun _ g' => Some g')
  = shape_tail g s.
Proof.
  cbn [Re.run]. unfold shape_tail.
  destruct s as [| u [| w r3]]; try reflexivity.
  - destruct (PyStr.isalpha_ascii u); reflexivity.
  - destruct (PyStr.isalpha_ascii u); [| reflexivity].
    destruct (PyStr.isspace w); [| reflexivity]. cbn [andb].
    rewrite rep_accepted by discriminate.
    rewrite take_span.
    simpl String.length. rewrite sub_succ_self. cbn [PyStr.take].
    destruct (PyStr.span Re.dot r3) as [[| c nm] rest]; reflexivity.
Qed.

Lemma shape_tail_refuses_space (g : Re.groups) (c : ascii) (s : string) :
  PyStr.isspace c = true -> shape_tail g (String c s) = None.
Proof.
  intros Hc. unfold shape_tail. destruct s; [reflexivity |].
  now rewrite (space_not_alpha c Hc).
Qed.

(** The pattern from the white space on. *)
Lemma run_spaces (g : Re.groups) (s : string) :
  Re.run (Re.Cat (Re.Rep PyStr.isspace 0)
         (Re.Cat (Re.Grp "unit" (Re.Chr PyStr.isalpha_ascii))
         (Re.Cat (Re.Chr PyStr.isspace) (Re.Grp "name" (Re.Rep Re.dot 1)))))
         s g (fun _ g' => Some g')
  = shape_tail g (snd (PyStr.span PyStr.isspace s)).
Proof.
  change (Re.rep PyStr.isspace 0 s (fun s' =>
            Re.run (Re.Cat (Re.Grp "unit" (Re.Chr PyStr.isalpha_ascii))
                   (Re.Cat (Re.Chr PyStr.isspace) (Re.Grp "name" (Re.Rep Re.dot 1))))
                   s' g (fun _ g' => Some g'))
          = shape_tail g (snd (PyStr.span PyStr.isspace s))).
  rewrite rep_refused.
  - apply run_tail.
  - intros c s' Hc. rewrite run_tail. now apply shape_tail_refuses_space.
Qed.

Lemma run_spaces_refuses_qty (g : Re.groups) (c : ascii) (s : string) :
  qty_char c = true ->
  shape_tail g (snd (PyStr.span PyStr.isspace (String c s))) = None.
Proof.
  intros Hc. simpl. rewrite (qty_char_not_space c Hc). simpl.
  unfold shape_tail. destruct s; [reflexivity |].
  now rewrite (qty_char_not_alpha c Hc).
Qed.

Ltac rewrite_run L :=
  let H := fresh "H" in
  pose proof L as H; cbn [Re.run] in H; rewrite H; clear H.

Lemma ingredient_re_shape (it : string) :
  Re.rmatch ingredient_re it = ingredient_shape it.
Proof.
  unfold Re.rmatch, ingredient_re, ingredient_shape.
  cbn [Re.run].
  rewrite rep_refused.
  2:{ intros c s Hc.
      rewrite_run (run_spaces
        [("qty", PyStr.take (String.length it - String.length (String c s)) it)]
        (String c s)).
      now apply run_spaces_refuses_qty. }
  rewrite_run (run_spaces [] it).
  rewrite_run (run_spaces
    [("qty", PyStr.take (String.length it - String.length (snd (PyStr.span qty_char it))) it)]
    (snd (PyStr.span qty_char it))).
  rewrite take_span.
  destruct (PyStr.span qty_char it) as [q r1] eqn:Hspan. cbn [fst snd].
  destruct q as [| c q].
  - pose proof (span_nothing qty_char it) as H. rewrite Hspan in H.
    simpl in H. rewrite H by reflexivity. reflexivity.
  - simpl.
    destruct (shape_tail [("qty", String c q)] (snd (PyStr.span PyStr.isspace r1)));
      [reflexivity |].
    pose proof (span_something qty_char it c q) as H. rewrite Hspan in H.
    destruct (H eq_refl) as (s' & -> & Hc).
    now apply run_spaces_refuses_qty.
Qed.

Lemma binary_round_aux_sign (s : bool) (m e : Z) (l : location) :
  let r := binary_round_aux PyFloat.prec PyFloat.emax s m e l in
  r = S754_nan \/ PyFloat.sign_bit r = s.
Proof.
  unfold binary_round_aux.
  destruct (shr_fexp _ _ m e l) as [mrs' e'].
  destruct (shr_fexp _ _ _ e' loc_Exact) as [mrs'' e''].
  destruct (shr_m mrs'') as [| p | p]; simpl; auto.
  destruct (e'' <=? _); simpl; auto.
Qed.

Lemma binary_round_aux_positive (m e : Z) (l : location) :
  positive_sign (binary_round_aux PyFloat.prec PyFloat.emax false m e l).
Proof.
  destruct (binary_round_aux_sign false m e l) as [H | H]; unfold positive_sign.
  - now rewrite H.
  - exact H.
Qed.

Lemma binary_normalize_positive (m e : Z) :
  0 <= m -> positive_sign (binary_normalize PyFloat.prec PyFloat.emax m e false).
Proof.
  intros Hm. destruct m as [| p | p]; try lia; simpl.
  - reflexivity.
  - unfold binary_round. destruct (shl_align _ _ _) as [mz ez].
    apply binary_round_aux_positive.
Qed.

Lemma div_positive (x y : PyFloat.float) :
  positive_sign x -> positive_sign y -> positive_sign (PyFloat.div x y).
Proof.
  unfold positive_sign, PyFloat.div.
  destruct x as [sx | sx | | sx mx ex], y as [sy | sy | | sy my ey];
    simpl; intros Hx Hy; subst; try reflexivity.
  destruct (SFdiv_core_binary _ _ _ _ _ _) as [[mz ez] lz].
  apply binary_round_aux_positive.
Qed.

Lemma add_positive (x y : PyFloat.float) :
  positive_sign x -> positive_sign y -> positive_sign (PyFloat.add x y).
Proof.
  unfold positive_sign, PyFloat.add.
  destruct x as [sx | sx | | sx mx ex], y as [sy | sy | | sy my ey];
    simpl; intros Hx Hy; subst; try reflexivity.
  apply binary_normalize_positive. simpl. lia.
Qed.

Lemma of_ratio_positive (p q : positive) : positive_sign (PyFloat.of_ratio false p q).
Proof. apply div_positive; reflexivity. Qed.

Lemma of_Z_positive (z : Z) : 0 <= z -> positive_sign (PyFloat.of_Z z).
Proof. apply binary_normalize_positive. Qed.

Lemma positive_not_below_zero (x : PyFloat.float) :
  positive_sign x -> PyFloat.ltb x PyFloat.zero = false.
Proof.
  unfold positive_sign.
  destruct x as [s | s | | s m e]; simpl; intros Hx; subst; reflexivity.
Qed.

Lemma positive_sign_ge0 (x : PyFloat.float) :
  positive_sign x -> x = S754_nan \/ SFleb PyFloat.zero x = true.
Proof.
  unfold positive_sign.
  destruct x as [s | s | | s m e]; simpl; intros H; subst; auto.
Qed.

Lemma Zpos_iter_xO (m d : positive) : Zpos (Pos.iter xO m d) = Zpos m * 2 ^ Zpos d.
Proof.
  induction d as [| d IH] using Pos.peano_ind.
  - simpl. lia.
  - rewrite Pos.iter_succ, Pos2Z.inj_xO, IH, Pos2Z.inj_succ, Z.pow_succ_r by lia.
    ring.
Qed.

Lemma shl_align_value (m : positive) (e e' : Z) :
  e' <= e -> Zpos (fst (shl_align m e e')) = Zpos m * 2 ^ (e - e').
Proof.
  intros H. unfold shl_align.
  destruct (e' - e) as [| d | d] eqn:Hd.
  - replace (e - e') with 0 by lia. cbn [fst]. rewrite Z.pow_0_r. lia.
  - lia.
  - cbn [fst]. rewrite Zpos_iter_xO. f_equal. f_equal. lia.
Qed.

(** [normalize] keeps the value and does not raise the exponent. *)
Lemma normalize_value (s : bool) (r : positive) (e : Z) :
  exists m' e', PyFloat.normalize s r e = S754_finite s m' e' /\
                e' <= e /\ Zpos m' = Zpos r * 2 ^ (e - e').
Proof.
  unfold PyFloat.normalize.
  destruct (Z.min _ _) as [| k | k] eqn:Hk.
  - exists r, e. repeat split; try lia. rewrite Z.sub_diag, Z.pow_0_r. lia.
  - exists (Pos.iter xO r k), (e - Zpos k). repeat split; try lia.
    rewrite Zpos_iter_xO. f_equal. f_equal. lia.
  - exists r, e. repeat split; try lia. rewrite Z.sub_diag, Z.pow_0_r. lia.
Qed.

Lemma fmod_positive (x y : PyFloat.float) :
  positive_sign x -> positive_sign (PyFloat.fmod x y).
Proof.
  unfold positive_sign.
  destruct x as [sx | sx | | sx mx ex], y as [sy | sy | | sy my ey];
    simpl; intros Hx; subst; try reflexivity.
  destruct (_ mod _) as [| r | r]; try reflexivity.
  destruct (normalize_value false r (Z.min ex ey)) as (m' & e' & -> & _). reflexivity.
Qed.

Lemma sub_finite_positive (mx my : positive) (ex ey : Z) :
  Zpos my * 2 ^ (ey - Z.min ex ey) <= Zpos mx * 2 ^ (ex - Z.min ex ey) ->
  positive_sign (PyFloat.sub (S754_finite false mx ex) (S754_finite false my ey)).
Proof.
  intros H. unfold PyFloat.sub, SFsub.
  apply binary_normalize_positive.
  rewrite !shl_align_value by lia.
  cbn [cond_Zopp]. lia.
Qed.

(** [vx - fmod(vx, wx)] is not negative: the remainder is at most [vx]. *)
Lemma sub_fmod_positive (x y : PyFloat.float) :
  positive_sign x -> positive_sign (PyFloat.sub x (PyFloat.fmod x y)).
Proof.
  destruct x as [sx | sx | | sx mx ex], y as [sy | sy | | sy my ey];
    intros Hx; unfold positive_sign in Hx; cbn [PyFloat.sign_bit] in Hx; subst;
    try reflexivity.
  - (* a finite dividend, an infinite divisor: the remainder is [x] *)
    cbn [PyFloat.fmod]. apply sub_finite_positive. lia.
  - (* both finite *)
    cbn [PyFloat.fmod].
    set (e0 := Z.min ex ey).
    assert (Hy : 0 < Zpos my * 2 ^ (ey - e0)).
    { apply Z.mul_pos_pos; [lia |]. apply Z.pow_pos_nonneg; lia. }
    assert (Hx : 0 <= Zpos mx * 2 ^ (ex - e0)).
    { apply Z.mul_nonneg_nonneg; [lia |]. apply Z.pow_nonneg; lia. }
    pose proof (Z.mod_le _ _ Hx Hy) as Hle.
    pose proof (Z.mod_pos_bound (Zpos mx * 2 ^ (ex - e0)) _ Hy) as Hb.
    destruct (_ mod _) as [| r | r] eqn:Hr; try reflexivity.
    destruct (normalize_value false r e0) as (m' & e' & -> & He' & Hm').
    apply sub_finite_positive.
    rewrite Hm'.
    assert (H1 : Zpos r * 2 ^ (e0 - e') * 2 ^ (e' - Z.min ex e')
                 = Zpos r * 2 ^ (e0 - Z.min ex e')).
    { rewrite <- Z.mul_assoc, <- Z.pow_add_r by lia. f_equal. f_equal. lia. }
    assert (H2 : Zpos mx * 2 ^ (ex - e0) * 2 ^ (e0 - Z.min ex e')
                 = Zpos mx * 2 ^ (ex - Z.min ex e')).
    { rewrite <- Z.mul_assoc, <- Z.pow_add_r by lia. f_equal. f_equal. lia. }
    rewrite H1, <- H2.
    assert (0 <= 2 ^ (e0 - Z.min ex e')) by (apply Z.pow_nonneg; lia).
    nia.
Qed.

Lemma floor_positive (x : PyFloat.float) :
  positive_sign x -> positive_sign (PyFloat.floor x).
Proof.
  destruct x as [s | s | | s m e];
    intros Hx; unfold positive_sign in *; cbn [PyFloat.sign_bit] in Hx; subst;
    try reflexivity.
  unfold PyFloat.floor.
  destruct (0 <=? e); [reflexivity |]. cbn [andb].
  destruct (Zpos m / 2 ^ (- e)) as [| p | p]; try reflexivity.
  cbn [PyFloat.sgn]. apply binary_normalize_positive. lia.
Qed.

Lemma floor_div_positive (x y : PyFloat.float) :
  positive_sign x -> positive_sign y -> positive_sign (PyFloat.floor_div x y).
Proof.
  intros Hx Hy. unfold PyFloat.floor_div.
  rewrite (positive_not_below_zero y Hy).
  rewrite (positive_not_below_zero _ (fmod_positive x y Hx)).
  rewrite Bool.andb_false_r.
  assert (Hd : positive_sign (PyFloat.div (PyFloat.sub x (PyFloat.fmod x y)) y)).
  { apply div_positive; [now apply sub_fmod_positive | exact Hy]. }
  destruct (PyFloat.truthy _).
  - destruct (PyFloat.ltb _ _).
    + apply add_positive; [now apply floor_positive | reflexivity].
    + now apply floor_positive.
  - unfold positive_sign. simpl. now apply div_positive.
Qed.

Lemma digit_value_nonneg (c : ascii) :
  PyStr.isdigit c = true -> 0 <= Z.of_N (PyStr.ord c) - 48.
Proof.
  destruct c as [[] [] [] [] [] [] [] []]; intros H; vm_compute in H;
    try discriminate H; vm_compute; discriminate.
Qed.

Lemma digits_value_nonneg (s : string) :
  forall acc, all_chars PyStr.isdigit s = true -> 0 <= acc ->
              0 <= PyFloat.digits_value s acc.
Proof.
  induction s as [| c s IH]; cbn [PyFloat.digits_value all_chars]; intros acc H Hacc.
  - exact Hacc.
  - apply andb_prop in H. destruct H as [Hc Hs].
    apply IH; [exact Hs |].
    pose proof (digit_value_nonneg c Hc). lia.
Qed.

Lemma all_chars_append (p : ascii -> bool) (a b : string) :
  all_chars p (a ++ b) = all_chars p a && all_chars p b.
Proof.
  induction a as [| c a IH]; simpl; [reflexivity |].
  now rewrite IH, Bool.andb_assoc.
Qed.

Lemma all_chars_push (p : ascii -> bool) (c : ascii) (s : string) :
  all_chars p s = true -> p c = true -> all_chars p (PyEval.push c s) = true.
Proof.
  intros Hs Hc. unfold PyEval.push. rewrite all_chars_append, Hs. simpl. now rewrite Hc.
Qed.

Lemma of_decimal_positive (n : positive) (t : Z) :
  positive_sign (PyFloat.of_decimal false n t).
Proof.
  unfold PyFloat.of_decimal. destruct (0 <=? t) eqn:Ht.
  - apply binary_normalize_positive. cbn [PyFloat.sgn].
    apply Z.mul_nonneg_nonneg; [lia |]. apply Z.pow_nonneg. lia.
  - apply of_ratio_positive.
Qed.

Lemma of_literal_positive (ip fp : string) (ex : Z) :
  positive_sign (PyFloat.of_literal false ip fp ex).
Proof.
  unfold PyFloat.of_literal.
  destruct (PyFloat.digits_value _ _); try reflexivity.
  apply of_decimal_positive.
Qed.

Lemma emit_int_nonneg (ds : string) (t : PyEval.token) :
  all_chars PyStr.isdigit ds = true -> PyEval.emit_int ds = Ok t -> nonneg_token t.
Proof.
  intros Hds. unfold PyEval.emit_int.
  pose proof (digits_value_nonneg ds 0 Hds (Z.le_refl 0)) as Hv.
  destruct ds as [| c ds'].
  - intros [= <-]. exact Hv.
  - destruct (Ascii.eqb c "0") eqn:Hc.
    + apply Ascii.eqb_eq in Hc. subst c.
      destruct (_ =? 0); [| discriminate]. intros [= <-]. simpl. lia.
    + assert (H : forall r : res PyEval.token,
                (match c with
                 | "0"%char => r
                 | _ => Ok (PyEval.TNum (PInt (PyFloat.digits_value (String c ds') 0)))
                 end = Ok t) ->
                r = Ok t \/ t = PyEval.TNum (PInt (PyFloat.digits_value (String c ds') 0))).
      { intros r. destruct c as [[] [] [] [] [] [] [] []]; intros [= <-]; auto. }
      intros Ht. apply H in Ht. destruct Ht as [Ht | ->]; [| exact Hv].
      destruct (_ =? 0); [| discriminate]. injection Ht as <-. simpl. lia.
Qed.

Lemma start_digits (c : ascii) (st : PyEval.lex_state) :
  PyEval.start c = Ok st -> digits_state st.
Proof.
  unfold PyEval.start.
  destruct (PyStr.isdigit c) eqn:Hc.
  - intros [= <-]. simpl. now rewrite Hc.
  - destruct (PyEval.is_char c 46); [intros [= <-]; exact I |].
    destruct (PyEval.is_char c 47); [intros [= <-]; exact I | discriminate].
Qed.

Lemma lex_nonneg (s : string) :
  forall st ts, digits_state st -> PyEval.lex st s = Ok ts -> Forall nonneg_token ts.
Proof.
  induction s as [| c s IH]; intros st ts Hst H.
  - destruct st; simpl in H; try discriminate.
    + injection H as <-. constructor.
    + bind_inv H. injection H as <-. constructor; [| constructor].
      now apply (emit_int_nonneg ds).
    + injection H as <-. constructor; [| constructor]. apply of_literal_positive.
    + injection H as <-. constructor; [exact I | constructor].
  - destruct st; cbn [PyEval.lex] in H.
    + bind_inv H. apply (IH a); [now apply (start_digits c) | exact H].
    + destruct (PyStr.isdigit c) eqn:Hc.
      * apply (IH (PyEval.LInt (PyEval.push c ds)));
          [now apply all_chars_push | exact H].
      * destruct (PyEval.is_char c 46).
        -- apply (IH (PyEval.LFrac ds EmptyString)); [split; [exact Hst | reflexivity] | exact H].
        -- bind_inv H. bind_inv H. bind_inv H. injection H as <-.
           constructor; [now apply (emit_int_nonneg ds) |].
           apply (IH a0); [now apply (start_digits c) | assumption].
    + destruct Hst as [Hip Hfp]. destruct (PyStr.isdigit c) eqn:Hc.
      * apply (IH (PyEval.LFrac ip (PyEval.push c fp)));
          [split; [exact Hip | now apply all_chars_push] | exact H].
      * bind_inv H. bind_inv H. injection H as <-.
        constructor; [apply of_literal_positive |].
        apply (IH a); [now apply (start_digits c) | assumption].
    + destruct (PyStr.isdigit c) eqn:Hc.
      * apply (IH (PyEval.LFrac EmptyString (String c EmptyString)));
          [split; [reflexivity | simpl; now rewrite Hc] | exact H].
      * destruct (PyEval.is_char c 46); [| discriminate].
        apply (IH PyEval.LDotDot); [exact I | exact H].
    + destruct (PyEval.is_char c 46); [| discriminate].
      bind_inv H. injection H as <-. constructor; [exact I |].
      apply (IH PyEval.LStart); [exact I | assumption].
    + destruct (PyEval.is_char c 47).
      * bind_inv H. injection H as <-. constructor; [exact I |].
        apply (IH PyEval.LStart); [exact I | assumption].
      * bind_inv H. bind_inv H. injection H as <-. constructor; [exact I |].
        apply (IH a); [now apply (start_digits c) | assumption].
Qed.

Lemma atom_nonneg (t : PyEval.token) (v : PyEval.value) :
  nonneg_token t -> PyEval.atom t = Some v -> nonneg_value v.
Proof.
  destruct t; simpl; intros Ht; intros [= <-]; auto.
Qed.

Lemma parse_rest_nonneg (n : nat) :
  forall ts acc e,
    (List.length ts <= n)%nat -> Forall nonneg_token ts -> nonneg_expr acc ->
    PyEval.parse_rest acc ts = Ok e -> nonneg_expr e.
Proof.
  induction n as [| n IH]; intros ts acc e Hlen Hts Hacc H.
  - destruct ts; [| simpl in Hlen; lia]. injection H as <-. exact Hacc.
  - destruct ts as [| o [| a ts']]; simpl in H.
    + injection H as <-. exact Hacc.
    + discriminate.
    + destruct (PyEval.operator o) as [op |]; [| discriminate].
      destruct (PyEval.atom a) as [v |] eqn:Ha; [| discriminate].
      inversion Hts as [| ? ? _ Hts']. inversion Hts' as [| ? ? Hna Hts''].
      apply (IH ts' (PyEval.BinOp acc op (PyEval.Const v))); auto.
      * simpl in Hlen. lia.
      * split; [exact Hacc |]. now apply (atom_nonneg a).
Qed.

Lemma parse_nonneg (ts : list PyEval.token) (e : PyEval.expr) :
  Forall nonneg_token ts -> PyEval.parse ts = Ok e -> nonneg_expr e.
Proof.
  intros Hts H. destruct ts as [| a ts']; [discriminate |]. simpl in H.
  destruct (PyEval.atom a) as [v |] eqn:Ha; [| discriminate].
  inversion Hts as [| ? ? Hna Hts'].
  apply (parse_rest_nonneg (List.length ts') ts' (PyEval.Const v)); auto.
  now apply (atom_nonneg a).
Qed.

Lemma to_float_positive (x : pynum) (f : PyFloat.float) :
  nonneg x -> PyNum.to_float x = Ok f -> positive_sign f.
Proof.
  destruct x as [z | g]; simpl; intros Hx H.
  - unfold PyFloat.of_int in H. destruct (PyFloat.is_inf _); [discriminate |].
    injection H as <-. now apply of_Z_positive.
  - now injection H as <-.
Qed.

Lemma truediv_nonneg (x y r : pynum) :
  nonneg x -> nonneg y -> PyNum.truediv x y = Ok r -> nonneg r.
Proof.
  intros Hx Hy H.
  assert (Hfloat : (fx <- PyNum.to_float x ;;
                    fy <- PyNum.to_float y ;;
                    if PyFloat.is_zero fy then Raise ZeroDivisionError
                    else Ok (PFloat (PyFloat.div fx fy))) = Ok r -> nonneg r).
  { intros H'. bind_inv H'. bind_inv H'.
    destruct (PyFloat.is_zero a0); [discriminate |]. injection H' as <-.
    apply div_positive; [now apply (to_float_positive x) | now apply (to_float_positive y)]. }
  destruct x as [a | fx], y as [b | fy]; try (now apply Hfloat).
  simpl in Hx, Hy. unfold PyNum.truediv, PyNum.int_true_divide in H.
  destruct (b =? 0); [discriminate |].
  destruct (a =? 0).
  - injection H as <-. simpl. unfold positive_sign. simpl. lia.
  - destruct (PyFloat.is_inf _) eqn:Hinf; [discriminate |]. injection H as <-.
    replace (a <? 0) with false by (symmetry; lia).
    replace (b <? 0) with false by (symmetry; lia).
    apply of_ratio_positive.
Qed.

Lemma floordiv_nonneg (x y r : pynum) :
  nonneg x -> nonneg y -> PyNum.floordiv x y = Ok r -> nonneg r.
Proof.
  intros Hx Hy H.
  assert (Hfloat : (fx <- PyNum.to_float x ;;
                    fy <- PyNum.to_float y ;;
                    if PyFloat.is_zero fy then Raise ZeroDivisionError
                    else Ok (PFloat (PyFloat.floor_div fx fy))) = Ok r -> nonneg r).
  { intros H'. bind_inv H'. bind_inv H'.
    destruct (PyFloat.is_zero a0); [discriminate |]. injection H' as <-.
    apply floor_div_positive;
      [now apply (to_float_positive x) | now apply (to_float_positive y)]. }
  destruct x as [a | fx], y as [b | fy]; try (now apply Hfloat).
  simpl in Hx, Hy. unfold PyNum.floordiv in H.
  destruct (b =? 0) eqn:Hb; [discriminate |]. injection H as <-.
  simpl. apply Z.div_pos; lia.
Qed.

Lemma eval_expr_nonneg (e : PyEval.expr) :
  forall v, nonneg_expr e -> PyEval.eval_expr e = Ok v -> nonneg_value v.
Proof.
  induction e as [c | l IHl op r IHr]; intros v He H.
  - now injection H as <-.
  - destruct He as [Hl Hr]. simpl in H. bind_inv H. bind_inv H.
    specialize (IHl a Hl Ha). specialize (IHr a0 Hr Ha0).
    destruct a as [x |], a0 as [y |]; try discriminate.
    simpl in H. bind_inv H. injection H as <-.
    destruct op; [now apply (truediv_nonneg x y) | now apply (floordiv_nonneg x y)].
Qed.

Lemma eval_nonneg (s : string) (v : PyEval.value) :
  PyEval.eval s = Ok v -> nonneg_value v.
Proof.
  unfold PyEval.eval. intros H. bind_inv H. bind_inv H.
  apply (eval_expr_nonneg a0); [| exact H].
  apply (parse_nonneg a); [| exact Ha0].
  now apply (lex_nonneg s PyEval.LStart).
Qed.

Lemma nonneg_ge0 (x : pynum) :
  nonneg x -> PyNum.ge0 x = true \/ x = PFloat S754_nan.
Proof.
  destruct x as [z | f]; simpl; intros H.
  - left. lia.
  - destruct (positive_sign_ge0 f H) as [-> | Hf]; auto.
Qed.

(** ** Stripping *)

Lemma append_associative (a b c : string) : (a ++ b) ++ c = a ++ (b ++ c).
Proof. induction a as [| x a IH]; simpl; [reflexivity | now rewrite IH]. Qed.

Lemma rstrip_idempotent (s : string) : PyStr.rstrip (PyStr.rstrip s) = PyStr.rstrip s.
Proof.
  induction s as [| c s IH]; [reflexivity |].
  cbn [PyStr.rstrip].
  destruct (PyStr.rstrip s) as [| d r] eqn:Hr.
  - destruct (PyStr.isspace c) eqn:Hc; [reflexivity |].
    cbn [PyStr.rstrip]. now rewrite Hc.
  - cbn [PyStr.rstrip] in *. now rewrite IH.
Qed.

(** A string that [rstrip] leaves alone ends in a character that is
    not white space, and so does each of its suffixes. *)
Lemma rstrip_suffix (a b : string) :
  PyStr.rstrip (a ++ b) = a ++ b -> b <> EmptyString -> PyStr.rstrip b = b.
Proof.
  induction a as [| c a IH]; intros H Hb; [exact H |].
  apply IH; [| exact Hb].
  cbn [append PyStr.rstrip] in H.
  destruct (PyStr.rstrip (a ++ b)) as [| d r] eqn:Hr.
  - exfalso. destruct (PyStr.isspace c); [discriminate |].
    injection H as H. destruct a; simpl in H; [now apply Hb | discriminate].
  - now injection H.
Qed.

Lemma lstrip_suffix (s : string) : exists a, s = a ++ PyStr.lstrip s.
Proof.
  induction s as [| c s [a IH]].
  - now exists EmptyString.
  - cbn [PyStr.lstrip]. destruct (PyStr.isspace c).
    + exists (String c a). simpl. now rewrite <- IH.
    + now exists EmptyString.
Qed.

Lemma lstrip_nothing (s : string) :
  PyStr.lstrip s = EmptyString -> PyStr.rstrip s = EmptyString.
Proof.
  induction s as [| c s IH]; [reflexivity |].
  cbn [PyStr.lstrip PyStr.rstrip].
  destruct (PyStr.isspace c); [| discriminate].
  intros H. now rewrite (IH H).
Qed.

Lemma strip_nonempty (s : string) :
  PyStr.rstrip s = s -> s <> EmptyString -> PyStr.strip s <> EmptyString.
Proof.
  intros Hs Hne. unfold PyStr.strip.
  destruct (PyStr.lstrip s) as [| c l] eqn:Hl.
  - apply lstrip_nothing in Hl. congruence.
  - destruct (lstrip_suffix s) as [a Ha]. rewrite Hl in Ha.
    rewrite (rstrip_suffix a (String c l)); [discriminate | congruence | discriminate].
Qed.

Lemma all_chars_lstrip (p : ascii -> bool) (s : string) :
  all_chars p s = true -> all_chars p (PyStr.lstrip s) = true.
Proof.
  induction s as [| c s IH]; [reflexivity |].
  cbn [all_chars PyStr.lstrip]. intros H.
  destruct (PyStr.isspace c); [| exact H].
  apply andb_prop in H. now apply IH.
Qed.

Lemma all_chars_rstrip (p : ascii -> bool) (s : string) :
  all_chars p s = true -> all_chars p (PyStr.rstrip s) = true.
Proof.
  induction s as [| c s IH]; [reflexivity |].
  cbn [all_chars PyStr.rstrip]. intros H.
  apply andb_prop in H. destruct H as [Hc Hs]. specialize (IH Hs).
  destruct (PyStr.rstrip s) as [| d r].
  - destruct (PyStr.isspace c); [reflexivity |]. simpl. now rewrite Hc.
  - cbn [all_chars] in *. now rewrite Hc, IH.
Qed.

Lemma span_all (p : ascii -> bool) (s : string) :
  all_chars p s = true -> PyStr.span p s = (s, EmptyString).
Proof.
  induction s as [| c s IH]; [reflexivity |].
  cbn [all_chars PyStr.span]. intros H.
  apply andb_prop in H. destruct H as [-> Hs]. now rewrite (IH Hs).
Qed.

(** No piece of [re.split(r",|\n", s)] holds a newline. *)
Lemma split_pieces_one_line (s : string) :
  Forall (fun i => all_chars Re.dot i = true) (Re.split_comma_newline s).
Proof.
  induction s as [| c s IH]; cbn [Re.split_comma_newline].
  - repeat constructor.
  - destruct ((PyStr.ord c =? 44)%N || (PyStr.ord c =? 10)%N) eqn:Hc.
    + constructor; [reflexivity | exact IH].
    + apply Bool.orb_false_elim in Hc. destruct Hc as [_ Hc].
      destruct (Re.split_comma_newline s) as [| h t].
      * constructor; [| constructor]. simpl. unfold Re.dot. now rewrite Hc.
      * inversion IH as [| ? ? Hh Ht]. constructor; [| exact Ht].
        simpl. unfold Re.dot at 1. now rewrite Hc, Hh.
Qed.

(** Every fragment is stripped, not empty and on one line. *)
Lemma fragments_stripped (s it : string) :
  In it (fragments s) ->
  PyStr.rstrip it = it /\ it <> EmptyString /\ all_chars Re.dot it = true.
Proof.
  unfold fragments. intros H.
  apply in_map_iff in H. destruct H as (i & <- & Hi).
  apply filter_In in Hi. destruct Hi as [Hi Hne].
  repeat split.
  - apply rstrip_idempotent.
  - intros E. now rewrite E in Hne.
  - apply all_chars_rstrip, all_chars_lstrip.
    pose proof (split_pieces_one_line s) as Hall.
    rewrite Forall_forall in Hall. now apply Hall.
Qed.

(** ** One fragment *)

(** What an entry made from the fragment [it] is made of: the unit
    letter [u], the text [nm] after it to the end of the fragment, and
    an amount that is not negative. *)
Lemma parse_item_entry (it : string) (e : IngredientEntry) :
  parse_item it = Ok (Some e) ->
  exists (pre : string) (u w : ascii) (nm : string),
    it = pre ++ String u (String w nm) /\
    PyStr.isalpha_ascii u = true /\
    PyStr.isspace w = true /\
    fst (PyStr.span Re.dot nm) <> EmptyString /\
    unit e = PyStr.strip (String u EmptyString) /\
    name e = PyStr.strip (fst (PyStr.span Re.dot nm)) /\
    nonneg (amount e).
Proof.
  unfold parse_item. rewrite ingredient_re_shape. unfold ingredient_shape.
  pose proof (span_append qty_char it) as Hq.
  destruct (PyStr.span qty_char it) as [q r1]. cbn [fst snd] in Hq.
  pose proof (span_append PyStr.isspace r1) as Hw.
  destruct (PyStr.span PyStr.isspace r1) as [ws r2]. cbn [fst snd] in Hw |- *.
  unfold shape_tail.
  destruct r2 as [| u [| w r3]]; try discriminate.
  destruct (PyStr.isalpha_ascii u) eqn:Hu; [| discriminate].
  destruct (PyStr.isspace w) eqn:Hsp; [| discriminate]. cbn [andb].
  pose proof (span_append Re.dot r3) as Hd.
  destruct (PyStr.span Re.dot r3) as [nm rest] eqn:Hspan. cbn [fst snd] in Hd.
  destruct nm as [| n0 nm]; [discriminate |].
  set (g := match q with EmptyString => [] | String _ _ => [("qty", q)] end).
  assert (Hamt : nonneg_value
            match Re.group (("name", String n0 nm) :: ("unit", String u EmptyString) :: g) "qty" with
            | Some (String _ _ as qty) => catch (PyEval.eval qty) (PyEval.VNum (PInt 1))
            | _ => PyEval.VNum (PInt 1)
            end).
  { cbn [Re.group]. cbn.
    destruct (Re.group g "qty") as [[| c0 q0] |]; try (simpl; lia).
    destruct (PyEval.eval (String c0 q0)) as [v | ex] eqn:Hev; [| simpl; lia].
    simpl. now apply (eval_nonneg (String c0 q0)). }
  destruct (match Re.group _ "qty" with Some (String _ _ as qty) => _ | _ => _ end)
    as [a |]; cbn in *; [| discriminate].
  intros [= <-]. cbn [amount unit name].
  exists (q ++ ws), u, w, r3. rewrite Hspan. cbn [fst snd].
  repeat split; try assumption; try discriminate.
  rewrite Hq, Hw. now rewrite append_associative.
Qed.

(** ** [limit_denominator] *)

Lemma loop_unfold (M p0 q0 p1 q1 n d : Z) :
  Fractions.loop M p0 q0 p1 q1 n d =
  if d =? 0 then Raise ZeroDivisionError
  else if M <? q0 + (n / d) * q1 then Ok (p0, q0, p1, q1)
  else Fractions.loop M p1 q1 (p0 + (n / d) * p1) (q0 + (n / d) * q1) d (n - (n / d) * d).
Proof.
  funelim (Fractions.loop M p0 q0 p1 q1 n d).
  - destruct (Z.eqb_spec d 0); [reflexivity | contradiction].
  - destruct (Z.eqb_spec d 0); [contradiction | reflexivity].
Qed.

Lemma loop_state_first (N D M : Z) :
  M < D -> 1 <= M -> Z.gcd N D = 1 ->
  loop_state N D M 1 1 0 (N / D) 1 D (N - N / D * D).
Proof.
  intros D_over M_pos lowest.
  assert (HD : 0 < D) by lia.
  assert (Hmod : N - N / D * D = N mod D) by (rewrite Z.mod_eq by lia; ring).
  rewrite Hmod.
  pose proof (Z.mod_pos_bound N D HD) as Hb.
  assert (Hg : Z.gcd D (N mod D) = 1).
  { rewrite Z.gcd_comm, Z.gcd_mod_l. exact lowest. }
  assert (Hnz : N mod D <> 0).
  { intros E. rewrite E, Z.gcd_0_r in Hg. lia. }
  unfold loop_state. repeat split; try lia.
Qed.

(** One more iteration from a state whose next denominator fits. *)
Lemma loop_state_next (N D M sigma p0 q0 p1 q1 n d : Z) :
  M < D ->
  loop_state N D M sigma p0 q0 p1 q1 n d ->
  q0 + (n / d) * q1 <= M ->
  loop_state N D M (- sigma) p1 q1 (p0 + (n / d) * p1) (q0 + (n / d) * q1) d (n - (n / d) * d).
Proof.
  intros D_over (Hs & Hdet & HN & HD & Hd & Hg & Hq0 & Hq1) Hfit.
  assert (Hmod : n - n / d * d = n mod d) by (rewrite Z.mod_eq by lia; ring).
  rewrite Hmod.
  assert (Hdpos : 0 < d) by lia.
  pose proof (Z.mod_pos_bound n d Hdpos) as Hb.
  assert (Ha : 1 <= n / d) by (apply Z.div_le_lower_bound; lia).
  assert (Hg' : Z.gcd d (n mod d) = 1).
  { rewrite Z.gcd_comm, Z.gcd_mod_l. exact Hg. }
  assert (Hnz : n mod d <> 0).
  { intros E. rewrite E, Z.gcd_0_r in Hg'.
    assert (d = 1) by lia. subst d.
    rewrite Z.div_1_r in Hfit. nia. }
  unfold loop_state. repeat split; try lia; try nia.
Qed.

(** The loop leaves, and it leaves from a state of the invariant whose
    next denominator is over the bound. *)
Lemma loop_exit (N D M : Z) (D_over : M < D) (fuel : nat) :
  forall sigma p0 q0 p1 q1 n d,
    (Z.to_nat d < fuel)%nat ->
    loop_state N D M sigma p0 q0 p1 q1 n d ->
    exists sigma' p0' q0' p1' q1' n' d',
      Fractions.loop M p0 q0 p1 q1 n d = Ok (p0', q0', p1', q1') /\
      loop_state N D M sigma' p0' q0' p1' q1' n' d' /\
      M < q0' + (n' / d') * q1'.
Proof.
  induction fuel as [| fuel IH]; intros sigma p0 q0 p1 q1 n d Hfuel Hst; [lia |].
  rewrite loop_unfold.
  assert (Hd : 0 < d) by (destruct Hst as (_ & _ & _ & _ & Hd & _); lia).
  destruct (Z.eqb_spec d 0); [lia |].
  destruct (Z.ltb_spec M (q0 + n / d * q1)) as [Hout | Hfit].
  - exists sigma, p0, q0, p1, q1, n, d. auto.
  - apply (IH (- sigma)).
    + assert (Hmod : n - n / d * d = n mod d) by (rewrite Z.mod_eq by lia; ring).
      rewrite Hmod. pose proof (Z.mod_pos_bound n d Hd). lia.
    + now apply loop_state_next.
Qed.

(** At the exit, the two candidates have denominators within the
    bound, and no fraction of denominator within the bound is nearer
    to [N/D] than both of them: it would lie between two neighbours
    whose denominators add up to more than [M]. *)
Lemma candidates_nearest (N D M sigma p0 q0 p1 q1 n d : Z) :
  loop_state N D M sigma p0 q0 p1 q1 n d ->
  M < q0 + (n / d) * q1 ->
  let k := (M - q0) / q1 in
  1 <= q0 + k * q1 <= M /\
  forall r s : Z, 1 <= s <= M ->
    Z.abs (N * q1 - p1 * D) * s <= Z.abs (N * s - r * D) * q1 \/
    Z.abs (N * (q0 + k * q1) - (p0 + k * p1) * D) * s
      <= Z.abs (N * s - r * D) * (q0 + k * q1).
Proof.
  intros (Hs & Hdet & HN & HD & Hd & Hg & Hq0 & Hq1) Hout k.
  assert (Hq1pos : 0 < q1) by lia.
  pose proof (Z.mul_div_le (M - q0) q1 Hq1pos) as Hk1.
  pose proof (Z.mul_succ_div_gt (M - q0) q1 Hq1pos) as Hk2.
  fold k in Hk1, Hk2.
  assert (Hk0 : 0 <= k) by (apply Z.div_pos; lia).
  assert (Hka : k < n / d) by nia.
  assert (Hdpos : 0 < d) by lia.
  pose proof (Z.mul_div_le n d Hdpos) as Hn1.
  assert (He1 : 0 < n - k * d) by nia.
  split; [nia |].
  intros r s Hs'.
  set (Qd := q0 + k * q1) in *. set (P := p0 + k * p1).
  assert (HQd : 0 < Qd) by (unfold Qd; nia).
  assert (H2 : N * q1 - p1 * D = sigma * d) by (rewrite HN, HD, <- Hdet; ring).
  assert (H1 : N * Qd - P * D = - sigma * (n - k * d))
    by (unfold Qd, P; rewrite HN, HD, <- Hdet; ring).
  assert (Hadj : P * q1 - p1 * Qd = sigma) by (unfold Qd, P; rewrite <- Hdet; ring).
  rewrite H2, H1.
  set (u := r * q1 - p1 * s). set (v := P * s - r * Qd).
  assert (Hsum : sigma * s = q1 * v + Qd * u) by (unfold u, v; rewrite <- Hadj; ring).
  assert (Hbig : M < q1 + Qd) by (unfold Qd; nia).
  assert (Ht2 : (N * s - r * D) * q1 = s * (sigma * d) - D * u)
    by (unfold u; rewrite <- H2; ring).
  assert (Ht1 : (N * s - r * D) * Qd = - (s * (sigma * (n - k * d))) + D * v)
    by (unfold v; replace (sigma * (n - k * d)) with (- (N * Qd - P * D)) by (rewrite H1; ring); ring).
  assert (HDpos : 0 < D) by (clear - HD Hd Hq0 Hq1; nia).
  rewrite !Z.abs_mul.
  assert (Habs : Z.abs sigma = 1) by (destruct Hs; subst; reflexivity).
  rewrite Z.abs_opp, Habs, !Z.mul_1_l.
  rewrite (Z.abs_eq d) by lia. rewrite (Z.abs_eq (n - k * d)) by lia.
  assert (Hcase : sigma * u <= 0 \/ sigma * v <= 0).
  { destruct (Z.le_gt_cases (sigma * u) 0) as [| Hu]; [now left |].
    destruct (Z.le_gt_cases (sigma * v) 0) as [| Hv]; [now right |].
    exfalso.
    assert (Hqv : q1 <= q1 * (sigma * v)) by (clear - Hv Hq1pos; nia).
    assert (Hqu : Qd <= Qd * (sigma * u)) by (clear - Hu HQd; nia).
    assert (Hss : s = q1 * (sigma * v) + Qd * (sigma * u)).
    { clear - Hs Hsum. destruct Hs as [-> | ->]; lia. }
    lia. }
  assert (Habs_ge : forall t c : Z, 0 < c -> sigma * (t * c) <= Z.abs t * c).
  { intros t c Hc. clear - Hs Hc. destruct Hs as [-> | ->]; nia. }
  assert (Habs_ge' : forall t c : Z, 0 < c -> - sigma * (t * c) <= Z.abs t * c).
  { intros t c Hc. clear - Hs Hc. destruct Hs as [-> | ->]; nia. }
  destruct Hcase as [Hu | Hv]; [left | right].
  - assert (HDu : 0 <= D * - (sigma * u)) by (clear - Hu HDpos; nia).
    assert (Hge : d * s <= sigma * ((N * s - r * D) * q1)).
    { rewrite Ht2. clear - Hs HDu. destruct Hs as [-> | ->]; lia. }
    specialize (Habs_ge (N * s - r * D) q1 Hq1pos). lia.
  - assert (HDv : 0 <= D * - (sigma * v)) by (clear - Hv HDpos; nia).
    assert (Hge : (n - k * d) * s <= - sigma * ((N * s - r * D) * Qd)).
    { rewrite Ht1. clear - Hs HDv. destruct Hs as [-> | ->]; lia. }
    specialize (Habs_ge' (N * s - r * D) Qd HQd). lia.
Qed.


Lemma Qred_lowest (n : Z) (d : positive) : Z.gcd n (Zpos d) = 1 -> Qred (n # d) = n # d.
Proof.
  intros Hg. unfold Qred.
  pose proof (Z.ggcd_gcd n (Zpos d)) as H1.
  pose proof (Z.ggcd_correct_divisors n (Zpos d)) as H2.
  destruct (Z.ggcd n (Zpos d)) as [g [a b]]. simpl in *.
  rewrite Hg in H1. subst g. destruct H2 as [Ha Hb].
  rewrite Z.mul_1_l in Ha, Hb. subst a. rewrite <- Hb. reflexivity.
Qed.

Lemma det_coprime (a b c d sigma : Z) :
  (sigma = 1 \/ sigma = -1) -> a * d - b * c = sigma -> Z.gcd b d = 1.
Proof.
  intros Hs Hdet. apply Z.bezout_1_gcd.
  destruct Hs as [-> | ->].
  - exists (- c), a. lia.
  - exists c, (- a). lia.
Qed.

Lemma Qabs_diff_le (N p r : Z) (D q s : positive) :
  Z.abs (N * Zpos q - p * Zpos D) * Zpos s <= Z.abs (N * Zpos s - r * Zpos D) * Zpos q ->
  (Qabs ((N # D) - (p # q)) <= Qabs ((N # D) - (r # s)))%Q.
Proof.
  intros H. unfold Qle, Qabs, Qminus, Qplus, Qopp. cbn [Qnum Qden].
  rewrite !Pos2Z.inj_mul.
  replace (N * Zpos q + - p * Zpos D) with (N * Zpos q - p * Zpos D) by ring.
  replace (N * Zpos s + - r * Zpos D) with (N * Zpos s - r * Zpos D) by ring.
  set (A := Z.abs (N * Zpos q - p * Zpos D)) in *.
  set (B := Z.abs (N * Zpos s - r * Zpos D)) in *.
  replace (A * (Zpos D * Zpos s)) with (Zpos D * (A * Zpos s)) by ring.
  replace (B * (Zpos D * Zpos q)) with (Zpos D * (B * Zpos q)) by ring.
  apply Z.mul_le_mono_nonneg_l; [lia | exact H].
Qed.

Lemma make_positive (n d : Z) :
  0 < d -> Z.gcd n d = 1 -> Fractions.make n d = Ok (n # Z.to_pos d).
Proof.
  intros Hd Hg. destruct d as [| p | p]; try lia.
  cbn [Fractions.make Z.to_pos]. now rewrite Qred_lowest.
Qed.

(** [limit_denominator] returns, and what it returns is in lowest
    terms, has its denominator within the bound, and is at least as
    near as any fraction whose denominator is within the bound. *)
Lemma limit_denominator_nearest (x : Q) (M : Z) :
  Z.gcd (Qnum x) (Zpos (Qden x)) = 1 ->
  1 <= M ->
  exists r : Q,
    Fractions.limit_denominator x M = Ok r /\
    Zpos (Qden r) <= M /\
    Z.gcd (Qnum r) (Zpos (Qden r)) = 1 /\
    forall (p : Z) (q : positive), Zpos q <= M ->
      (Qabs (x - r) <= Qabs (x - (p # q)))%Q.
Proof.
  intros Hlow HM. unfold Fractions.limit_denominator.
  destruct (Z.ltb_spec M 1); [lia |].
  unfold Fractions.denominator, Fractions.numerator.
  destruct (Z.leb_spec (Zpos (Qden x)) M) as [Hfit | Hover].
  - exists x. repeat split; auto.
    intros p q _.
    assert (E : (x - x == 0)%Q) by ring.
    rewrite E. apply Qabs_nonneg.
  - destruct x as [N D]. cbn [Qnum Qden] in *.
    rewrite loop_unfold.
    destruct (Z.eqb_spec (Zpos D) 0); [lia |].
    replace (1 + N / Zpos D * 0) with 1 by ring.
    destruct (Z.ltb_spec M 1); [lia |].
    replace (0 + N / Zpos D * 1) with (N / Zpos D) by ring.
    destruct (loop_exit N (Zpos D) M Hover
                (S (Z.to_nat (N - N / Zpos D * Zpos D)))
                1 1 0 (N / Zpos D) 1 (Zpos D) (N - N / Zpos D * Zpos D))
      as (sigma & p0 & q0 & p1 & q1 & n' & d' & -> & Hst & Hout);
      [lia | now apply loop_state_first |].
    cbn [bind].
    pose proof (candidates_nearest N (Zpos D) M sigma p0 q0 p1 q1 n' d' Hst Hout)
      as [Hden Hnear].
    destruct Hst as (Hs & Hdet & HN & HD & Hd & Hg & Hq0 & Hq1).
    destruct (Z.eqb_spec q1 0); [lia |].
    set (k := (M - q0) / q1) in *.
    assert (Hadj : (p0 + k * p1) * q1 - p1 * (q0 + k * q1) = sigma)
      by (rewrite <- Hdet; ring).
    assert (Hg2 : Z.gcd p1 q1 = 1) by (apply (det_coprime p0 p1 q0 q1 sigma); assumption).
    assert (Hg1 : Z.gcd (p0 + k * p1) (q0 + k * q1) = 1).
    { apply (det_coprime p1 (p0 + k * p1) q1 (q0 + k * q1) (- sigma)); [lia | lia]. }
    rewrite (make_positive (p0 + k * p1) (q0 + k * q1)) by (lia || assumption).
    rewrite (make_positive p1 q1) by (lia || assumption).
    cbn [bind].
    assert (Hd2 : Zpos (Z.to_pos q1) = q1) by (apply Z2Pos.id; lia).
    assert (Hd1 : Zpos (Z.to_pos (q0 + k * q1)) = q0 + k * q1) by (apply Z2Pos.id; lia).
    assert (Hnear' : forall (p : Z) (q : positive), Zpos q <= M ->
              (Qabs ((N # D) - (p1 # Z.to_pos q1)) <= Qabs ((N # D) - (p # q)))%Q \/
              (Qabs ((N # D) - ((p0 + k * p1) # Z.to_pos (q0 + k * q1)))
               <= Qabs ((N # D) - (p # q)))%Q).
    { intros p q Hq.
      destruct (Hnear p (Zpos q)) as [H2 | H1]; [lia | left | right];
        apply Qabs_diff_le; rewrite ?Hd2, ?Hd1; assumption. }
    rewrite (Qabs_Qminus (p1 # Z.to_pos q1)), (Qabs_Qminus (_ # Z.to_pos (q0 + k * q1))).
    destruct (Qle_bool _ _) eqn:Hcmp.
    + apply Qle_bool_iff in Hcmp.
      eexists. split; [reflexivity |]. cbn [Qnum Qden]. rewrite Hd2.
      repeat split; try lia; try assumption.
      intros p q Hq. destruct (Hnear' p q Hq) as [H2 | H1]; [exact H2 |].
      eapply Qle_trans; eassumption.
    + assert (Hlt : (Qabs ((N # D) - ((p0 + k * p1) # Z.to_pos (q0 + k * q1)))
                     <= Qabs ((N # D) - (p1 # Z.to_pos q1)))%Q).
      { apply Qlt_le_weak, Qnot_le_lt. intros Hle.
        apply Qle_bool_iff in Hle. congruence. }
      eexists. split; [reflexivity |]. cbn [Qnum Qden]. rewrite Hd1.
      repeat split; try lia; try assumption.
      intros p q Hq. destruct (Hnear' p q Hq) as [H2 | H1]; [| exact H1].
      eapply Qle_trans; eassumption.
Qed.

(** [Fraction(val)] is in lowest terms. *)
Lemma of_num_lowest (val : pynum) (x : Q) :
  Fractions.of_num val = Ok x -> Z.gcd (Qnum x) (Zpos (Qden x)) = 1.
Proof.
  destruct val as [z | f]; cbn [Fractions.of_num].
  - intros [= <-]. cbn [Qnum Qden]. apply Z.gcd_1_r.
  - intros H. bind_inv H. injection H as <-. cbn [Qnum Qden].
    destruct f as [s | s | | s m e]; cbn [PyFloat.as_integer_ratio] in Ha; try discriminate.
    + injection Ha as <-. reflexivity.
    + destruct (Z.leb_spec 0 e) as [He | He].
      * injection Ha as <-. cbn [fst snd Z.to_pos]. apply Z.gcd_1_r.
      * injection Ha as <-. cbn [fst snd].
        set (d := 2 ^ (- e)). set (g := Z.gcd (Zpos m) d).
        assert (Hd : 0 < d) by (apply Z.pow_pos_nonneg; lia).
        assert (Hg : 0 < g).
        { pose proof (Z.gcd_nonneg (Zpos m) d).
          assert (g <> 0) by (unfold g; intros E; apply Z.gcd_eq_0_l in E; lia).
          lia. }
        assert (Hgd : g <= d).
        { apply Z.divide_pos_le; [exact Hd | apply Z.gcd_divide_r]. }
        assert (Hq : 0 < d / g) by (apply Z.div_str_pos; lia).
        rewrite Z2Pos.id by exact Hq.
        assert (Hc : Z.gcd (Zpos m / g) (d / g) = 1)
          by (apply Z.gcd_div_gcd; [lia | reflexivity]).
        destruct s; cbn [PyFloat.sgn]; [rewrite Z.gcd_opp_l |]; exact Hc.
Qed.

Lemma default_max_denominator :
  PyNum.truediv (PInt 1) default_precision = Ok (PFloat (PyFloat.of_Z 8)) /\
  PyNum.to_int (PFloat (PyFloat.of_Z 8)) = Ok 8.
Proof. split; vm_compute; reflexivity. Qed.

(** [to_mixed_fraction] on the fraction [limit_denominator] returned. *)
Lemma to_mixed_fraction_shows (val : pynum) (x r : Q) :
  Fractions.of_num val = Ok x ->
  Fractions.limit_denominator x 8 = Ok r ->
  Z.gcd (Qnum r) (Zpos (Qden r)) = 1 ->
  to_mixed_fraction val default_precision = Ok (mixed_form r).
Proof.
  intros Hx Hr Hlow. unfold to_mixed_fraction.
  destruct default_max_denominator as [H1 H2].
  rewrite Hx. cbn [bind]. rewrite H1. cbn [bind]. rewrite H2. cbn [bind].
  rewrite Hr. cbn [bind].
  unfold Fractions.numerator, Fractions.denominator, mixed_form.
  set (whole := Qnum r / Zpos (Qden r)).
  set (part := Qnum r mod Zpos (Qden r)).
  assert (Hg : Z.gcd part (Zpos (Qden r)) = 1)
    by (unfold part; rewrite Z.gcd_mod_l; exact Hlow).
  cbn [Fractions.make]. rewrite (Qred_lowest _ _ Hg). cbn [bind Qnum].
  destruct (Z.eqb_spec part 0) as [E | Hpart]; [reflexivity |].
  assert (Hden : (Zpos (Qden r) =? 1) = false).
  { apply Z.eqb_neq. intros E. unfold part in Hpart. rewrite E, Z.mod_1_r in Hpart. lia. }
  unfold Fractions.str, Fractions.numerator, Fractions.denominator. cbn [Qnum Qden].
  rewrite Hden. destruct (whole =? 0); reflexivity.
Qed.

(** ** Integers as floats *)

Lemma digits2_pos_lower (p : positive) : 2 ^ (Zpos (digits2_pos p) - 1) <= Zpos p.
Proof.
  induction p as [p IH | p IH |]; cbn [digits2_pos].
  - rewrite Pos2Z.inj_succ. replace (Z.succ (Zpos (digits2_pos p)) - 1)
      with (Z.succ (Zpos (digits2_pos p) - 1)) by lia.
    rewrite Z.pow_succ_r by lia. lia.
  - rewrite Pos2Z.inj_succ. replace (Z.succ (Zpos (digits2_pos p)) - 1)
      with (Z.succ (Zpos (digits2_pos p) - 1)) by lia.
    rewrite Z.pow_succ_r by lia. lia.
  - simpl. lia.
Qed.

Lemma digits2_pos_iter_xO (p k : positive) :
  digits2_pos (Pos.iter xO p k) = (digits2_pos p + k)%positive.
Proof.
  induction k as [| k IH] using Pos.peano_ind.
  - simpl. lia.
  - rewrite Pos.iter_succ. cbn [digits2_pos]. rewrite IH. lia.
Qed.

(** An integer of at most 53 bits is a float as it stands: the mantissa
    is the integer shifted to 53 bits. *)
Lemma of_Z_exact (p : positive) :
  Zpos p < 2 ^ 53 ->
  exists (m : positive) (e : Z),
    PyFloat.of_Z (Zpos p) = S754_finite false m e /\
    -52 <= e <= 0 /\ Zpos m = Zpos p * 2 ^ (- e).
Proof.
  intros Hp.
  pose proof (digits2_pos_lower p) as Hlow.
  assert (Hd : Zpos (digits2_pos p) <= 53).
  { destruct (Z.le_gt_cases (Zpos (digits2_pos p)) 53) as [| Hgt]; [assumption |].
    exfalso. assert (2 ^ 53 <= 2 ^ (Zpos (digits2_pos p) - 1))
      by (apply Z.pow_le_mono_r; lia). lia. }
  unfold PyFloat.of_Z, binary_normalize, binary_round.
  assert (Hfexp : fexp PyFloat.prec PyFloat.emax (Zpos (digits2_pos p) + 0)
                  = Zpos (digits2_pos p) - 53).
  { unfold fexp, emin, PyFloat.prec, PyFloat.emax. lia. }
  rewrite Hfexp.
  set (d := Zpos (digits2_pos p)) in *.
  assert (Hshape : exists m, shl_align p 0 (d - 53) = (m, d - 53) /\
                             Zpos (digits2_pos m) = 53 /\
                             Zpos m = Zpos p * 2 ^ (53 - d)).
  { unfold shl_align. destruct (d - 53 - 0) as [| k | k] eqn:Hk; try lia.
    - exists p. replace (d - 53) with 0 by lia. replace (53 - d) with 0 by lia.
      repeat split; simpl; lia.
    - exists (Pos.iter xO p k). repeat split.
      + rewrite digits2_pos_iter_xO. unfold d in *. lia.
      + rewrite Zpos_iter_xO. f_equal. f_equal. lia. }
  destruct Hshape as (m & -> & Hm53 & Hmval).
  exists m, (d - 53).
  split; [| split; [unfold d; lia | rewrite Hmval; f_equal; f_equal; lia]].
  unfold binary_round_aux, shr_fexp.
  assert (Hfexp2 : fexp PyFloat.prec PyFloat.emax (Zdigits2 (Zpos m) + (d - 53)) - (d - 53) = 0).
  { cbn [Zdigits2]. rewrite Hm53. unfold fexp, emin, PyFloat.prec, PyFloat.emax. unfold d. lia. }
  rewrite Hfexp2. cbn [shr shr_record_of_loc shr_m loc_of_shr_record round_nearest_even].
  rewrite Hfexp2. cbn [shr shr_record_of_loc shr_m].
  destruct (Z.leb_spec (d - 53) (PyFloat.emax - PyFloat.prec)) as [| Hbad];
    [reflexivity | unfold PyFloat.emax, PyFloat.prec in Hbad; lia].
Qed.

Lemma round_half_even_exact (a b : Z) : 0 < b -> PyFloat.round_half_even (a * b) b = a.
Proof.
  intros Hb. unfold PyFloat.round_half_even.
  rewrite Z.div_mul, Z.mod_mul by lia.
  replace (2 * 0) with 0 by ring.
  destruct (Z.compare_spec 0 b); lia.
Qed.

(** [int(round(float(m)))] is [m] for an [int] of at most 53 bits. *)
Lemma rounded_minutes_int (m : Z) :
  Z.abs m < 2 ^ 53 -> rounded_minutes (VInt m) = Ok m.
Proof.
  intros Hm. unfold rounded_minutes. cbn [py_float]. unfold PyFloat.of_int.
  destruct m as [| p | p].
  - reflexivity.
  - destruct (of_Z_exact p Hm) as (mz & e & -> & He & Hv).
    cbn [PyFloat.is_inf bind PyFloat.round_int].
    destruct (Z.leb_spec 0 e).
    + replace e with 0 in * by lia. cbn [PyFloat.sgn]. f_equal.
      rewrite Hv. change (- 0) with 0. rewrite Z.pow_0_r. lia.
    + cbn [PyFloat.sgn]. rewrite Hv, round_half_even_exact; [f_equal; lia |].
      apply Z.pow_pos_nonneg; lia.
  - assert (Hneg : PyFloat.of_Z (Zneg p) = SFopp (PyFloat.of_Z (Zpos p))).
    { unfold PyFloat.of_Z, binary_normalize, binary_round.
      destruct (shl_align _ _ _) as [mz ez].
      unfold binary_round_aux.
      destruct (shr_fexp _ _ _ _ _) as [mrs' e'].
      destruct (shr_fexp _ _ _ _ _) as [mrs'' e''].
      destruct (shr_m mrs''); try reflexivity.
      destruct (_ <=? _); reflexivity. }
    rewrite Hneg.
    destruct (of_Z_exact p Hm) as (mz & e & -> & He & Hv).
    cbn [SFopp negb PyFloat.is_inf bind PyFloat.round_int].
    destruct (Z.leb_spec 0 e).
    + replace e with 0 in * by lia. cbn [PyFloat.sgn]. f_equal.
      rewrite Hv. change (- 0) with 0. rewrite Z.pow_0_r. lia.
    + cbn [PyFloat.sgn]. rewrite Hv, round_half_even_exact; [f_equal; lia |].
      apply Z.pow_pos_nonneg; lia.
Qed.

(** ** Formatting *)

(** [to_mixed_fraction] returns on every finite value. *)
Lemma of_num_finite (x : pynum) : finite x -> exists q, Fractions.of_num x = Ok q.
Proof.
  destruct x as [z | [s | s | | s m e]]; cbn; intros H; try contradiction; eauto.
  destruct (0 <=? e); cbn; eauto.
Qed.

Lemma to_mixed_fraction_nearest_general (val : pynum) (x : Q) :
  Fractions.of_num val = Ok x ->
  exists r : Q,
    (Zpos (Qden r) <= 8) /\
    (forall (p : Z) (q : positive), Zpos q <= 8 ->
       (Qabs (x - r) <= Qabs (x - (p # q)))%Q) /\
    to_mixed_fraction val default_precision = Ok (mixed_form r).
Proof.
  intros Hx.
  destruct (limit_denominator_nearest x 8 (of_num_lowest val x Hx)) as
    (r & Hr & Hden & Hlow & Hnear); [lia |].
  exists r. repeat split; try assumption.
  now apply (to_mixed_fraction_shows val x r).
Qed.

Lemma to_mixed_fraction_returns (val : pynum) :
  finite val -> exists s, to_mixed_fraction val default_precision = Ok s.
Proof.
  intros H. destruct (of_num_finite val H) as [q Hq].
  destruct (to_mixed_fraction_nearest_general val q Hq) as (r & _ & _ & Hr). eauto.
Qed.

(** C4, as amended. [to_mixed_fraction(0)] is "0", [to_mixed_fraction(1.5)]
    is "1 and 1/2" and [to_mixed_fraction(0.5)] is "1/2"; and for every
    value with an exact fraction [x] (an int or a finite float), the
    result shows a fraction [r] of denominator at most 8 that is at
    least as near to [x] as any fraction of denominator at most 8: the
    whole part alone when nothing is left over, the proper fraction
    alone when the whole part is zero, and "<whole> and <fraction>"
    otherwise. *)
Theorem to_mixed_fraction_nearest :
  (to_mixed_fraction (PInt 0) default_precision = Ok "0" /\
   to_mixed_fraction (PFloat (flt "1.5")) default_precision = Ok "1 and 1/2" /\
   to_mixed_fraction (PFloat (flt "0.5")) default_precision = Ok "1/2") /\
  forall (val : pynum) (x : Q),
    Fractions.of_num val = Ok x ->
    exists r : Q,
      (Zpos (Qden r) <= 8) /\
      (forall (p : Z) (q : positive), Zpos q <= 8 ->
         (Qabs (x - r) <= Qabs (x - (p # q)))%Q) /\
      to_mixed_fraction val default_precision = Ok (mixed_form r).
Proof.
  split.
  - repeat split; vm_compute; reflexivity.
  - exact to_mixed_fraction_nearest_general.
Qed.

(** The amended C4 at 2.99, which is shown as "3". *)
Lemma to_mixed_fraction_nearest_witness :
  exists r : Q,
    (Zpos (Qden r) <= 8) /\
    (forall (p : Z) (q : positive), Zpos q <= 8 ->
       (Qabs (Qmake 1683220360729723 562949953421312 - r)
        <= Qabs (Qmake 1683220360729723 562949953421312 - (p # q)))%Q) /\
    to_mixed_fraction (PFloat (flt "2.99")) default_precision = Ok (mixed_form r).
Proof.
  apply (proj2 to_mixed_fraction_nearest (PFloat (flt "2.99"))).
  vm_compute. reflexivity.
Defined.

(** C4 as stated fails: 0.2 is shown as "1/5", a fraction whose
    denominator does not divide 8 (the nearest eighth is 1/4). *)
Lemma to_mixed_fraction_fifth :
  to_mixed_fraction (PFloat (flt "0.2")) default_precision = Ok "1/5" /\
  ~ (5 | 8).
Proof.
  split; [vm_compute; reflexivity |].
  intros [k Hk]. lia.
Qed.

(** C3, as amended. [format_time(90)] is "1 hr 30 mins",
    [format_time(45)] is "45 mins" and [format_time(0)] is ""; an int
    of at most 53 bits is its own minute count; and for an input whose
    rounded minute count is [m], with [hrs = m // 60] and
    [mins = m % 60]: [mins] is in 0..59, the result is empty when both
    are zero, and when [mins] is not zero it is the minute part
    "<mins> min[s]", after the hour part "<hrs> hr[s]" and a space
    exactly when [hrs] is not zero ([hrs > 0] for a count that is not
    negative); when [mins] is zero and [hrs] is not, it is the hour
    part alone, followed by nothing or by one space; each part takes
    its "s" exactly when its number is greater than 1. *)
Theorem format_time_parts :
  (format_time (VInt 90) = "1 hr 30 mins" /\
   format_time (VInt 45) = "45 mins" /\
   format_time (VInt 0) = "") /\
  (forall m : Z, Z.abs m < 2 ^ 53 -> rounded_minutes (VInt m) = Ok m) /\
  forall (minutes : pyval) (m : Z),
    rounded_minutes minutes = Ok m ->
    let hrs := m / 60 in
    let mins := m mod 60 in
    0 <= mins < 60 /\
    (0 <= m -> 0 <= hrs) /\
    (hrs = 0 -> mins = 0 -> format_time minutes = "") /\
    (mins <> 0 ->
     format_time minutes =
     (if hrs =? 0 then "" else hour_part hrs ++ " ") ++ minute_part mins) /\
    (hrs <> 0 -> mins = 0 ->
     exists tail : string,
       format_time minutes = hour_part hrs ++ tail /\
       (tail = "" \/ tail = " ")).
Proof.
  split; [repeat split; vm_compute; reflexivity |].
  split; [exact rounded_minutes_int |].
  intros minutes m Hm hrs mins.
  assert (Hmins : 0 <= mins < 60) by (apply Z.mod_pos_bound; lia).
  split; [exact Hmins |].
  split; [intros H; apply Z.div_pos; lia |].
  unfold format_time. rewrite Hm. cbn [bind catch]. fold hrs mins.
  split; [| split].
  - intros -> ->. reflexivity.
  - intros Hne. destruct (Z.eqb_spec mins 0) as [| _]; [contradiction |].
    unfold hour_part, minute_part.
    destruct (hrs =? 0); [reflexivity |].
    now rewrite !append_associative.
  - intros Hhrs ->. destruct (Z.eqb_spec hrs 0) as [| _]; [contradiction |].
    cbn [Z.eqb]. exists " ". split; [| now right].
    unfold hour_part. rewrite !append_associative.
    destruct (1 <? hrs); reflexivity.
Qed.

(** The amended C3 at 150 minutes and at 120, a whole number of hours. *)
Lemma format_time_parts_witness :
  format_time (VInt 150) = "2 hrs 30 mins" /\
  exists tail : string,
    format_time (VInt 120) = hour_part 2 ++ tail /\ (tail = "" \/ tail = " ").
Proof.
  split.
  - apply (proj1 (proj2 (proj2 (proj2
             (proj2 (proj2 format_time_parts) (VInt 150) 150 eq_refl))))).
    vm_compute. discriminate.
  - apply (proj2 (proj2 (proj2 (proj2
             (proj2 (proj2 format_time_parts) (VInt 120) 120 eq_refl))))).
    + vm_compute. discriminate.
    + reflexivity.
Defined.

(** C3 as stated fails: a count of whole hours keeps the space that
    separates the two parts, and a negative count shows an hour part
    though its hours are below zero. *)
Lemma format_time_whole_hour_and_negative :
  format_time (VInt 60) = "1 hr " /\
  format_time (VInt 60) <> "1 hr" /\
  format_time (VInt (-30)) = "-1 hr 30 mins".
Proof.
  repeat split; try (vm_compute; reflexivity).
  vm_compute. discriminate.
Qed.

(** ** Parsing *)

(** C1. The code departs from the claim: on "2 cup rice, 1/2 tsp salt"
    [parse_ingredient_line] returns no entry at all, because the unit
    group of the pattern is one letter that white space must follow,
    and neither "cup" nor "tsp" is one letter. *)
Theorem parse_cup_tsp_drops_both :
  parse_ingredient_line (VStr "2 cup rice, 1/2 tsp salt") = Ok [].
Proof. vm_compute. reflexivity. Qed.

(** With one-letter units the same line parses as the claim describes. *)
Example parse_one_letter_units :
  parse_ingredient_line (VStr "2 c rice, 1/2 t salt") = Ok [rice; salt].
Proof. vm_compute. reflexivity. Qed.

(** The entries returned are those of the fragments that parse, in the
    order of the fragments. *)
Lemma parse_items_entries (items : list string) (out : list IngredientEntry) :
  parse_items items = Ok out ->
  out = flat_map (fun it => match parse_item it with
                            | Ok (Some e) => [e]
                            | _ => []
                            end) items.
Proof.
  revert out. induction items as [| it items IH]; intros out H.
  - now injection H as <-.
  - cbn [parse_items] in H. bind_inv H. bind_inv H. injection H as <-.
    cbn [flat_map]. rewrite Ha. rewrite (IH a0 Ha0).
    destruct a; reflexivity.
Qed.

Lemma parse_items_member (items : list string) (out : list IngredientEntry)
    (e : IngredientEntry) :
  parse_items items = Ok out -> In e out ->
  exists it, In it items /\ parse_item it = Ok (Some e).
Proof.
  intros H He. rewrite (parse_items_entries items out H) in He.
  apply in_flat_map in He. destruct He as (it & Hit & He).
  exists it. split; [exact Hit |].
  destruct (parse_item it) as [[e' |] | ex]; try contradiction.
  destruct He as [<- | []]. reflexivity.
Qed.

(** A fragment that the pattern does not match gives no entry, and one
    that it matches gives one entry or raises. *)
Lemma parse_item_matched (it : string) :
  match Re.rmatch ingredient_re it with
  | None => parse_item it = Ok None
  | Some _ => parse_item it <> Ok None
  end.
Proof.
  unfold parse_item. destruct (Re.rmatch ingredient_re it) as [m |]; [| reflexivity].
  destruct (group_text m "unit"); [| discriminate].
  destruct (group_text m "name"); [| discriminate].
  cbn [bind]. destruct (match Re.group m "qty" with Some (String _ _ as q) => _ | _ => _ end);
    discriminate.
Qed.

Lemma parse_items_count (items : list string) (out : list IngredientEntry) :
  parse_items items = Ok out ->
  List.length out =
  List.length (filter (fun it => match Re.rmatch ingredient_re it with
                                 | Some _ => true
                                 | None => false
                                 end) items).
Proof.
  revert out. induction items as [| it items IH]; intros out H.
  - now injection H as <-.
  - cbn [parse_items] in H. bind_inv H. bind_inv H. injection H as <-.
    cbn [filter]. pose proof (parse_item_matched it) as Hm.
    destruct (Re.rmatch ingredient_re it); destruct a as [e |];
      cbn [List.length]; rewrite <- (IH a0 Ha0); congruence.
Qed.

Lemma unit_letter_stripped (u : ascii) :
  PyStr.isalpha_ascii u = true -> PyStr.strip (String u EmptyString) = String u EmptyString.
Proof.
  intros Hu. unfold PyStr.strip. cbn [PyStr.lstrip].
  destruct (PyStr.isspace u) eqn:Hs.
  - rewrite (space_not_alpha u Hs) in Hu. discriminate.
  - cbn [PyStr.rstrip]. now rewrite Hs.
Qed.

(** C10. For every input, the unit of every entry that
    [parse_ingredient_line] returns is exactly one character, a letter
    of a-z or A-Z. *)
Theorem parse_unit_is_one_letter (line : pyval) (out : list IngredientEntry)
    (e : IngredientEntry) :
  parse_ingredient_line line = Ok out ->
  In e out ->
  exists c : ascii, unit e = String c EmptyString /\ PyStr.isalpha_ascii c = true.
Proof.
  unfold parse_ingredient_line. intros H He.
  destruct (parse_items_member _ _ e H He) as (it & _ & Hit).
  destruct (parse_item_entry it e Hit) as (pre & u & w & nm & _ & Hu & _ & _ & Hunit & _).
  exists u. split; [| exact Hu].
  rewrite Hunit. now apply unit_letter_stripped.
Qed.

(** C10 on the line "2 c rice, 1/2 t salt", at its first entry. *)
Lemma parse_unit_is_one_letter_witness :
  exists c : ascii, unit rice = String c EmptyString /\ PyStr.isalpha_ascii c = true.
Proof.
  apply (parse_unit_is_one_letter (VStr "2 c rice, 1/2 t salt") [rice; salt] rice).
  - vm_compute. reflexivity.
  - simpl. left. reflexivity.
Defined.

(** C8, as amended. For every input, every entry that
    [parse_ingredient_line] returns has a name that is not empty and an
    amount that is never negative: it is at least zero, or it is NaN
    (the quotient of two literals that overflow to infinity); and there
    are as many entries as fragments that the pattern matches, the
    others being dropped. *)
Theorem parse_entries_invariant (line : pyval) (out : list IngredientEntry) :
  parse_ingredient_line line = Ok out ->
  (forall e, In e out ->
     name e <> EmptyString /\
     (PyNum.ge0 (amount e) = true \/ amount e = PFloat PyFloat.nan)) /\
  List.length out =
  List.length (filter (fun it => match Re.rmatch ingredient_re it with
                                 | Some _ => true
                                 | None => false
                                 end) (fragments (py_str line))).
Proof.
  unfold parse_ingredient_line. intros H.
  split; [| now apply parse_items_count].
  intros e He.
  destruct (parse_items_member _ _ e H He) as (it & Hin & Hit).
  destruct (fragments_stripped _ it Hin) as (Hr & Hne & Hline).
  destruct (parse_item_entry it e Hit)
    as (pre & u & w & nm & Hit' & _ & _ & Hnm & _ & Hname & Hamt).
  split; [| now apply nonneg_ge0].
  assert (Hline' : all_chars Re.dot nm = true).
  { rewrite Hit' in Hline. rewrite all_chars_append in Hline.
    apply andb_prop in Hline. destruct Hline as [_ Hline].
    cbn [all_chars] in Hline.
    apply andb_prop in Hline. destruct Hline as [_ Hline].
    apply andb_prop in Hline. now destruct Hline. }
  rewrite (span_all Re.dot nm Hline') in Hname, Hnm. cbn [fst] in Hname, Hnm.
  rewrite Hname. apply strip_nonempty; [| exact Hnm].
  apply (rstrip_suffix (pre ++ String u (String w EmptyString))); [| exact Hnm].
  rewrite append_associative. cbn [append]. rewrite <- Hit'. exact Hr.
Qed.

(** The amended C8 on the line "2 c rice, 1/2 t salt", at its second entry. *)
Lemma parse_entries_invariant_witness :
  name salt <> EmptyString /\
  (PyNum.ge0 (amount salt) = true \/ amount salt = PFloat PyFloat.nan).
Proof.
  apply (proj1 (parse_entries_invariant (VStr "2 c rice, 1/2 t salt") [rice; salt]
                  ltac:(vm_compute; reflexivity)) salt).
  simpl. right. left. reflexivity.
Defined.

(** C8 as stated fails: infinity over infinity is NaN, and NaN is not
    at least zero. *)
Lemma parse_amount_nan :
  parse_ingredient_line (VStr (overflowing_literal ++ "/" ++ overflowing_literal ++ " c x")) =
    Ok [{| amount := PFloat PyFloat.nan; unit := "c"; name := "x";
           formattedAmount := "nan" |}] /\
  PyNum.ge0 (PFloat PyFloat.nan) = false.
Proof. split; vm_compute; reflexivity. Qed.

(** ** Scaling *)

Section Scaling.

Variable libm_log : Z -> PyFloat.float.

Lemma scale_ingredient_Ok (item : IngredientEntry) (servings base : Z)
    (r : IngredientEntry) :
  scale_ingredient libm_log item servings base = Ok r ->
  exists scaled formatted,
    r = {| amount := PyNum.round2 scaled; unit := unit item;
           name := name item; formattedAmount := formatted |} /\
    to_mixed_fraction scaled default_precision = Ok formatted /\
    (if any_in FIXED_INGREDIENTS (PyStr.lower (name item)) then Ok (amount item)
     else if any_in LOG_INGREDIENTS (PyStr.lower (name item)) then
       ls <- log libm_log servings ;;
       lb <- log libm_log base ;;
       ratio <- PyNum.truediv (PFloat ls) (PFloat lb) ;;
       PyNum.mul (amount item) ratio
     else
       ratio <- PyNum.truediv (PInt servings) (PInt base) ;;
       PyNum.mul (amount item) ratio) = Ok scaled.
Proof.
  unfold scale_ingredient. intros H.
  bind_inv H. bind_inv H.
  injection H as <-.
  eauto.
Qed.

(** C9. For every entry and every serving count, the entry
    [scale_ingredient] returns has the unit and the name of the entry
    it was given; only [amount] and [formattedAmount] are computed
    anew. *)
Theorem scale_ingredient_keeps_unit_and_name
    (item : IngredientEntry) (servings base : Z) (r : IngredientEntry) :
  scale_ingredient libm_log item servings base = Ok r ->
  unit r = unit item /\ name r = name item.
Proof.
  intros H.
  destruct (scale_ingredient_Ok _ _ _ _ H) as (scaled & formatted & -> & _).
  split; reflexivity.
Qed.

(** [scale_ingredient] returns whenever the scaled amount is finite. *)
Lemma scale_ingredient_returns (item : IngredientEntry) (servings base : Z)
    (scaled : pynum) :
  (if any_in FIXED_INGREDIENTS (PyStr.lower (name item)) then Ok (amount item)
   else if any_in LOG_INGREDIENTS (PyStr.lower (name item)) then
     ls <- log libm_log servings ;;
     lb <- log libm_log base ;;
     ratio <- PyNum.truediv (PFloat ls) (PFloat lb) ;;
     PyNum.mul (amount item) ratio
   else
     ratio <- PyNum.truediv (PInt servings) (PInt base) ;;
     PyNum.mul (amount item) ratio) = Ok scaled ->
  finite scaled ->
  exists formatted,
    scale_ingredient libm_log item servings base =
    Ok {| amount := PyNum.round2 scaled; unit := unit item;
          name := name item; formattedAmount := formatted |}.
Proof.
  intros Hs Hfin. unfold scale_ingredient. rewrite Hs. cbn [bind].
  destruct (to_mixed_fraction_returns scaled Hfin) as [s ->].
  cbn [bind]. eauto.
Qed.

(** C5, as amended. For every serving count and every entry whose
    name holds a Fixed-set keyword, the amount [scale_ingredient]
    returns is the entry's amount rounded to two decimals, whatever
    the serving count: the amount itself when it is an int. The call
    returns for every finite amount. *)
Theorem scale_fixed_rounds_amount (item : IngredientEntry) (servings base : Z) :
  any_in FIXED_INGREDIENTS (PyStr.lower (name item)) = true ->
  (forall r, scale_ingredient libm_log item servings base = Ok r ->
             amount r = PyNum.round2 (amount item) /\
             (forall z, amount item = PInt z -> amount r = amount item)) /\
  (finite (amount item) ->
   exists r, scale_ingredient libm_log item servings base = Ok r).
Proof.
  intros Hfixed. split.
  - intros r H.
    destruct (scale_ingredient_Ok _ _ _ _ H) as (scaled & formatted & -> & _ & Hs).
    rewrite Hfixed in Hs. injection Hs as <-. cbn [amount].
    split; [reflexivity |]. intros z ->. reflexivity.
  - intros Hfin.
    destruct (scale_ingredient_returns item servings base (amount item)) as [f Hf];
      [now rewrite Hfixed | exact Hfin |]. eauto.
Qed.

(** C6. For every entry whose name holds no Fixed-set and no
    Logarithmic-set keyword, the amount [scale_ingredient] returns is
    [round(amount * servings / 2, 2)]; the call returns whenever that
    product is finite. *)
Theorem scale_linear_amount (item : IngredientEntry) (servings : Z) :
  any_in FIXED_INGREDIENTS (PyStr.lower (name item)) = false ->
  any_in LOG_INGREDIENTS (PyStr.lower (name item)) = false ->
  (forall r, scale_ingredient libm_log item servings BASE_SERVINGS = Ok r ->
             linear_amount (amount item) servings BASE_SERVINGS = Ok (amount r)) /\
  (forall ratio scaled,
     PyNum.truediv (PInt servings) (PInt BASE_SERVINGS) = Ok ratio ->
     PyNum.mul (amount item) ratio = Ok scaled ->
     finite scaled ->
     exists r, scale_ingredient libm_log item servings BASE_SERVINGS = Ok r).
Proof.
  intros Hfixed Hlog. split.
  - intros r H.
    destruct (scale_ingredient_Ok _ _ _ _ H) as (scaled & formatted & -> & _ & Hs).
    rewrite Hfixed, Hlog in Hs. unfold linear_amount.
    bind_inv Hs. rewrite Ha. cbn [bind]. rewrite Hs. reflexivity.
  - intros ratio scaled Hr Hs Hfin.
    destruct (scale_ingredient_returns item servings BASE_SERVINGS scaled) as [f Hf];
      [rewrite Hfixed, Hlog, Hr; exact Hs | exact Hfin |]. eauto.
Qed.

End Scaling.

(** C9 on two cups of rice for four. *)
Lemma scale_ingredient_keeps_unit_and_name_witness :
  unit {| amount := PFloat (flt "4.0"); unit := "c"; name := "rice";
          formattedAmount := "4" |} = unit rice /\
  name {| amount := PFloat (flt "4.0"); unit := "c"; name := "rice";
          formattedAmount := "4" |} = name rice.
Proof.
  apply (scale_ingredient_keeps_unit_and_name log2_floor rice 4 BASE_SERVINGS).
  vm_compute. reflexivity.
Defined.

(** The amended C5 on a third of a teaspoon of cardamom for four. *)
Lemma scale_fixed_rounds_amount_witness :
  exists r, scale_ingredient log2_floor cardamom 4 BASE_SERVINGS = Ok r.
Proof.
  apply (proj2 (scale_fixed_rounds_amount log2_floor cardamom 4 BASE_SERVINGS
                  ltac:(vm_compute; reflexivity))).
  vm_compute. exact I.
Defined.

(** C5 as stated fails: a third of a teaspoon of cardamom, as it is
    parsed, comes back as 0.33, whatever [math.log] computes. *)
Lemma scale_fixed_changes_a_third :
  parse_ingredient_line (VStr "1/3 t cardamom") = Ok [cardamom] /\
  any_in FIXED_INGREDIENTS (PyStr.lower (name cardamom)) = true /\
  (forall libm_log : Z -> PyFloat.float,
     scale_ingredient libm_log cardamom 4 BASE_SERVINGS =
     Ok {| amount := PFloat (flt "0.33"); unit := "t"; name := "cardamom";
           formattedAmount := "1/3" |}) /\
  PFloat (flt "0.33") <> amount cardamom.
Proof.
  repeat split; try (vm_compute; reflexivity).
  vm_compute. discriminate.
Qed.

(** C6 on two cups of rice for four. *)
Lemma scale_linear_amount_witness :
  linear_amount (amount rice) 4 BASE_SERVINGS = Ok (PFloat (flt "4.0")).
Proof.
  apply (proj1 (scale_linear_amount log2_floor rice 4
                  ltac:(vm_compute; reflexivity) ltac:(vm_compute; reflexivity))
               {| amount := PFloat (flt "4.0"); unit := "c"; name := "rice";
                  formattedAmount := "4" |}).
  vm_compute. reflexivity.
Defined.

(** ** Resolving *)

Lemma detect_in_columns_hit (df : DataFrame) (lower : string)
    (cols : list (string * string)) (col code : string) (hit : DataFrame) :
  detect_in_columns df lower cols = Some (col, code, hit) ->
  In (col, code) cols /\ has_column df col = true /\
  hit = select df col lower /\ empty hit = false.
Proof.
  induction cols as [| [c k] cols IH]; cbn [detect_in_columns]; [discriminate |].
  destruct (has_column df c) eqn:Hc.
  - destruct (empty (select df c lower)) eqn:He; cbn [negb].
    + intros H. destruct (IH H) as (Hin & Hrest). split; [now right | exact Hrest].
    + intros [= <- <- <-]. repeat split; auto. now left.
  - intros H. destruct (IH H) as (Hin & Hrest). split; [now right | exact Hrest].
Qed.

(** What [detect_row] returns is a sheet of the workbook, one of the
    name columns that the sheet has, and the rows of the sheet under
    that name, of which there is at least one. *)
Lemma detect_row_hit (xls : workbook) (recipe_name sheet col code : string)
    (hit : DataFrame) :
  detect_row xls recipe_name = Some (sheet, col, code, hit) ->
  exists df,
    In (sheet, df) xls /\ In (col, code) name_columns /\ has_column df col = true /\
    hit = select df col (PyStr.lower recipe_name) /\ empty hit = false.
Proof.
  unfold detect_row. generalize (PyStr.lower recipe_name) as lower. intros lower.
  induction xls as [| [s df] xls IH]; cbn [detect_in_sheets]; [discriminate |].
  destruct (detect_in_columns df lower LANGUAGE_SUFFIX) as [[[c k] h] |] eqn:H1.
  - intros [= <- <- <- <-].
    destruct (detect_in_columns_hit _ _ _ _ _ _ H1) as (Hin & Hrest).
    exists df. split; [now left |]. split; [| exact Hrest].
    unfold name_columns. apply in_or_app. now left.
  - destruct (detect_in_columns df lower [("name", "en"); ("Name", "en")])
      as [[[c k] h] |] eqn:H2.
    + intros [= <- <- <- <-].
      destruct (detect_in_columns_hit _ _ _ _ _ _ H2) as (Hin & Hrest).
      exists df. split; [now left |]. split; [| exact Hrest].
      unfold name_columns. apply in_or_app. now right.
    + intros H. destruct (IH H) as (df' & Hin & Hrest).
      exists df'. split; [now right | exact Hrest].
Qed.

Lemma select_found (df : DataFrame) (col lower : string) (row : list pyval) :
  has_column df col = true ->
  In row (rows df) ->
  PyStr.strip (PyStr.lower (py_str (cell (columns df) col row))) = lower ->
  empty (select df col lower) = false.
Proof.
  intros Hcol Hrow Hname. unfold empty, select. cbn [columns rows].
  unfold has_column in Hcol.
  destruct (columns df) as [| c cs] eqn:Hcs; [discriminate |].
  assert (Hin : In row (filter (fun row0 : list pyval =>
            (PyStr.strip (PyStr.lower (py_str (cell (c :: cs) col row0))) =? lower)%string)
            (rows df))).
  { apply filter_In. split; [exact Hrow |]. now apply String.eqb_eq. }
  destruct (filter _ (rows df)); [contradiction | reflexivity].
Qed.

Lemma detect_in_columns_found (df : DataFrame) (lower : string)
    (cols : list (string * string)) (col code : string) (row : list pyval) :
  In (col, code) cols ->
  has_column df col = true ->
  In row (rows df) ->
  PyStr.strip (PyStr.lower (py_str (cell (columns df) col row))) = lower ->
  detect_in_columns df lower cols <> None.
Proof.
  intros Hin Hcol Hrow Hname.
  induction cols as [| [c k] cols IH]; [contradiction |].
  cbn [detect_in_columns].
  destruct Hin as [[= -> ->] | Hin].
  - rewrite Hcol, (select_found df col lower row) by assumption. discriminate.
  - destruct (has_column df c); [| now apply IH].
    destruct (empty (select df c lower)); [now apply IH | discriminate].
Qed.

(** [detect_row] finds a row whenever some sheet stores, under one of
    the name columns, a name that lowered and stripped is the lowered
    query. *)
Lemma detect_row_found (xls : workbook) (query sheet col code : string)
    (df : DataFrame) (row : list pyval) :
  In (sheet, df) xls ->
  In (col, code) name_columns ->
  has_column df col = true ->
  In row (rows df) ->
  PyStr.strip (PyStr.lower (py_str (cell (columns df) col row))) = PyStr.lower query ->
  detect_row xls query <> None.
Proof.
  unfold detect_row. generalize (PyStr.lower query) as lower.
  intros lower Hsheet Hcolumn Hcol Hrow Hname.
  induction xls as [| [s d] xls IH]; [contradiction |].
  cbn [detect_in_sheets].
  destruct (detect_in_columns d lower LANGUAGE_SUFFIX) as [[[c k] h] |] eqn:H1;
    [discriminate |].
  destruct (detect_in_columns d lower [("name", "en"); ("Name", "en")])
    as [[[c k] h] |] eqn:H2; [discriminate |].
  destruct Hsheet as [[= -> ->] | Hsheet]; [| now apply IH].
  exfalso. unfold name_columns in Hcolumn. apply in_app_or in Hcolumn.
  destruct Hcolumn as [Hc | Hc].
  - now apply (detect_in_columns_found df lower _ col code row Hc Hcol Hrow Hname).
  - now apply (detect_in_columns_found df lower _ col code row Hc Hcol Hrow Hname).
Qed.

Lemma lower_char_idempotent (c : ascii) :
  PyStr.lower_char (PyStr.lower_char c) = PyStr.lower_char c.
Proof. each_char c. Qed.

Lemma lower_idempotent (s : string) : PyStr.lower (PyStr.lower s) = PyStr.lower s.
Proof.
  induction s as [| c s IH]; [reflexivity |].
  cbn [PyStr.lower]. now rewrite lower_char_idempotent, IH.
Qed.

Section Resolving.

Variable libm_log : Z -> PyFloat.float.

(** C2, as amended. The query is stripped by [adjust_ingredients]
    and lowered by [detect_row], which does not strip it; a stored name
    is lowered and stripped. So [detect_row] gives the same result for
    a query and for the query lowered, and whenever some sheet stores,
    under one of the name columns, a name that lowered and stripped is
    the query stripped and lowered, [detect_row] on the stripped query
    finds a row and [adjust_ingredients] on the query does not answer
    "Recipe not found". *)
Theorem resolver_normalizes (xls : workbook) (query sheet col code : string)
    (df : DataFrame) (row : list pyval) (servings : Z) :
  In (sheet, df) xls ->
  In (col, code) name_columns ->
  has_column df col = true ->
  In row (rows df) ->
  PyStr.strip (PyStr.lower (py_str (cell (columns df) col row)))
    = PyStr.lower (PyStr.strip query) ->
  detect_row xls (PyStr.lower (PyStr.strip query)) = detect_row xls (PyStr.strip query) /\
  detect_row xls (PyStr.strip query) <> None /\
  adjust_ingredients libm_log xls query servings <> Ok (Failed "Recipe not found" 404).
Proof.
  intros Hsheet Hcolumn Hcol Hrow Hname.
  assert (Hfound : detect_row xls (PyStr.strip query) <> None)
    by (now apply (detect_row_found xls _ sheet col code df row)).
  split; [unfold detect_row; now rewrite lower_idempotent |].
  split; [exact Hfound |].
  unfold adjust_ingredients.
  destruct (detect_row xls (PyStr.strip query)) as [[[[s c] k] hit] |] eqn:Hd;
    [| contradiction].
  destruct (rows hit); [discriminate |].
  destruct (or_else _ _); [| discriminate].
  destruct (parse_ingredient_line _); [| discriminate]. cbn [bind].
  destruct (mapM _ _); discriminate.
Qed.

(** C7. When a row is matched for the requested recipe and no column
    of the row has "ingredients_<code>" or "ingredients_en" in its
    lowered label, [adjust_ingredients] answers "Ingredient column not
    found" with status 500, which is not the 404 of a recipe that was
    not found. *)
Theorem missing_ingredient_column_is_500 (xls : workbook)
    (recipe_name sheet lang_col lang_code : string) (df_row : DataFrame)
    (servings : Z) :
  detect_row xls (PyStr.strip recipe_name) = Some (sheet, lang_col, lang_code, df_row) ->
  (forall c, In c (columns df_row) ->
     PyStr.contains ("ingredients_" ++ lang_code) (PyStr.lower c) = false /\
     PyStr.contains "ingredients_en" (PyStr.lower c) = false) ->
  adjust_ingredients libm_log xls recipe_name servings
    = Ok (Failed "Ingredient column not found" 500) /\
  adjust_ingredients libm_log xls recipe_name servings
    <> Ok (Failed "Recipe not found" 404).
Proof.
  intros Hd Hnone.
  assert (H : adjust_ingredients libm_log xls recipe_name servings
              = Ok (Failed "Ingredient column not found" 500)).
  { unfold adjust_ingredients. rewrite Hd.
    destruct (detect_row_hit _ _ _ _ _ _ Hd) as (df & _ & _ & _ & _ & Hempty).
    unfold empty in Hempty.
    destruct (rows df_row) as [| row rest];
      [destruct (columns df_row); discriminate |].
    assert (Hfind : forall p : string -> bool,
              (forall c, In c (columns df_row) -> p c = false) ->
              first_column p (columns df_row) = None).
    { intros p Hp. unfold first_column.
      destruct (find p (columns df_row)) as [c |] eqn:Hf; [| reflexivity].
      apply find_some in Hf. destruct Hf as [Hin Hpc].
      rewrite (Hp c Hin) in Hpc. discriminate. }
    rewrite (Hfind (fun c => PyStr.contains ("ingredients_" ++ lang_code) (PyStr.lower c)))
      by (intros c Hc; now apply Hnone).
    rewrite (Hfind (fun c => PyStr.contains "ingredients_en" (PyStr.lower c)))
      by (intros c Hc; now apply Hnone).
    reflexivity. }
  split; [exact H |]. rewrite H. discriminate.
Qed.

End Resolving.

(** The amended C2 on the query "  Pongal " and the stored name "pongal". *)
Lemma resolver_normalizes_witness :
  detect_row pongal_book (PyStr.lower (PyStr.strip "  Pongal "))
    = detect_row pongal_book (PyStr.strip "  Pongal ") /\
  detect_row pongal_book (PyStr.strip "  Pongal ") <> None /\
  adjust_ingredients log2_floor pongal_book "  Pongal " 4
    <> Ok (Failed "Recipe not found" 404).
Proof.
  apply (resolver_normalizes log2_floor pongal_book "  Pongal " "Sheet1" "name" "en"
           {| columns := ["name"; "ingredients_en"; "cooking"];
              rows := [[VStr "pongal"; VStr "2 c rice, 1/2 t salt"; VStr "30"]] |}
           [VStr "pongal"; VStr "2 c rice, 1/2 t salt"; VStr "30"] 4).
  - simpl. left. reflexivity.
  - vm_compute. do 9 right. left. reflexivity.
  - vm_compute. reflexivity.
  - simpl. left. reflexivity.
  - vm_compute. reflexivity.
Defined.

(** C2 as stated fails: [detect_row] does not strip its query, so
    "  Pongal " does not find the row stored as "pongal"; stripped, it does. *)
Lemma detect_row_keeps_spaces :
  detect_row pongal_book "  Pongal " = None /\
  detect_row pongal_book "Pongal" <> None.
Proof. split; vm_compute; [reflexivity | discriminate]. Qed.

(** C7 on a sheet that has the recipe and no ingredient column. *)
Lemma missing_ingredient_column_is_500_witness :
  adjust_ingredients log2_floor pongal_bare " Pongal" 4
    = Ok (Failed "Ingredient column not found" 500) /\
  adjust_ingredients log2_floor pongal_bare " Pongal" 4
    <> Ok (Failed "Recipe not found" 404).
Proof.
  apply (missing_ingredient_column_is_500 log2_floor pongal_bare " Pongal" "Sheet1"
           "name" "en"
           {| columns := ["name"; "cooking"]; rows := [[VStr "pongal"; VStr "30"]] |} 4).
  - vm_compute. reflexivity.
  - intros c Hc. simpl in Hc.
    destruct Hc as [<- | [<- | []]]; split; vm_compute; reflexivity.
Defined.

(** ** Resolving: which row is found *)

Lemma select_rows (df : DataFrame) (col lower : string) (row : list pyval) :
  In row (rows (select df col lower)) <-> names_row df col lower row.
Proof.
  unfold select, names_row. cbn [rows]. rewrite filter_In.
  split; intros [H1 H2]; (split; [exact H1 |]).
  - now apply String.eqb_eq.
  - now apply String.eqb_eq.
Qed.

Lemma select_empty (df : DataFrame) (col lower : string) :
  has_column df col = true ->
  empty (select df col lower) = true ->
  forall row, ~ names_row df col lower row.
Proof.
  intros Hcol Hempty row Hrow. apply select_rows in Hrow.
  unfold empty in Hempty. unfold has_column in Hcol.
  change (columns (select df col lower)) with (columns df) in Hempty.
  destruct (columns df); [discriminate |].
  destruct (rows (select df col lower)); [contradiction | discriminate].
Qed.

Lemma detect_in_columns_none (df : DataFrame) (lower : string)
    (cols : list (string * string)) :
  detect_in_columns df lower cols = None ->
  forall col code, In (col, code) cols ->
    ~ (has_column df col = true /\ exists row, names_row df col lower row).
Proof.
  induction cols as [| [c k] cols IH]; cbn [detect_in_columns]; intros H col code Hin;
    [contradiction |].
  destruct (has_column df c) eqn:Hc.
  - destruct (empty (select df c lower)) eqn:He; cbn [negb] in H; [| discriminate].
    destruct Hin as [[= <- <-] | Hin]; [| now apply (IH H col code)].
    intros [_ [row Hrow]]. exact (select_empty df c lower Hc He row Hrow).
  - destruct Hin as [[= <- <-] | Hin]; [| now apply (IH H col code)].
    intros [Hc' _]. congruence.
Qed.

Lemma detect_in_columns_first (df : DataFrame) (lower : string)
    (cols : list (string * string)) (col code : string) (hit : DataFrame) :
  detect_in_columns df lower cols = Some (col, code, hit) ->
  exists before after,
    cols = (before ++ (col, code) :: after)%list /\
    forall c k, In (c, k) before ->
      ~ (has_column df c = true /\ exists row, names_row df c lower row).
Proof.
  induction cols as [| [c k] cols IH]; cbn [detect_in_columns]; [discriminate |].
  intros H.
  assert (Hskip : detect_in_columns df lower cols = Some (col, code, hit) ->
                  ~ (has_column df c = true /\ exists row, names_row df c lower row) ->
                  exists before after,
                    (c, k) :: cols = (before ++ (col, code) :: after)%list /\
                    forall c' k', In (c', k') before ->
                      ~ (has_column df c' = true /\
                         exists row, names_row df c' lower row)).
  { intros H' Hno. destruct (IH H') as (before & after & -> & Hbefore).
    exists ((c, k) :: before), after. split; [reflexivity |].
    intros c' k' [[= <- <-] | Hin]; [exact Hno | now apply (Hbefore c' k')]. }
  destruct (has_column df c) eqn:Hc.
  - destruct (empty (select df c lower)) eqn:He; cbn [negb] in H.
    + apply Hskip; [exact H |].
      intros [_ [row Hrow]]. exact (select_empty df c lower Hc He row Hrow).
    + injection H as <- <- <-. exists [], cols. split; [reflexivity |].
      intros c' k' [].
  - apply Hskip; [exact H |]. intros [Hc' _]. congruence.
Qed.

Lemma sheet_has_columns (df : DataFrame) (lower : string) :
  sheet_has df lower <->
  exists col code, In (col, code) name_columns /\
    has_column df col = true /\ exists row, names_row df col lower row.
Proof.
  unfold sheet_has. split.
  - intros (col & code & row & H1 & H2 & H3). exists col, code. eauto.
  - intros (col & code & H1 & H2 & row & H3). exists col, code, row. eauto.
Qed.

Lemma detect_in_sheets_none (xls : workbook) (lower : string) :
  detect_in_sheets xls lower = None <->
  forall sheet df, In (sheet, df) xls -> ~ sheet_has df lower.
Proof.
  induction xls as [| [s d] xls IH]; cbn [detect_in_sheets].
  - split; [intros _ sheet df [] | reflexivity].
  - destruct (detect_in_columns d lower LANGUAGE_SUFFIX) as [[[c k] h] |] eqn:H1.
    + split; [discriminate |]. intros H. exfalso.
      destruct (detect_in_columns_hit _ _ _ _ _ _ H1) as (Hin & Hcol & -> & He).
      apply (H s d); [now left |].
      unfold empty in He. change (columns (select d c lower)) with (columns d) in He.
      destruct (columns d) eqn:Hcs; [discriminate |].
      destruct (rows (select d c lower)) as [| row rest] eqn:Hrows; [discriminate |].
      exists c, k, row. split; [unfold name_columns; apply in_or_app; now left |].
      split; [exact Hcol |]. apply select_rows. rewrite Hrows. now left.
    + destruct (detect_in_columns d lower [("name", "en"); ("Name", "en")])
        as [[[c k] h] |] eqn:H2.
      * split; [discriminate |]. intros H. exfalso.
        destruct (detect_in_columns_hit _ _ _ _ _ _ H2) as (Hin & Hcol & -> & He).
        apply (H s d); [now left |].
        unfold empty in He. change (columns (select d c lower)) with (columns d) in He.
        destruct (columns d) eqn:Hcs; [discriminate |].
        destruct (rows (select d c lower)) as [| row rest] eqn:Hrows; [discriminate |].
        exists c, k, row. split; [unfold name_columns; apply in_or_app; now right |].
        split; [exact Hcol |]. apply select_rows. rewrite Hrows. now left.
      * rewrite IH. split.
        -- intros H sheet df [[= <- <-] | Hin]; [| now apply (H sheet df)].
           intros Hhas. apply sheet_has_columns in Hhas.
           destruct Hhas as (col & code & Hc & Hrest).
           unfold name_columns in Hc. apply in_app_or in Hc. destruct Hc as [Hc | Hc].
           ++ exact (detect_in_columns_none _ _ _ H1 col code Hc Hrest).
           ++ exact (detect_in_columns_none _ _ _ H2 col code Hc Hrest).
        -- intros H sheet df Hin. apply (H sheet df). now right.
Qed.

(** X1. What [detect_row] returns: a sheet of the workbook, one of the
    name columns that the sheet has, the code of that column, and
    exactly the rows of the sheet that hold the lowered query under
    that column, of which there is at least one. *)
Theorem detect_row_sound (xls : workbook) (query sheet col code : string)
    (hit : DataFrame) :
  detect_row xls query = Some (sheet, col, code, hit) ->
  exists df,
    In (sheet, df) xls /\
    In (col, code) name_columns /\
    has_column df col = true /\
    columns hit = columns df /\
    rows hit <> [] /\
    forall row, In row (rows hit) <-> names_row df col (PyStr.lower query) row.
Proof.
  intros H. destruct (detect_row_hit _ _ _ _ _ _ H) as (df & Hs & Hc & Hcol & -> & He).
  exists df. do 4 (split; [assumption || reflexivity |]). split.
  - unfold empty in He. intros Hrows. rewrite Hrows in He.
    destruct (columns (select df col (PyStr.lower query))); discriminate.
  - intros row. apply select_rows.
Qed.

(** X2. [detect_row] finds nothing exactly when no sheet holds the
    lowered query under any of its name columns. *)
Theorem detect_row_none_iff (xls : workbook) (query : string) :
  detect_row xls query = None <->
  forall sheet df, In (sheet, df) xls -> ~ sheet_has df (PyStr.lower query).
Proof. unfold detect_row. apply detect_in_sheets_none. Qed.

(** X3. The sheets are searched in the order of the workbook and, on a
    sheet, the language columns in the order of [LANGUAGE_SUFFIX] before
    "name" and "Name": no sheet before the one returned holds the
    query, and on the sheet returned no name column before the one
    returned holds it. *)
Theorem detect_row_first (xls : workbook) (query sheet col code : string)
    (hit : DataFrame) :
  detect_row xls query = Some (sheet, col, code, hit) ->
  exists before df after,
    xls = (before ++ (sheet, df) :: after)%list /\
    (forall s d, In (s, d) before -> ~ sheet_has d (PyStr.lower query)) /\
    exists cbefore cafter,
      name_columns = (cbefore ++ (col, code) :: cafter)%list /\
      forall c k, In (c, k) cbefore ->
        ~ (has_column df c = true /\ exists row, names_row df c (PyStr.lower query) row).
Proof.
  unfold detect_row. generalize (PyStr.lower query) as lower. intros lower.
  induction xls as [| [s d] xls IH]; cbn [detect_in_sheets]; [discriminate |].
  destruct (detect_in_columns d lower LANGUAGE_SUFFIX) as [[[c k] h] |] eqn:H1.
  - intros [= <- <- <- <-]. exists [], d, xls. split; [reflexivity |].
    split; [intros s' d' [] |].
    destruct (detect_in_columns_first _ _ _ _ _ _ H1) as (cb & ca & Hcols & Hcb).
    exists cb, (ca ++ [("name", "en"); ("Name", "en")])%list.
    split; [| exact Hcb].
    unfold name_columns. rewrite Hcols, <- app_assoc. reflexivity.
  - destruct (detect_in_columns d lower [("name", "en"); ("Name", "en")])
      as [[[c k] h] |] eqn:H2.
    + intros [= <- <- <- <-]. exists [], d, xls. split; [reflexivity |].
      split; [intros s' d' [] |].
      destruct (detect_in_columns_first _ _ _ _ _ _ H2) as (cb & ca & Hcols & Hcb).
      exists (LANGUAGE_SUFFIX ++ cb)%list, ca.
      split; [unfold name_columns; rewrite Hcols, <- app_assoc; reflexivity |].
      intros c' k' Hin. apply in_app_or in Hin. destruct Hin as [Hin | Hin].
      * exact (detect_in_columns_none _ _ _ H1 c' k' Hin).
      * exact (Hcb c' k' Hin).
    + intros H. destruct (IH H) as (before & df & after & -> & Hbefore & Hcols).
      exists ((s, d) :: before), df, after. split; [reflexivity |].
      split; [| exact Hcols].
      intros s' d' [[= <- <-] | Hin]; [| now apply (Hbefore s' d')].
      intros Hhas. apply sheet_has_columns in Hhas.
      destruct Hhas as (col' & code' & Hc & Hrest).
      unfold name_columns in Hc. apply in_app_or in Hc. destruct Hc as [Hc | Hc].
      * exact (detect_in_columns_none _ _ _ H1 col' code' Hc Hrest).
      * exact (detect_in_columns_none _ _ _ H2 col' code' Hc Hrest).
Qed.

(** X1 on "Pongal" in [festival_book]. *)
Lemma detect_row_sound_witness :
  exists df,
    In ("Festival", df) festival_book /\
    In ("TamilName", "ta") name_columns /\
    has_column df "TamilName" = true /\
    columns festival_sheet = columns df /\
    rows festival_sheet <> [] /\
    forall row, In row (rows festival_sheet) <->
                names_row df "TamilName" (PyStr.lower "Pongal") row.
Proof.
  apply (detect_row_sound festival_book "Pongal" "Festival" "TamilName" "ta" festival_sheet).
  vm_compute. reflexivity.
Defined.

(** X3 on "Pongal" in [festival_book]: the first sheet does not hold it. *)
Lemma detect_row_first_witness :
  exists before df after,
    festival_book = (before ++ ("Festival", df) :: after)%list /\
    (forall s d, In (s, d) before -> ~ sheet_has d (PyStr.lower "Pongal")) /\
    exists cbefore cafter,
      name_columns = (cbefore ++ ("TamilName", "ta") :: cafter)%list /\
      forall c k, In (c, k) cbefore ->
        ~ (has_column df c = true /\
           exists row, names_row df c (PyStr.lower "Pongal") row).
Proof.
  apply (detect_row_first festival_book "Pongal" "Festival" "TamilName" "ta" festival_sheet).
  vm_compute. reflexivity.
Defined.

(** ** The view *)

Lemma mapM_Ok {A B : Type} (f : A -> res B) (l : list A) (out : list B) :
  mapM f l = Ok out -> Forall2 (fun a b => f a = Ok b) l out.
Proof.
  revert out. induction l as [| a l IH]; cbn [mapM]; intros out H.
  - injection H as <-. constructor.
  - bind_inv H. bind_inv H. injection H as <-. constructor; auto.
Qed.

Lemma first_column_none (p : string -> bool) (cols : list string) :
  (forall c, In c cols -> p c = false) -> first_column p cols = None.
Proof.
  intros Hp. unfold first_column.
  destruct (find p cols) as [c |] eqn:Hf; [| reflexivity].
  apply find_some in Hf. destruct Hf as [Hin Hpc].
  rewrite (Hp c Hin) in Hpc. discriminate.
Qed.

Lemma first_column_some (p : string -> bool) (cols : list string) (c : string) :
  first_column p cols = Some c -> In c cols /\ p c = true.
Proof. unfold first_column. apply find_some. Qed.

Lemma or_else_some (a b : option string) (c : string) :
  or_else a b = Some c -> a = Some c \/ b = Some c.
Proof.
  unfold or_else. destruct a as [x |]; [| now right].
  destruct (PyStr.nonempty x); [now left | now right].
Qed.

Section View.

Variable libm_log : Z -> PyFloat.float.

Lemma adjust_ingredients_Adjusted (xls : workbook) (recipe_name : string)
    (servings : Z) (r : AdjustmentResult) :
  adjust_ingredients libm_log xls recipe_name servings = Ok (Adjusted r) ->
  exists sheet lang_col lang_code hit row rest ing_col base_ing,
    detect_row xls (PyStr.strip recipe_name) = Some (sheet, lang_col, lang_code, hit) /\
    rows hit = row :: rest /\
    In ing_col (columns hit) /\
    (PyStr.contains ("ingredients_" ++ lang_code) (PyStr.lower ing_col) = true \/
     PyStr.contains "ingredients_en" (PyStr.lower ing_col) = true) /\
    parse_ingredient_line (cell (columns hit) ing_col row) = Ok base_ing /\
    mapM (fun i => scale_ingredient libm_log i servings BASE_SERVINGS) base_ing
      = Ok (ingredients r) /\
    recipe r = PyStr.strip recipe_name /\
    base_servings r = BASE_SERVINGS /\
    new_servings r = servings /\
    original_time r = format_time (time_cell (columns hit) row) /\
    adjusted_time r =
      format_time (scale_cooking_time (time_cell (columns hit) row) servings BASE_SERVINGS).
Proof.
  unfold adjust_ingredients. intros H.
  destruct (detect_row xls (PyStr.strip recipe_name)) as [[[[sheet col] code] hit] |] eqn:Hd;
    [| discriminate].
  destruct (rows hit) as [| row rest] eqn:Hrows; [discriminate |].
  destruct (or_else _ _) as [ing_col |] eqn:Hing; [| discriminate].
  bind_inv H. bind_inv H. injection H as <-.
  exists sheet, col, code, hit, row, rest, ing_col, a.
  split; [reflexivity |]. split; [exact Hrows |].
  assert (Hcol : In ing_col (columns hit) /\
                 (PyStr.contains ("ingredients_" ++ code) (PyStr.lower ing_col) = true \/
                  PyStr.contains "ingredients_en" (PyStr.lower ing_col) = true)).
  { apply or_else_some in Hing. destruct Hing as [Hing | Hing];
      apply first_column_some in Hing; destruct Hing as [Hin Hp]; auto. }
  destruct Hcol as [Hin Hp].
  repeat (split; [assumption || reflexivity |]). reflexivity.
Qed.

Lemma scaled_list_frame (servings : Z) (base out : list IngredientEntry) :
  Forall2 (fun i o => scale_ingredient libm_log i servings BASE_SERVINGS = Ok o) base out ->
  List.length out = List.length base /\
  map unit out = map unit base /\
  map name out = map name base.
Proof.
  induction 1 as [| i o l l' Hio Hrest IH]; [repeat split |].
  destruct IH as (IH1 & IH2 & IH3).
  destruct (scale_ingredient_Ok _ _ _ _ _ Hio) as (scaled & formatted & -> & _).
  cbn [List.length map unit name]. rewrite IH1, IH2, IH3. repeat split.
Qed.

(** X4. In an adjusted answer the recipe is the requested name
    stripped, the base servings are 2 and the new servings the
    requested ones; the ingredients are those parsed from the
    ingredient cell of the first matched row, each scaled: as many, in
    the same order, with the same units and names. *)
Theorem adjust_ingredients_answer (xls : workbook) (recipe_name : string)
    (servings : Z) (r : AdjustmentResult) :
  adjust_ingredients libm_log xls recipe_name servings = Ok (Adjusted r) ->
  recipe r = PyStr.strip recipe_name /\
  base_servings r = 2 /\
  new_servings r = servings /\
  exists sheet lang_col lang_code hit row ing_col base_ing,
    detect_row xls (PyStr.strip recipe_name) = Some (sheet, lang_col, lang_code, hit) /\
    hd_error (rows hit) = Some row /\
    In ing_col (columns hit) /\
    parse_ingredient_line (cell (columns hit) ing_col row) = Ok base_ing /\
    Forall2 (fun i o => scale_ingredient libm_log i servings BASE_SERVINGS = Ok o)
            base_ing (ingredients r) /\
    List.length (ingredients r) = List.length base_ing /\
    map unit (ingredients r) = map unit base_ing /\
    map name (ingredients r) = map name base_ing.
Proof.
  intros H.
  destruct (adjust_ingredients_Adjusted _ _ _ _ H)
    as (sheet & col & code & hit & row & rest & ing_col & base & Hd & Hrows & Hin & _ &
        Hparse & Hmap & Hrecipe & Hbase & Hnew & _).
  do 3 (split; [assumption |]).
  exists sheet, col, code, hit, row, ing_col, base.
  split; [exact Hd |]. split; [now rewrite Hrows |].
  split; [exact Hin |]. split; [exact Hparse |].
  apply mapM_Ok in Hmap. split; [exact Hmap |].
  exact (scaled_list_frame servings base (ingredients r) Hmap).
Qed.

(** X5. When the matched row has no column labelled "cooking" or
    "cookingtime" (in any letter case), both times of an adjusted answer
    are "N/A". *)
Theorem adjust_ingredients_without_time (xls : workbook) (recipe_name : string)
    (servings : Z) (r : AdjustmentResult) :
  adjust_ingredients libm_log xls recipe_name servings = Ok (Adjusted r) ->
  (forall sheet lang_col lang_code hit c,
     detect_row xls (PyStr.strip recipe_name) = Some (sheet, lang_col, lang_code, hit) ->
     In c (columns hit) ->
     PyStr.lower c <> "cooking" /\ PyStr.lower c <> "cookingtime") ->
  original_time r = "N/A" /\ adjusted_time r = "N/A".
Proof.
  intros H Hnone.
  destruct (adjust_ingredients_Adjusted _ _ _ _ H)
    as (sheet & col & code & hit & row & rest & ing_col & base & Hd & _ & _ & _ &
        _ & _ & _ & _ & _ & Horig & Hadj).
  assert (Hcell : time_cell (columns hit) row = VStr "N/A").
  { unfold time_cell. rewrite first_column_none; [reflexivity |].
    intros c Hc. destruct (Hnone _ _ _ _ c Hd Hc) as [H1 H2].
    apply orb_false_intro; now apply String.eqb_neq. }
  rewrite Hcell in Horig, Hadj. rewrite Horig, Hadj. split; reflexivity.
Qed.

End View.

(** X4 on "Pongal" for four from [festival_book]. *)
Lemma adjust_ingredients_answer_witness :
  recipe festival_answer = PyStr.strip " Pongal " /\
  base_servings festival_answer = 2 /\
  new_servings festival_answer = 4 /\
  exists sheet lang_col lang_code hit row ing_col base_ing,
    detect_row festival_book (PyStr.strip " Pongal ")
      = Some (sheet, lang_col, lang_code, hit) /\
    hd_error (rows hit) = Some row /\
    In ing_col (columns hit) /\
    parse_ingredient_line (cell (columns hit) ing_col row) = Ok base_ing /\
    Forall2 (fun i o => scale_ingredient log2_floor i 4 BASE_SERVINGS = Ok o)
            base_ing (ingredients festival_answer) /\
    List.length (ingredients festival_answer) = List.length base_ing /\
    map unit (ingredients festival_answer) = map unit base_ing /\
    map name (ingredients festival_answer) = map name base_ing.
Proof.
  apply (adjust_ingredients_answer log2_floor festival_book " Pongal " 4 festival_answer).
  vm_compute. reflexivity.
Defined.

(** X5 on the same request: the sheet has no time column. *)
Lemma adjust_ingredients_without_time_witness :
  original_time festival_answer = "N/A" /\ adjusted_time festival_answer = "N/A".
Proof.
  apply (adjust_ingredients_without_time log2_floor festival_book " Pongal " 4
           festival_answer).
  - vm_compute. reflexivity.
  - intros sheet lang_col lang_code hit c Hd Hc.
    vm_compute in Hd. injection Hd as <- <- <- <-.
    simpl in Hc. destruct Hc as [<- | [<- | [<- | []]]];
      split; intros E; vm_compute in E; discriminate.
Defined.

(** ** Scaling: edges *)

(** X6. [to_mixed_fraction] returns a string on every [int] and every
    finite [float]; on an infinity it raises [OverflowError] and on NaN
    [ValueError], as [Fraction] does. *)
Theorem to_mixed_fraction_total_on_finite (val : pynum) :
  match val with
  | PFloat (S754_infinity _) =>
      to_mixed_fraction val default_precision = Raise OverflowError
  | PFloat S754_nan => to_mixed_fraction val default_precision = Raise ValueError
  | _ => exists s, to_mixed_fraction val default_precision = Ok s
  end.
Proof.
  destruct val as [z | [s | s | | s m e]]; try reflexivity;
    apply to_mixed_fraction_returns; exact I.
Qed.

Section ScalingEdges.

Variable libm_log : Z -> PyFloat.float.

(** X7. An ingredient of the logarithmic class cannot be scaled to
    zero or fewer servings: [math.log] raises [ValueError] before any
    amount is computed. *)
Theorem scale_log_needs_positive_servings (item : IngredientEntry) (servings base : Z) :
  any_in FIXED_INGREDIENTS (PyStr.lower (name item)) = false ->
  any_in LOG_INGREDIENTS (PyStr.lower (name item)) = true ->
  servings <= 0 ->
  scale_ingredient libm_log item servings base = Raise ValueError.
Proof.
  intros Hfixed Hlog Hs. unfold scale_ingredient. rewrite Hfixed, Hlog.
  unfold log. destruct (Z.leb_spec servings 0); [reflexivity | lia].
Qed.

(** X8. For one serving an ingredient of the logarithmic class comes
    out as zero, whatever its amount: with [log(1)] zero and [log(2)]
    positive the factor is [0.0], so the amount is a zero and it is
    shown as "0". *)
Theorem scale_log_single_serving (item : IngredientEntry) (f : PyFloat.float)
    (m : positive) (e : Z) :
  any_in FIXED_INGREDIENTS (PyStr.lower (name item)) = false ->
  any_in LOG_INGREDIENTS (PyStr.lower (name item)) = true ->
  libm_log 1 = PyFloat.zero ->
  libm_log BASE_SERVINGS = S754_finite false m e ->
  PyNum.to_float (amount item) = Ok f ->
  PyFloat.is_nan f = false ->
  PyFloat.is_inf f = false ->
  scale_ingredient libm_log item 1 BASE_SERVINGS =
  Ok {| amount := PFloat (S754_zero (PyFloat.sign_bit f));
        unit := unit item; name := name item; formattedAmount := "0" |}.
Proof.
  intros Hfixed Hlog H1 H2 Hf Hnan Hinf.
  unfold scale_ingredient. rewrite Hfixed, Hlog.
  unfold log. cbn [Z.leb Z.compare BASE_SERVINGS bind]. rewrite H1, H2.
  cbn [bind PyNum.truediv PyNum.to_float PyFloat.is_zero PyFloat.div PyFloat.zero
       SFdiv xorb].
  assert (Hmul : PyNum.mul (amount item) (PFloat (S754_zero false))
                 = Ok (PFloat (S754_zero (PyFloat.sign_bit f)))).
  { destruct (amount item) as [z | g]; cbn [PyNum.mul]; rewrite Hf; cbn [bind];
      cbn [PyNum.to_float bind];
      destruct f as [s | s | | s mf ef]; try discriminate;
      cbn [PyFloat.mul SFmul PyFloat.sign_bit]; rewrite xorb_false_r; reflexivity. }
  rewrite Hmul. cbn [bind PyNum.round2 PyFloat.round2].
  destruct (PyFloat.sign_bit f); reflexivity.
Qed.

End ScalingEdges.

(** X7 on half a teaspoon of salt for no serving. *)
Lemma scale_log_needs_positive_servings_witness :
  scale_ingredient log2_floor salt 0 BASE_SERVINGS = Raise ValueError.
Proof.
  apply (scale_log_needs_positive_servings log2_floor salt 0 BASE_SERVINGS).
  - vm_compute. reflexivity.
  - vm_compute. reflexivity.
  - lia.
Defined.

(** X8 on half a teaspoon of salt. *)
Lemma scale_log_single_serving_witness :
  scale_ingredient log2_floor salt 1 BASE_SERVINGS =
  Ok {| amount := PFloat (S754_zero false);
        unit := "t"; name := "salt"; formattedAmount := "0" |}.
Proof.
  apply (scale_log_single_serving log2_floor salt (flt "0.5") 4503599627370496 (-52));
    vm_compute; reflexivity.
Defined.

(** ** Parsing: the lines *)

Lemma split_nonempty (s : string) : Re.split_comma_newline s <> [].
Proof.
  destruct s as [| c s]; cbn [Re.split_comma_newline]; [discriminate |].
  destruct ((PyStr.ord c =? 44)%N || (PyStr.ord c =? 10)%N); [discriminate |].
  destruct (Re.split_comma_newline s); discriminate.
Qed.

Lemma split_append (a b : string) (c : ascii) :
  separator c = true ->
  Re.split_comma_newline (a ++ String c b) =
  (Re.split_comma_newline a ++ Re.split_comma_newline b)%list.
Proof.
  intros Hc. induction a as [| x a IH].
  - cbn [append Re.split_comma_newline]. unfold separator in Hc. rewrite Hc. reflexivity.
  - cbn [append Re.split_comma_newline]. rewrite IH.
    destruct ((PyStr.ord x =? 44)%N || (PyStr.ord x =? 10)%N); [reflexivity |].
    pose proof (split_nonempty a) as Hne.
    destruct (Re.split_comma_newline a) as [| h t]; [contradiction | reflexivity].
Qed.

Lemma fragments_append (a b : string) (c : ascii) :
  separator c = true ->
  fragments (a ++ String c b) = (fragments a ++ fragments b)%list.
Proof.
  intros Hc. unfold fragments. rewrite (split_append a b c Hc).
  now rewrite filter_app, map_app.
Qed.

Lemma parse_items_append (l1 l2 : list string) (o1 o2 : list IngredientEntry) :
  parse_items l1 = Ok o1 -> parse_items l2 = Ok o2 ->
  parse_items (l1 ++ l2) = Ok (o1 ++ o2)%list.
Proof.
  revert o1. induction l1 as [| it l1 IH]; intros o1 H1 H2.
  - injection H1 as <-. exact H2.
  - cbn [parse_items] in H1. bind_inv H1. bind_inv H1. injection H1 as <-.
    cbn [app parse_items]. rewrite Ha. cbn [bind]. rewrite (IH a0 Ha0 H2). cbn [bind].
    destruct a; reflexivity.
Qed.

(** X9. Parsing two lists joined by a comma or a newline gives the
    entries of the first followed by the entries of the second. *)
Theorem parse_joined_lines (a b : string) (c : ascii)
    (oa ob : list IngredientEntry) :
  separator c = true ->
  parse_ingredient_line (VStr a) = Ok oa ->
  parse_ingredient_line (VStr b) = Ok ob ->
  parse_ingredient_line (VStr (a ++ String c b)) = Ok (oa ++ ob)%list.
Proof.
  unfold parse_ingredient_line. cbn [py_str]. intros Hc Ha Hb.
  rewrite (fragments_append a b c Hc). now apply parse_items_append.
Qed.

Lemma parse_joined_lines_witness :
  parse_ingredient_line (VStr ("2 c rice" ++ String "010"%char "1/2 t salt"))
  = Ok ([rice] ++ [salt])%list.
Proof.
  apply (parse_joined_lines "2 c rice" "1/2 t salt" "010"%char [rice] [salt]);
    vm_compute; reflexivity.
Defined.

(** ** Parsing: the quantity *)

Lemma is_char_eq (c : ascii) (n : N) :
  (n < 256)%N -> PyEval.is_char c n = true -> c = ascii_of_N n.
Proof.
  unfold PyEval.is_char, PyStr.ord. intros Hn H. apply N.eqb_eq in H.
  rewrite <- H. now rewrite ascii_N_embedding.
Qed.

Lemma start_not_LStart (c : ascii) (st : PyEval.lex_state) :
  PyEval.start c = Ok st ->
  (exists ds, st = PyEval.LInt ds) \/
  (st = PyEval.LDot /\ c = "."%char) \/
  st = PyEval.LSlash.
Proof.
  unfold PyEval.start.
  destruct (PyStr.isdigit c); [intros [= <-]; left; eauto |].
  destruct (PyEval.is_char c 46) eqn:Hc.
  - intros [= <-]. right; left. split; [reflexivity |].
    apply (is_char_eq c 46); [reflexivity | exact Hc].
  - destruct (PyEval.is_char c 47); [intros [= <-]; now right; right | discriminate].
Qed.

Lemma emit_int_number (ds : string) (t : PyEval.token) :
  PyEval.emit_int ds = Ok t -> exists x, t = PyEval.TNum x.
Proof.
  unfold PyEval.emit_int.
  destruct ds as [| c ds]; [intros [= <-]; eauto |].
  destruct (Ascii.eqb c "0"%char) eqn:Hc.
  - apply Ascii.eqb_eq in Hc. subst c.
    destruct (PyFloat.digits_value _ 0 =? 0); [intros [= <-]; eauto | discriminate].
  - assert (H : forall v w : res PyEval.token,
               match c with "0"%char => v | _ => w end = w).
    { intros v w. apply Ascii.eqb_neq in Hc.
      destruct c as [[] [] [] [] [] [] [] []]; try reflexivity. now elim Hc. }
    rewrite H. intros [= <-]. eauto.
Qed.

(** Where a token list that starts with [...] comes from. *)
Lemma lex_ellipsis_first (s : string) :
  forall st ts,
    PyEval.lex st s = Ok (PyEval.TEllipsis :: ts) ->
    exists s',
      PyEval.lex PyEval.LStart s' = Ok ts /\
      ((st = PyEval.LStart /\ s = "..." ++ s') \/
       (st = PyEval.LDot /\ s = ".." ++ s') \/
       (st = PyEval.LDotDot /\ s = "." ++ s')).
Proof.
  induction s as [| c s IH]; intros st ts H.
  - cbn [PyEval.lex] in H. destruct st; cbn [PyEval.flush] in H; try discriminate.
    + bind_inv H. injection H as -> <-. apply emit_int_number in Ha.
      destruct Ha as [x Hx]. discriminate.
  - cbn [PyEval.lex] in H. destruct st.
    + bind_inv H. destruct (IH _ _ H) as (s' & Hs' & Hst).
      destruct (start_not_LStart c a Ha) as [[ds ->] | [[-> ->] | ->]];
        destruct Hst as [[Hst _] | [[Hst Hs] | [Hst _]]]; try discriminate.
      exists s'. split; [exact Hs' |]. left. split; [reflexivity |]. now rewrite Hs.
    + destruct (PyStr.isdigit c).
      * destruct (IH _ _ H) as (s' & _ & [[Hst _] | [[Hst _] | [Hst _]]]); discriminate.
      * destruct (PyEval.is_char c 46).
        -- destruct (IH _ _ H) as (s' & _ & [[Hst _] | [[Hst _] | [Hst _]]]); discriminate.
        -- bind_inv H. bind_inv H. bind_inv H. injection H as -> <-.
           apply emit_int_number in Ha. destruct Ha as [x Hx]. discriminate.
    + destruct (PyStr.isdigit c).
      * destruct (IH _ _ H) as (s' & _ & [[Hst _] | [[Hst _] | [Hst _]]]); discriminate.
      * bind_inv H. bind_inv H. discriminate.
    + destruct (PyStr.isdigit c).
      * destruct (IH _ _ H) as (s' & _ & [[Hst _] | [[Hst _] | [Hst _]]]); discriminate.
      * destruct (PyEval.is_char c 46) eqn:Hc; [| discriminate].
        apply (is_char_eq c 46) in Hc; [| reflexivity]. subst c.
        destruct (IH _ _ H) as (s' & Hs' & [[Hst _] | [[Hst _] | [_ Hs]]]);
          try discriminate.
        exists s'. split; [exact Hs' |]. right; left. split; [reflexivity |].
        now rewrite Hs.
    + destruct (PyEval.is_char c 46) eqn:Hc; [| discriminate].
      apply (is_char_eq c 46) in Hc; [| reflexivity]. subst c.
      bind_inv H. injection H as <-.
      exists s. split; [exact Ha |]. right; right. split; reflexivity.
    + destruct (PyEval.is_char c 47).
      * bind_inv H. discriminate.
      * bind_inv H. bind_inv H. discriminate.
Qed.

Lemma lex_nothing (s : string) :
  forall st, PyEval.lex st s = Ok [] -> st = PyEval.LStart /\ s = EmptyString.
Proof.
  induction s as [| c s IH]; intros st H.
  - cbn [PyEval.lex] in H. destruct st; cbn [PyEval.flush] in H; try discriminate.
    + split; reflexivity.
    + bind_inv H. discriminate.
  - exfalso. cbn [PyEval.lex] in H. destruct st.
    + bind_inv H. destruct (IH _ H) as [-> _].
      destruct (start_not_LStart c _ Ha) as [[ds Hd] | [[Hd _] | Hd]]; discriminate.
    + destruct (PyStr.isdigit c); [destruct (IH _ H); discriminate |].
      destruct (PyEval.is_char c 46); [destruct (IH _ H); discriminate |].
      bind_inv H. bind_inv H. bind_inv H. discriminate.
    + destruct (PyStr.isdigit c); [destruct (IH _ H); discriminate |].
      bind_inv H. bind_inv H. discriminate.
    + destruct (PyStr.isdigit c); [destruct (IH _ H); discriminate |].
      destruct (PyEval.is_char c 46); [destruct (IH _ H); discriminate | discriminate].
    + destruct (PyEval.is_char c 46); [| discriminate].
      bind_inv H. discriminate.
    + destruct (PyEval.is_char c 47).
      * bind_inv H. discriminate.
      * bind_inv H. bind_inv H. discriminate.
Qed.

Lemma parse_rest_root (ts : list PyEval.token) :
  forall acc e,
    PyEval.parse_rest acc ts = Ok e ->
    (ts = [] /\ e = acc) \/ exists l op r, e = PyEval.BinOp l op r.
Proof.
  enough (H : forall n ts, (List.length ts <= n)%nat -> forall acc e,
                PyEval.parse_rest acc ts = Ok e ->
                (ts = [] /\ e = acc) \/ exists l op r, e = PyEval.BinOp l op r \/
                                                     False).
  { intros acc e He. destruct (H (List.length ts) ts (le_n _) acc e He)
      as [Hl | (l & op & r & [Hr | []])]; [now left | right; eauto]. }
  induction n as [| n IH]; intros ts0 Hn acc e He.
  - destruct ts0; [| simpl in Hn; lia]. injection He as <-. now left.
  - destruct ts0 as [| o [| a ts']]; [injection He as <-; now left | discriminate |].
    cbn [PyEval.parse_rest] in He.
    destruct (PyEval.operator o) as [op |]; [| discriminate].
    destruct (PyEval.atom a) as [v |]; [| discriminate].
    simpl in Hn.
    destruct (IH ts' ltac:(lia) _ _ He) as [[_ ->] | (l & op' & r & [Hr | []])];
      right; eauto.
Qed.

(** [eval] gives [Ellipsis] on the text "..." and on no other. *)
Lemma eval_ellipsis (q : string) :
  PyEval.eval q = Ok PyEval.VEllipsis <-> q = "...".
Proof.
  split; [| intros ->; reflexivity].
  unfold PyEval.eval. intros H. bind_inv H. bind_inv H.
  assert (He : a0 = PyEval.Const PyEval.VEllipsis).
  { destruct a0 as [v | l op r]; [cbn in H; congruence |].
    cbn [PyEval.eval_expr] in H. bind_inv H. bind_inv H.
    unfold PyEval.apply in H. destruct a0, a1; try discriminate.
    bind_inv H. discriminate. }
  subst a0. unfold PyEval.parse in Ha0.
  destruct a as [| t ts]; [discriminate |].
  destruct (PyEval.atom t) as [v |] eqn:Ht; [| discriminate].
  destruct (parse_rest_root _ _ _ Ha0) as [[-> Hv] | (l & op & r & Hr)];
    [| discriminate].
  injection Hv as <-.
  destruct t; try discriminate.
  destruct (lex_ellipsis_first _ _ _ Ha) as (s' & Hs' & [[_ ->] | [[? _] | [? _]]]);
    try discriminate.
  destruct (lex_nothing _ _ Hs') as [_ ->]. reflexivity.
Qed.

(** The amount read from the quantity text [q] of a fragment. *)
Lemma parse_item_quantity (it : string) :
  Re.rmatch ingredient_re it <> None ->
  let q := quantity_text it in
  let amt := match q with
             | EmptyString => PyEval.VNum (PInt 1)
             | _ => catch (PyEval.eval q) (PyEval.VNum (PInt 1))
             end in
  match amt with
  | PyEval.VNum a =>
      exists e, parse_item it = Ok (Some e) /\ amount e = a /\
                formattedAmount e = PyNum.str (PyNum.round2 a)
  | PyEval.VEllipsis => parse_item it = Raise TypeError
  end.
Proof.
  unfold parse_item, quantity_text. rewrite ingredient_re_shape. unfold ingredient_shape.
  destruct (PyStr.span qty_char it) as [q r1]. cbn [fst snd].
  unfold shape_tail.
  destruct (snd (PyStr.span PyStr.isspace r1)) as [| u [| w r3]]; try congruence.
  destruct (PyStr.isalpha_ascii u && PyStr.isspace w); [| congruence].
  destruct (PyStr.span Re.dot r3) as [[| n0 nm] rest]; [congruence |].
  intros _. cbn [Re.group group_text bind]. cbn.
  destruct q as [| c q]; cbn.
  - eexists. repeat split.
  - destruct (catch (PyEval.eval (String c q)) (PyEval.VNum (PInt 1))) as [a |].
    + eexists. repeat split.
    + reflexivity.
Qed.

Lemma parse_item_unmatched (it : string) :
  Re.rmatch ingredient_re it = None -> parse_item it = Ok None.
Proof. intros H. unfold parse_item. now rewrite H. Qed.

Lemma parse_item_raises (it : string) (x : exn) :
  parse_item it = Raise x <->
  x = TypeError /\ matched it = true /\ quantity_text it = "...".
Proof.
  unfold matched.
  destruct (Re.rmatch ingredient_re it) as [m |] eqn:Hm.
  2:{ rewrite (parse_item_unmatched it Hm). split; [discriminate | intros (_ & H & _)].
      discriminate. }
  pose proof (parse_item_quantity it) as Hq. rewrite Hm in Hq.
  specialize (Hq ltac:(discriminate)). cbv zeta in Hq.
  destruct (quantity_text it) as [| c q] eqn:Hqt.
  - destruct Hq as (e & -> & _). split; [discriminate | intros (_ & _ & H)]. discriminate.
  - destruct (PyEval.eval (String c q)) as [[a |] | ex] eqn:Hev; cbn [catch] in Hq.
    + destruct Hq as (e & -> & _). split; [discriminate |].
      intros (_ & _ & H). rewrite H in Hev. discriminate.
    + rewrite Hq. apply eval_ellipsis in Hev.
      split; [intros [= <-]; auto | intros (-> & _); reflexivity].
    + destruct Hq as (e & -> & _). split; [discriminate |].
      intros (_ & _ & H). rewrite H in Hev. discriminate.
Qed.

Lemma parse_items_raises (items : list string) (x : exn) :
  parse_items items = Raise x <->
  x = TypeError /\ exists it, In it items /\ matched it = true /\ quantity_text it = "...".
Proof.
  revert x. induction items as [| it items IH]; intros x; cbn [parse_items].
  - split; [discriminate | intros (_ & it & [] & _)].
  - destruct (parse_item it) as [r |ex] eqn:Hit; cbn [bind].
    + destruct (parse_items items) as [out | ex] eqn:Hitems; cbn [bind].
      * split; [discriminate |]. intros (-> & it' & [<- | Hin] & Hm & Hq).
        -- assert (H : parse_item it = Raise TypeError) by (apply parse_item_raises; auto).
           congruence.
        -- assert (H : Ok out = Raise TypeError :> res (list IngredientEntry)).
           { apply IH. split; [reflexivity |]. exists it'. auto. }
           discriminate.
      * destruct (proj1 (IH ex) eq_refl) as (-> & it' & Hin & Hrest). split.
        -- intros [= <-]. split; [reflexivity |]. exists it'. split; [now right | exact Hrest].
        -- intros (-> & _). reflexivity.
    + apply parse_item_raises in Hit. destruct Hit as (-> & Hm & Hq). split.
      * intros [= <-]. split; [reflexivity |]. exists it. split; [now left | auto].
      * intros (-> & _). reflexivity.
Qed.

(** X10. [parse_ingredient_line] raises exactly when some fragment
    that the pattern matches starts with the quantity text "...":
    [eval] gives [Ellipsis], which [round] refuses with [TypeError]
    outside the [try]. It raises nothing else and returns a list on
    every other input. *)
Theorem parse_raises_on_ellipsis (line : pyval) :
  (forall x, parse_ingredient_line line = Raise x <->
     x = TypeError /\
     exists it, In it (fragments (py_str line)) /\
                matched it = true /\ quantity_text it = "...") /\
  ((forall it, In it (fragments (py_str line)) -> quantity_text it <> "...") ->
   exists out, parse_ingredient_line line = Ok out).
Proof.
  split; [intros x; apply parse_items_raises |].
  intros Hno. unfold parse_ingredient_line.
  destruct (parse_items (fragments (py_str line))) as [out | x] eqn:H; [eauto |].
  apply parse_items_raises in H. destruct H as (_ & it & Hin & _ & Hq).
  now elim (Hno it Hin).
Qed.

Lemma parse_items_matched (items : list string) (out : list IngredientEntry) :
  parse_items items = Ok out ->
  Forall2 (fun it e => parse_item it = Ok (Some e)) (filter matched items) out.
Proof.
  revert out. induction items as [| it items IH]; intros out H.
  - injection H as <-. constructor.
  - cbn [parse_items] in H. bind_inv H. bind_inv H. injection H as <-.
    cbn [filter]. pose proof (parse_item_matched it) as Hm. unfold matched.
    destruct (Re.rmatch ingredient_re it); destruct a as [e |]; try congruence.
    + constructor; [exact Ha | now apply IH].
    + now apply IH.
Qed.

(** X11. The entries are those of the fragments the pattern matches,
    in their order, and the amount of each is read from the run of
    digits, points and slashes its fragment starts with: 1 when there
    is none or when [eval] raises on it, the value of [eval] otherwise;
    [formattedAmount] is that amount rounded to two decimals, as a
    string. *)
Theorem parse_amounts (line : pyval) (out : list IngredientEntry) :
  parse_ingredient_line line = Ok out ->
  Forall2 (fun it e =>
             (quantity_text it = EmptyString -> amount e = PInt 1) /\
             (forall x, PyEval.eval (quantity_text it) = Raise x -> amount e = PInt 1) /\
             (forall a, quantity_text it <> EmptyString ->
                        PyEval.eval (quantity_text it) = Ok (PyEval.VNum a) ->
                        amount e = a) /\
             formattedAmount e = PyNum.str (PyNum.round2 (amount e)))
          (filter matched (fragments (py_str line))) out.
Proof.
  unfold parse_ingredient_line. intros H. apply parse_items_matched in H.
  induction H as [| it e its out Hit Hrest IH]; constructor; [| exact IH].
  pose proof (parse_item_quantity it) as Hq.
  assert (Hm : Re.rmatch ingredient_re it <> None).
  { intros Hm. rewrite (parse_item_unmatched it Hm) in Hit. discriminate. }
  specialize (Hq Hm). cbv zeta in Hq.
  destruct (quantity_text it) as [| c q] eqn:Hqt.
  - destruct Hq as (e' & He' & Ha & Hf). rewrite Hit in He'. injection He' as <-.
    repeat split; congruence.
  - destruct (PyEval.eval (String c q)) as [[a |] | ex] eqn:Hev; cbn [catch] in Hq.
    + destruct Hq as (e' & He' & Ha & Hf). rewrite Hit in He'. injection He' as <-.
      repeat split; try congruence.
    + congruence.
    + destruct Hq as (e' & He' & Ha & Hf). rewrite Hit in He'. injection He' as <-.
      repeat split; try congruence.
Qed.

(** X11 on the line "c rice, 1/0 t salt, 3/4 c milk": no quantity, one
    that divides by zero, and one that evaluates. *)
Lemma parse_amounts_witness :
  Forall2 (fun it e =>
             (quantity_text it = EmptyString -> amount e = PInt 1) /\
             (forall x, PyEval.eval (quantity_text it) = Raise x -> amount e = PInt 1) /\
             (forall a, quantity_text it <> EmptyString ->
                        PyEval.eval (quantity_text it) = Ok (PyEval.VNum a) ->
                        amount e = a) /\
             formattedAmount e = PyNum.str (PyNum.round2 (amount e)))
          ["c rice"; "1/0 t salt"; "3/4 c milk"]
          [{| amount := PInt 1; unit := "c"; name := "rice"; formattedAmount := "1" |};
           {| amount := PInt 1; unit := "t"; name := "salt"; formattedAmount := "1" |};
           {| amount := PFloat (flt "0.75"); unit := "c"; name := "milk";
              formattedAmount := "0.75" |}].
Proof.
  apply (parse_amounts (VStr "c rice, 1/0 t salt, 3/4 c milk")).
  vm_compute. reflexivity.
Defined.

(** ** Parsing: the names *)

Lemma split_pieces_no_separator (s : string) :
  Forall (fun i => all_chars (fun c => negb (separator c)) i = true)
         (Re.split_comma_newline s).
Proof.
  induction s as [| c s IH]; cbn [Re.split_comma_newline].
  - repeat constructor.
  - fold (separator c). destruct (separator c) eqn:Hc.
    + constructor; [reflexivity | exact IH].
    + destruct (Re.split_comma_newline s) as [| h t].
      * constructor; [| constructor]. cbn [all_chars]. now rewrite Hc.
      * inversion IH as [| ? ? Hh Ht]. constructor; [| exact Ht].
        cbn [all_chars]. now rewrite Hc, Hh.
Qed.

Lemma all_chars_span (p q : ascii -> bool) (s : string) :
  all_chars p s = true -> all_chars p (fst (PyStr.span q s)) = true.
Proof.
  induction s as [| c s IH]; [reflexivity |].
  cbn [all_chars PyStr.span]. intros H. apply andb_prop in H. destruct H as [Hc Hs].
  destruct (q c); [| reflexivity].
  specialize (IH Hs). destruct (PyStr.span q s) as [a b]. cbn [fst all_chars] in *.
  now rewrite Hc, IH.
Qed.

Lemma lstrip_stripped (s : string) :
  match PyStr.lstrip s with
  | String c _ => PyStr.isspace c = false
  | EmptyString => True
  end.
Proof.
  induction s as [| c s IH]; [exact I |].
  cbn [PyStr.lstrip]. destruct (PyStr.isspace c) eqn:Hc; [exact IH | exact Hc].
Qed.

Lemma rstrip_first (c : ascii) (s : string) :
  PyStr.isspace c = false -> exists r, PyStr.rstrip (String c s) = String c r.
Proof.
  intros Hc. cbn [PyStr.rstrip]. destruct (PyStr.rstrip s); [| eauto].
  rewrite Hc. eauto.
Qed.

Lemma lstrip_first (c : ascii) (s : string) :
  PyStr.isspace c = false -> PyStr.lstrip (String c s) = String c s.
Proof. intros Hc. cbn [PyStr.lstrip]. now rewrite Hc. Qed.

(** [strip] is idempotent. *)
Lemma strip_idempotent (s : string) : PyStr.strip (PyStr.strip s) = PyStr.strip s.
Proof.
  unfold PyStr.strip. pose proof (lstrip_stripped s) as H.
  destruct (PyStr.lstrip s) as [| c t]; [reflexivity |].
  destruct (rstrip_first c t H) as [r Hr]. rewrite Hr.
  rewrite (lstrip_first c r H), <- Hr. apply rstrip_idempotent.
Qed.

(** X12. Every name that [parse_ingredient_line] returns is stripped
    and holds neither a comma nor a newline. *)
Theorem parse_names_clean (line : pyval) (out : list IngredientEntry)
    (e : IngredientEntry) :
  parse_ingredient_line line = Ok out ->
  In e out ->
  PyStr.strip (name e) = name e /\
  all_chars (fun c => negb (separator c)) (name e) = true.
Proof.
  unfold parse_ingredient_line. intros H He.
  destruct (parse_items_member _ _ e H He) as (it & Hin & Hit).
  destruct (parse_item_entry it e Hit) as (pre & u & w & nm & Hit' & _ & _ & _ & _ & Hname & _).
  rewrite Hname. split; [apply strip_idempotent |].
  unfold PyStr.strip. apply all_chars_rstrip, all_chars_lstrip, all_chars_span.
  unfold fragments in Hin. apply in_map_iff in Hin. destruct Hin as (i & Hi & Hin).
  apply filter_In in Hin. destruct Hin as [Hin _].
  pose proof (split_pieces_no_separator (py_str line)) as Hall.
  rewrite Forall_forall in Hall. specialize (Hall i Hin).
  assert (Hfrag : all_chars (fun c => negb (separator c)) it = true).
  { rewrite <- Hi. unfold PyStr.strip. now apply all_chars_rstrip, all_chars_lstrip. }
  rewrite Hit', all_chars_append in Hfrag. apply andb_prop in Hfrag.
  destruct Hfrag as [_ Hfrag]. cbn [all_chars] in Hfrag.
  apply andb_prop in Hfrag. destruct Hfrag as [_ Hfrag].
  apply andb_prop in Hfrag. now destruct Hfrag as [_ Hfrag].
Qed.

Lemma parse_names_clean_witness :
  PyStr.strip (name salt) = name salt /\
  all_chars (fun c => negb (separator c)) (name salt) = true.
Proof.
  apply (parse_names_clean (VStr "2 c rice , 1/2 t  salt ") [rice; salt] salt).
  - vm_compute. reflexivity.
  - simpl. right. left. reflexivity.
Defined.

(** ** Products that need no rounding *)

Lemma shr_1_double (m : Z) :
  shr_1 {| shr_m := m * 2; shr_r := false; shr_s := false |}
  = {| shr_m := m; shr_r := false; shr_s := false |}.
Proof.
  destruct m as [| p | p]; [reflexivity | |];
    rewrite Z.mul_comm; reflexivity.
Qed.

Lemma iter_pos_shr_exact (n : positive) :
  forall m : Z,
    iter_pos shr_1 n {| shr_m := m * 2 ^ Zpos n; shr_r := false; shr_s := false |}
    = {| shr_m := m; shr_r := false; shr_s := false |}.
Proof.
  induction n as [n IH | n IH |]; intros m; cbn [iter_pos].
  - replace (m * 2 ^ Zpos n~1) with (((m * 2 ^ Zpos n) * 2 ^ Zpos n) * 2).
    + now rewrite shr_1_double, !IH.
    + replace (Zpos n~1) with (Zpos n + Zpos n + 1) by lia.
      rewrite !Z.pow_add_r, Z.pow_1_r by lia. ring.
  - replace (m * 2 ^ Zpos n~0) with ((m * 2 ^ Zpos n) * 2 ^ Zpos n).
    + now rewrite !IH.
    + replace (Zpos n~0) with (Zpos n + Zpos n) by lia.
      rewrite Z.pow_add_r by lia. ring.
  - rewrite Z.pow_1_r. apply shr_1_double.
Qed.

Lemma digits2_pos_shifted (a mx : positive) (j : Z) :
  0 <= j -> Zpos mx = Zpos a * 2 ^ j ->
  Zpos (digits2_pos mx) = Zpos (digits2_pos a) + j.
Proof.
  intros Hj Hmx. destruct j as [| k | k]; [| | lia].
  - rewrite Z.pow_0_r, Z.mul_1_r in Hmx. injection Hmx as ->. lia.
  - rewrite <- Zpos_iter_xO in Hmx. injection Hmx as ->.
    rewrite digits2_pos_iter_xO. lia.
Qed.

(** Rounding a mantissa that ends in enough zeros only drops zeros. *)
Lemma binary_round_aux_exact (sx : bool) (mx a : positive) (ex j : Z) :
  0 <= j ->
  Zpos mx = Zpos a * 2 ^ j ->
  Zpos (digits2_pos a) <= 53 ->
  -1074 <= ex + j ->
  Zpos (digits2_pos mx) + ex <= 1024 ->
  ex <= 971 ->
  exists (m' : positive) (e' : Z),
    binary_round_aux PyFloat.prec PyFloat.emax sx (Zpos mx) ex loc_Exact
      = S754_finite sx m' e' /\
    e' = Z.max ex (Z.max (Zpos (digits2_pos mx) + ex - 53) (-1074)) /\
    Zpos m' * 2 ^ (e' - ex) = Zpos mx.
Proof.
  intros Hj Hmx Ha Hlow Hhigh Hex.
  pose proof (digits2_pos_shifted a mx j Hj Hmx) as Hd.
  set (d := Zpos (digits2_pos mx)) in *.
  assert (Hfexp : fexp PyFloat.prec PyFloat.emax (d + ex) = Z.max (d + ex - 53) (-1074)).
  { unfold fexp, emin, PyFloat.prec, PyFloat.emax. lia. }
  unfold binary_round_aux, shr_fexp. cbn [Zdigits2]. fold d. rewrite Hfexp.
  destruct (Z.max (d + ex - 53) (-1074) - ex) as [| n | n] eqn:Hn.
  - (* no shift *)
    cbn [shr shr_record_of_loc shr_m loc_of_shr_record round_nearest_even Zdigits2].
    fold d. rewrite Hfexp, Hn.
    cbn [shr shr_record_of_loc shr_m].
    exists mx, ex. split.
    + destruct (Z.leb_spec ex (PyFloat.emax - PyFloat.prec)) as [| Hbad];
        [reflexivity | unfold PyFloat.emax, PyFloat.prec in Hbad; lia].
    + split; [lia |]. rewrite Z.sub_diag, Z.pow_0_r. lia.
  - (* the shift drops [n] zeros *)
    assert (Hnj : Zpos n <= j) by lia.
    assert (Hsplit : Zpos mx = (Zpos a * 2 ^ (j - Zpos n)) * 2 ^ Zpos n).
    { rewrite Hmx, <- Z.mul_assoc, <- Z.pow_add_r by lia. f_equal. f_equal. lia. }
    assert (Hpos : 0 < Zpos a * 2 ^ (j - Zpos n)).
    { apply Z.mul_pos_pos; [lia | apply Z.pow_pos_nonneg; lia]. }
    destruct (Zpos a * 2 ^ (j - Zpos n)) as [| m' | m'] eqn:Hm'; try lia.
    cbn [shr shr_record_of_loc]. rewrite Hsplit, iter_pos_shr_exact.
    cbn [shr_m loc_of_shr_record round_nearest_even Zdigits2].
    assert (Hd' : Zpos (digits2_pos m') = Zpos (digits2_pos a) + (j - Zpos n)).
    { apply digits2_pos_shifted; [lia | now rewrite Hm']. }
    assert (Hfexp' : fexp PyFloat.prec PyFloat.emax (Zpos (digits2_pos m') + (ex + Zpos n))
                     - (ex + Zpos n) = 0).
    { unfold fexp, emin, PyFloat.prec, PyFloat.emax. lia. }
    rewrite Hfexp'. cbn [shr shr_record_of_loc shr_m].
    exists m', (ex + Zpos n). split.
    + destruct (Z.leb_spec (ex + Zpos n) (PyFloat.emax - PyFloat.prec)) as [| Hbad];
        [reflexivity | unfold PyFloat.emax, PyFloat.prec in Hbad; lia].
    + split; [lia |]. f_equal. f_equal. lia.
  - (* the exponent is above the canonical one *)
    cbn [shr shr_record_of_loc shr_m loc_of_shr_record round_nearest_even Zdigits2].
    fold d. rewrite Hfexp, Hn.
    cbn [shr shr_record_of_loc shr_m].
    exists mx, ex. split.
    + destruct (Z.leb_spec ex (PyFloat.emax - PyFloat.prec)) as [| Hbad];
        [reflexivity | unfold PyFloat.emax, PyFloat.prec in Hbad; lia].
    + split; [lia |]. rewrite Z.sub_diag, Z.pow_0_r. lia.
Qed.

Lemma digits2_pos_53 (p : positive) :
  Zpos p < 2 ^ 53 -> Zpos (digits2_pos p) <= 53.
Proof.
  intros Hp. pose proof (digits2_pos_lower p) as Hlow.
  destruct (Z.le_gt_cases (Zpos (digits2_pos p)) 53) as [| Hgt]; [assumption |].
  exfalso. assert (2 ^ 53 <= 2 ^ (Zpos (digits2_pos p) - 1))
    by (apply Z.pow_le_mono_r; lia). lia.
Qed.

Lemma digits2_pos_upper (p : positive) : Zpos p < 2 ^ Zpos (digits2_pos p).
Proof.
  induction p as [p IH | p IH |]; cbn [digits2_pos].
  - rewrite Pos2Z.inj_succ, Z.pow_succ_r by lia. lia.
  - rewrite Pos2Z.inj_succ, Z.pow_succ_r by lia. lia.
  - simpl. lia.
Qed.

(** The number of bits of a product. *)
Lemma digits2_pos_mul (t s : positive) :
  Zpos (digits2_pos t) + Zpos (digits2_pos s) - 1 <= Zpos (digits2_pos (t * s)).
Proof.
  pose proof (digits2_pos_lower t) as Ht.
  pose proof (digits2_pos_lower s) as Hs.
  pose proof (digits2_pos_upper (t * s)) as Hts.
  rewrite Pos2Z.inj_mul in Hts.
  assert (Hlow : 2 ^ (Zpos (digits2_pos t) - 1 + (Zpos (digits2_pos s) - 1))
                 <= Zpos t * Zpos s).
  { rewrite Z.pow_add_r by lia. apply Z.mul_le_mono_nonneg; try lia;
      apply Z.pow_nonneg; lia. }
  destruct (Z.le_gt_cases (Zpos (digits2_pos t) + Zpos (digits2_pos s) - 1)
                          (Zpos (digits2_pos (t * s)))) as [| Hgt]; [assumption |].
  exfalso.
  assert (2 ^ Zpos (digits2_pos (t * s))
          <= 2 ^ (Zpos (digits2_pos t) - 1 + (Zpos (digits2_pos s) - 1)))
    by (apply Z.pow_le_mono_r; lia).
  lia.
Qed.

(** An integer of at most 53 bits as a float: its canonical form. *)
Lemma of_Z_canonical (p : positive) :
  Zpos p < 2 ^ 53 ->
  let d := Zpos (digits2_pos p) in
  exists m : positive,
    PyFloat.of_Z (Zpos p) = S754_finite false m (d - 53) /\
    Zpos m = Zpos p * 2 ^ (53 - d).
Proof.
  intros Hp d. pose proof (digits2_pos_53 p Hp) as Hd. fold d in Hd.
  assert (Hd1 : 1 <= d) by (unfold d; lia).
  unfold PyFloat.of_Z, binary_normalize, binary_round.
  assert (Hfexp : fexp PyFloat.prec PyFloat.emax (d + 0) = d - 53).
  { unfold fexp, emin, PyFloat.prec, PyFloat.emax. lia. }
  fold d. rewrite Hfexp.
  destruct (shl_align p 0 (d - 53)) as [mz ez] eqn:Hal.
  assert (Hez : ez = d - 53 /\ Zpos mz = Zpos p * 2 ^ (53 - d)).
  { pose proof (shl_align_value p 0 (d - 53) ltac:(lia)) as Hv.
    rewrite Hal in Hv. cbn [fst] in Hv.
    replace (0 - (d - 53)) with (53 - d) in Hv by lia. split; [| exact Hv].
    unfold shl_align in Hal.
    destruct (d - 53 - 0) as [| k | k] eqn:Hk; apply (f_equal snd) in Hal; cbn [snd] in Hal; lia. }
  destruct Hez as [-> Hmz].
  destruct (binary_round_aux_exact false mz p (d - 53) (53 - d))
    as (m' & e' & Hr & He' & Hv); try lia.
  - rewrite (digits2_pos_shifted p mz (53 - d)) by lia. fold d. lia.
  - rewrite (digits2_pos_shifted p mz (53 - d)) in He' by lia. fold d in He'.
    assert (He'' : e' = d - 53) by lia.
    rewrite He'' in Hr, Hv.
    replace (d - 53 - (d - 53)) with 0 in Hv by lia.
    rewrite Z.pow_0_r, Z.mul_1_r in Hv. apply Pos2Z.inj in Hv. subst m'.
    exists mz. split; [exact Hr | exact Hmz].
Qed.

(** Half of an integer of at most 53 bits: its canonical form. *)
Lemma of_ratio_half (sg : bool) (p : positive) :
  Zpos p < 2 ^ 53 ->
  let d := Zpos (digits2_pos p) in
  exists m : positive,
    PyFloat.of_ratio sg p 2 = S754_finite sg m (d - 54) /\
    Zpos m = Zpos p * 2 ^ (53 - d).
Proof.
  intros Hp d. pose proof (digits2_pos_53 p Hp) as Hd. fold d in Hd.
  assert (Hd1 : 1 <= d) by (unfold d; lia).
  unfold PyFloat.of_ratio, SFdiv, SFdiv_core_binary.
  cbn [Zdigits2 digits2_pos xorb]. fold d.
  assert (He : Z.min (fexp PyFloat.prec PyFloat.emax (d + 0 - (Zpos (Pos.succ 1) + 0))) (0 - 0)
               = d - 55).
  { unfold fexp, emin, PyFloat.prec, PyFloat.emax. cbn [Pos.succ]. lia. }
  rewrite He. replace (0 - 0 - (d - 55)) with (55 - d) by lia.
  destruct (55 - d) as [| k | k] eqn:Hk; try lia.
  rewrite Z.shiftl_mul_pow2 by lia.
  assert (Hdiv : Z.div_eucl (Zpos p * 2 ^ Zpos k) 2 = (Zpos p * 2 ^ (Zpos k - 1), 0)).
  { pose proof (Z.div_eucl_eq (Zpos p * 2 ^ Zpos k) 2 ltac:(lia)) as Heq.
    pose proof (Z.mod_pos_bound (Zpos p * 2 ^ Zpos k) 2 ltac:(lia)) as Hb.
    unfold Z.modulo in Hb.
    destruct (Z.div_eucl (Zpos p * 2 ^ Zpos k) 2) as [q r].
    assert (Hpow : 2 ^ Zpos k = 2 * 2 ^ (Zpos k - 1)).
    { rewrite <- Z.pow_succ_r by lia. f_equal. lia. }
    rewrite Hpow in Heq. f_equal; lia. }
  rewrite Hdiv. cbn [new_location Z.even new_location_even Z.eqb].
  assert (Hpos : 0 < Zpos p * 2 ^ (Zpos k - 1)).
  { apply Z.mul_pos_pos; [lia | apply Z.pow_pos_nonneg; lia]. }
  destruct (Zpos p * 2 ^ (Zpos k - 1)) as [| mx | mx] eqn:Hmx; try lia.
  destruct (binary_round_aux_exact sg mx p (d - 55) (Zpos k - 1))
    as (m' & e' & Hr & He' & Hv); try lia.
  - rewrite (digits2_pos_shifted p mx (Zpos k - 1)) by lia. fold d. lia.
  - rewrite (digits2_pos_shifted p mx (Zpos k - 1)) in He' by lia. fold d in He'.
    assert (He'' : e' = d - 54) by lia.
    rewrite He'' in Hr, Hv.
    exists m'. split; [rewrite xorb_false_r; exact Hr |].
    replace (d - 54 - (d - 55)) with 1 in Hv by lia.
    rewrite Z.pow_1_r in Hv.
    replace (53 - d) with (Zpos k - 1 - 1) by lia.
    assert (Hpow : 2 ^ (Zpos k - 1) = 2 * 2 ^ (Zpos k - 1 - 1)).
    { rewrite <- Z.pow_succ_r by lia. f_equal. lia. }
    rewrite <- Hmx, Hpow in Hv. lia.
Qed.

Lemma round_half_even_scale (a b k : Z) :
  0 < b -> 0 < k ->
  PyFloat.round_half_even (a * k) (b * k) = PyFloat.round_half_even a b.
Proof.
  intros Hb Hk. unfold PyFloat.round_half_even.
  rewrite Z.div_mul_cancel_r, Z.mul_mod_distr_r by lia.
  replace (2 * (a mod b * k)) with ((2 * (a mod b)) * k) by ring.
  rewrite <- (Zmult_compare_compat_r (2 * (a mod b)) b k) by lia.
  reflexivity.
Qed.

(** The product of an integer and half an integer, when it has at most
    53 bits, is computed without rounding: it is half the product of
    the integers. *)
Lemma mul_half_exact (t s : positive) :
  Zpos t * Zpos s < 2 ^ 53 ->
  PyFloat.mul (PyFloat.of_Z (Zpos t)) (PyFloat.of_ratio false s 2)
  = PyFloat.of_ratio false (t * s) 2.
Proof.
  intros Hts.
  assert (Ht : Zpos t < 2 ^ 53) by nia.
  assert (Hs : Zpos s < 2 ^ 53) by nia.
  destruct (of_Z_canonical t Ht) as (mt & -> & Hmt).
  destruct (of_ratio_half false s Hs) as (mr & -> & Hmr).
  destruct (of_ratio_half false (t * s) Hts) as (m & -> & Hm).
  pose proof (digits2_pos_53 t Ht) as Hdt.
  pose proof (digits2_pos_53 s Hs) as Hds.
  pose proof (digits2_pos_53 (t * s) Hts) as Hd.
  pose proof (digits2_pos_mul t s) as Hdm.
  set (dt := Zpos (digits2_pos t)) in *.
  set (ds := Zpos (digits2_pos s)) in *.
  set (d := Zpos (digits2_pos (t * s))) in *.
  assert (Hdt1 : 1 <= dt) by (unfold dt; lia).
  assert (Hds1 : 1 <= ds) by (unfold ds; lia).
  cbn [PyFloat.mul SFmul xorb].
  assert (Hmx : Zpos (mt * mr) = Zpos (t * s) * 2 ^ (106 - dt - ds)).
  { rewrite !Pos2Z.inj_mul, Hmt, Hmr.
    replace (106 - dt - ds) with (53 - dt + (53 - ds)) by lia.
    rewrite Z.pow_add_r by lia. ring. }
  destruct (binary_round_aux_exact false (mt * mr) (t * s) (dt - 53 + (ds - 54))
              (106 - dt - ds))
    as (m' & e' & Hr & He' & Hv); try lia.
  - rewrite (digits2_pos_shifted (t * s) (mt * mr) (106 - dt - ds)) by (lia || exact Hmx).
    fold d. lia.
  - rewrite (digits2_pos_shifted (t * s) (mt * mr) (106 - dt - ds)) in He'
      by (lia || exact Hmx).
    fold d in He'.
    assert (He'' : e' = d - 54) by lia.
    rewrite He'' in Hr, Hv.
    rewrite Hr. f_equal. apply Pos2Z.inj. rewrite Hm.
    rewrite Hmx in Hv.
    assert (Hpow : 2 ^ (106 - dt - ds) = 2 ^ (53 - d) * 2 ^ (d - 54 - (dt - 53 + (ds - 54)))).
    { rewrite <- Z.pow_add_r by lia. f_equal. lia. }
    rewrite Hpow, Z.mul_assoc in Hv.
    apply Z.mul_cancel_r in Hv; [exact Hv | apply Z.pow_nonzero; lia].
Qed.

(** [round] of half an integer. *)
Lemma round_int_half (p : positive) :
  Zpos p < 2 ^ 53 ->
  PyFloat.round_int (PyFloat.of_ratio false p 2)
  = Ok (PyFloat.round_half_even (Zpos p) 2).
Proof.
  intros Hp. destruct (of_ratio_half false p Hp) as (m & -> & Hm).
  pose proof (digits2_pos_53 p Hp) as Hd.
  set (d := Zpos (digits2_pos p)) in *.
  cbn [PyFloat.round_int].
  destruct (Z.leb_spec 0 (d - 54)); [lia |]. cbn [PyFloat.sgn]. f_equal.
  rewrite Hm.
  replace (- (d - 54)) with (Z.succ (53 - d)) by lia.
  rewrite Z.pow_succ_r by lia.
  apply round_half_even_scale; [lia |]. apply Z.pow_pos_nonneg; lia.
Qed.

(** ** The cooking time *)

(** X15. An [int] time for [s] servings is the nearest integer to
    [t * s / 2], a half going to the even neighbour, as long as
    [t * s] has at most 53 bits. *)
Theorem scale_cooking_time_int (t s : Z) :
  0 <= t -> 0 < s -> t * s < 2 ^ 53 -> s < 2 ^ 53 ->
  scale_cooking_time (VInt t) s BASE_SERVINGS
  = VInt (PyFloat.round_half_even (t * s) 2).
Proof.
  intros Ht Hs Hts Hs53.
  unfold scale_cooking_time. cbn [py_float]. unfold PyFloat.of_int, BASE_SERVINGS.
  cbn [PyNum.truediv]. unfold PyNum.int_true_divide.
  destruct s as [| s | s]; try lia. cbn [Z.eqb Z.ltb Z.compare xorb Z.abs Z.to_pos].
  destruct t as [| t | t]; try lia.
  - destruct (of_ratio_half false s Hs53) as (mr & -> & Hmr).
    reflexivity.
  - assert (Ht53 : Zpos t < 2 ^ 53) by nia.
    pose proof (mul_half_exact t s Hts) as Hmul.
    pose proof (round_int_half (t * s) Hts) as Hround.
    destruct (of_Z_canonical t Ht53) as (mt & Hof & Hmt).
    destruct (of_ratio_half false s Hs53) as (mr & Hratio & Hmr).
    rewrite Hof in Hmul |- *. rewrite Hratio in Hmul |- *.
    cbn [PyFloat.is_inf bind PyNum.mul PyNum.to_float]. rewrite Hmul.
    cbn [PyNum.round_int]. rewrite Hround. reflexivity.
Qed.

(** X15 at 45 minutes for 3 servings: 67.5 goes to 68. *)
Lemma scale_cooking_time_int_witness :
  scale_cooking_time (VInt 45) 3 BASE_SERVINGS = VInt (PyFloat.round_half_even (45 * 3) 2).
Proof. apply (scale_cooking_time_int 45 3); lia. Defined.

(** ** Linear scaling of whole amounts *)

Lemma digits2_pos_le (p : positive) (k : Z) :
  Zpos p < 2 ^ k -> Zpos (digits2_pos p) <= k.
Proof.
  intros Hp. pose proof (digits2_pos_lower p) as Hlow.
  destruct (Z.le_gt_cases (Zpos (digits2_pos p)) k) as [| Hgt]; [assumption |].
  exfalso. assert (2 ^ k <= 2 ^ (Zpos (digits2_pos p) - 1)).
  { destruct (Z.lt_ge_cases k 0) as [Hk | Hk].
    - rewrite (Z.pow_neg_r 2 k Hk). apply Z.pow_nonneg; lia.
    - apply Z.pow_le_mono_r; lia. }
  lia.
Qed.

(** Fifty times an integer over a hundred is half the integer, as a
    float too. *)
Lemma of_ratio_fifty (p : positive) :
  Zpos p < 2 ^ 53 ->
  PyFloat.of_ratio false (p * 50) 100 = PyFloat.of_ratio false p 2.
Proof.
  intros Hp. destruct (of_ratio_half false p Hp) as (m & -> & Hm).
  pose proof (digits2_pos_53 p Hp) as Hd.
  set (d := Zpos (digits2_pos p)) in *.
  assert (Hd1 : 1 <= d) by (unfold d; lia).
  pose proof (digits2_pos_upper p) as Hup. fold d in Hup.
  assert (Hd50 : Zpos (digits2_pos (p * 50)) <= d + 6).
  { apply digits2_pos_le. rewrite Pos2Z.inj_mul, Z.pow_add_r by lia.
    change (2 ^ 6) with 64. lia. }
  assert (Hd50' : 1 <= Zpos (digits2_pos (p * 50))) by lia.
  set (d1 := Zpos (digits2_pos (p * 50))) in *.
  unfold PyFloat.of_ratio, SFdiv, SFdiv_core_binary.
  cbn [Zdigits2 xorb]. fold d1.
  change (Zpos (digits2_pos 100)) with 7.
  assert (He : Z.min (fexp PyFloat.prec PyFloat.emax (d1 + 0 - (7 + 0))) (0 - 0) = d1 - 60).
  { unfold fexp, emin, PyFloat.prec, PyFloat.emax. lia. }
  rewrite He. replace (0 - 0 - (d1 - 60)) with (60 - d1) by lia.
  destruct (60 - d1) as [| k | k] eqn:Hk; try lia.
  rewrite Z.shiftl_mul_pow2 by lia.
  assert (Hdiv : Z.div_eucl (Zpos (p * 50) * 2 ^ Zpos k) 100
                 = (Zpos p * 2 ^ (Zpos k - 1), 0)).
  { pose proof (Z.div_eucl_eq (Zpos (p * 50) * 2 ^ Zpos k) 100 ltac:(lia)) as Heq.
    pose proof (Z.mod_pos_bound (Zpos (p * 50) * 2 ^ Zpos k) 100 ltac:(lia)) as Hb.
    unfold Z.modulo in Hb.
    destruct (Z.div_eucl (Zpos (p * 50) * 2 ^ Zpos k) 100) as [q r].
    assert (Hpow : 2 ^ Zpos k = 2 * 2 ^ (Zpos k - 1)).
    { rewrite <- Z.pow_succ_r by lia. f_equal. lia. }
    rewrite Hpow, Pos2Z.inj_mul in Heq. f_equal; lia. }
  rewrite Hdiv. cbn [new_location Z.even new_location_even Z.eqb].
  assert (Hpos : 0 < Zpos p * 2 ^ (Zpos k - 1)).
  { apply Z.mul_pos_pos; [lia | apply Z.pow_pos_nonneg; lia]. }
  destruct (Zpos p * 2 ^ (Zpos k - 1)) as [| mx | mx] eqn:Hmx; try lia.
  destruct (binary_round_aux_exact false mx p (d1 - 60) (Zpos k - 1))
    as (m' & e' & Hr & He' & Hv); try lia.
  - rewrite (digits2_pos_shifted p mx (Zpos k - 1)) by lia. fold d. lia.
  - rewrite (digits2_pos_shifted p mx (Zpos k - 1)) in He' by lia. fold d in He'.
    assert (He'' : e' = d - 54) by lia.
    rewrite He'' in Hr, Hv. rewrite Hr. f_equal. apply Pos2Z.inj. rewrite Hm.
    rewrite <- Hmx in Hv.
    assert (Hpow : 2 ^ (Zpos k - 1) = 2 ^ (53 - d) * 2 ^ (d - 54 - (d1 - 60))).
    { rewrite <- Z.pow_add_r by lia. f_equal. lia. }
    rewrite Hpow, Z.mul_assoc in Hv.
    apply Z.mul_cancel_r in Hv; [exact Hv | apply Z.pow_nonzero; lia].
Qed.

(** Half an integer has at most one decimal: [round(x, 2)] leaves it. *)
Lemma round2_half (p : positive) :
  Zpos p < 2 ^ 53 ->
  PyFloat.round2 (PyFloat.of_ratio false p 2) = PyFloat.of_ratio false p 2.
Proof.
  intros Hp. rewrite <- (of_ratio_fifty p Hp) at 2.
  destruct (of_ratio_half false p Hp) as (m & -> & Hm).
  pose proof (digits2_pos_53 p Hp) as Hd.
  set (d := Zpos (digits2_pos p)) in *.
  cbn [PyFloat.round2].
  destruct (Z.leb_spec 0 (d - 54)); [lia |].
  assert (Hn : PyFloat.round_half_even (Zpos m * 100) (2 ^ (- (d - 54))) = Zpos (p * 50)).
  { rewrite Hm. replace (- (d - 54)) with (Z.succ (53 - d)) by lia.
    rewrite Z.pow_succ_r by lia.
    replace (Zpos p * 2 ^ (53 - d) * 100) with ((Zpos p * 100) * 2 ^ (53 - d)) by ring.
    rewrite round_half_even_scale; [| lia | apply Z.pow_pos_nonneg; lia].
    replace (Zpos p * 100) with (Zpos (p * 50) * 2) by (rewrite Pos2Z.inj_mul; lia).
    apply round_half_even_exact. lia. }
  rewrite Hn. reflexivity.
Qed.

(** Half an integer as a fraction, shown. *)
Lemma to_mixed_fraction_half (p : positive) :
  Zpos p < 2 ^ 53 ->
  to_mixed_fraction (PFloat (PyFloat.of_ratio false p 2)) default_precision
  = Ok (mixed_form (Zpos p # 2)).
Proof.
  intros Hp. destruct (of_ratio_half false p Hp) as (m & Hr & Hm).
  pose proof (digits2_pos_53 p Hp) as Hd.
  set (d := Zpos (digits2_pos p)) in *.
  assert (Hd1 : 1 <= d) by (unfold d; lia).
  set (K := 2 ^ (53 - d)).
  assert (HK : 0 < K) by (apply Z.pow_pos_nonneg; lia).
  assert (Hden : 2 ^ (- (d - 54)) = 2 * K).
  { unfold K. replace (- (d - 54)) with (Z.succ (53 - d)) by lia.
    apply Z.pow_succ_r. lia. }
  assert (Hgcd : Z.gcd (Zpos m) (2 * K) = Z.gcd (Zpos p) 2 * K).
  { rewrite Hm. fold K. apply Z.gcd_mul_mono_r_nonneg. lia. }
  assert (Hx : exists x : Q,
             Fractions.of_num (PFloat (PyFloat.of_ratio false p 2)) = Ok x /\
             Zpos (Qden x) <= 2 /\ mixed_form x = mixed_form (Zpos p # 2)).
  { rewrite Hr. cbn [Fractions.of_num PyFloat.as_integer_ratio].
    destruct (Z.leb_spec 0 (d - 54)); [lia |].
    cbn [bind PyFloat.sgn fst snd]. rewrite Hden, Hgcd, Hm. fold K.
    eexists. split; [reflexivity |].
    destruct (Z.even (Zpos p)) eqn:Hev.
    - apply Z.even_spec in Hev. destruct Hev as [q Hq].
      assert (Hg : Z.gcd (Zpos p) 2 = 2).
      { rewrite Z.gcd_comm. apply Z.divide_gcd_iff; [lia |]. exists q. lia. }
      rewrite Hg, Hq.
      replace (2 * q * K / (2 * K)) with q
        by (replace (2 * q * K) with (q * (2 * K)) by ring; rewrite Z.div_mul; lia).
      rewrite Z.div_same by lia. cbn [Z.to_pos Qden]. split; [lia |].
      unfold mixed_form. cbn [Qnum Qden]. rewrite Z.div_1_r, Z.mod_1_r.
      replace (2 * q / 2) with q by (rewrite Z.mul_comm, Z.div_mul; lia).
      replace ((2 * q) mod 2) with 0 by (rewrite Z.mul_comm, Z.mod_mul; lia).
      reflexivity.
    - assert (Hodd : Z.odd (Zpos p) = true) by (rewrite <- Z.negb_even, Hev; reflexivity).
      apply Z.odd_spec in Hodd. destruct Hodd as [q Hq].
      assert (Hg : Z.gcd (Zpos p) 2 = 1).
      { rewrite Hq, Z.gcd_comm. replace (2 * q + 1) with (1 + q * 2) by ring.
        rewrite Z.gcd_add_mult_diag_r. reflexivity. }
      rewrite Hg, Z.mul_1_l.
      rewrite Z.div_mul by lia.
      replace (2 * K / K) with 2 by (rewrite Z.div_mul; lia).
      cbn [Z.to_pos Qden]. split; [lia | reflexivity]. }
  destruct Hx as (x & Hx & Hden2 & Hform).
  rewrite <- Hform.
  apply (to_mixed_fraction_shows _ x x Hx).
  - unfold Fractions.limit_denominator, Fractions.denominator.
    cbn [Z.ltb Z.compare].
    destruct (Z.leb_spec (Zpos (Qden x)) 8); [reflexivity | lia].
  - exact (of_num_lowest _ x Hx).
Qed.

Section LinearWhole.

Variable libm_log : Z -> PyFloat.float.

(** X18. For an ingredient of the linear class with a whole amount [z],
    scaled to [s] servings, nothing is lost to rounding as long as
    [z * s] has at most 53 bits: the amount returned is [z * s / 2] as
    Python divides two [int]s, and it is shown as the mixed fraction of
    [z * s] halves. *)
Theorem scale_linear_whole (item : IngredientEntry) (z s : Z) :
  amount item = PInt z ->
  any_in FIXED_INGREDIENTS (PyStr.lower (name item)) = false ->
  any_in LOG_INGREDIENTS (PyStr.lower (name item)) = false ->
  0 < z -> 0 < s -> z * s < 2 ^ 53 ->
  exists r,
    scale_ingredient libm_log item s BASE_SERVINGS = Ok r /\
    PyNum.truediv (PInt (z * s)) (PInt 2) = Ok (amount r) /\
    formattedAmount r = mixed_form (z * s # 2) /\
    unit r = unit item /\ name r = name item.
Proof.
  intros Hamt Hfixed Hlog Hz Hs Hzs.
  destruct z as [| z | z]; try lia. destruct s as [| s | s]; try lia.
  assert (Hs53 : Zpos s < 2 ^ 53) by nia.
  assert (Hz53 : Zpos z < 2 ^ 53) by nia.
  pose proof (mul_half_exact z s Hzs) as Hmul.
  pose proof (round2_half (z * s) Hzs) as Hround.
  pose proof (to_mixed_fraction_half (z * s) Hzs) as Hshow.
  assert (Hfin : forall p, Zpos p < 2 ^ 53 -> PyFloat.is_inf (PyFloat.of_ratio false p 2) = false).
  { intros p Hp. destruct (of_ratio_half false p Hp) as (m & -> & _). reflexivity. }
  assert (Hdiv : forall p, Zpos p < 2 ^ 53 ->
            PyNum.truediv (PInt (Zpos p)) (PInt 2) = Ok (PFloat (PyFloat.of_ratio false p 2))).
  { intros p Hp. cbn [PyNum.truediv]. unfold PyNum.int_true_divide.
    cbn [Z.eqb Z.ltb Z.compare xorb Z.abs Z.to_pos]. now rewrite (Hfin p Hp). }
  assert (Hof : PyFloat.of_int (Zpos z) = Ok (PyFloat.of_Z (Zpos z))).
  { unfold PyFloat.of_int. destruct (of_Z_canonical z Hz53) as (m & -> & _). reflexivity. }
  eexists. split.
  - unfold scale_ingredient. rewrite Hfixed, Hlog, Hamt.
    unfold BASE_SERVINGS. rewrite (Hdiv s Hs53). cbn [bind PyNum.mul PyNum.to_float].
    rewrite Hof. cbn [bind]. rewrite Hmul. cbn [PyNum.round2]. rewrite Hround, Hshow.
    cbn [bind]. reflexivity.
  - cbn [amount formattedAmount unit name].
    rewrite <- Pos2Z.inj_mul. rewrite (Hdiv (z * s)%positive Hzs).
    repeat split.
Qed.

End LinearWhole.

(** X18 on two cups of rice for three: three cups. *)
Lemma scale_linear_whole_witness :
  exists r,
    scale_ingredient log2_floor rice 3 BASE_SERVINGS = Ok r /\
    PyNum.truediv (PInt (2 * 3)) (PInt 2) = Ok (amount r) /\
    formattedAmount r = mixed_form (2 * 3 # 2) /\
    unit r = unit rice /\ name r = name rice.
Proof.
  apply (scale_linear_whole log2_floor rice 2 3); try reflexivity; lia.
Defined.

(** ** Times that are not numbers *)

(** X13. [format_time] gives back [str(minutes)] when [float(minutes)]
    raises or is an infinity or NaN; on every other input the minute
    count [int(round(float(minutes)))] exists and the parts are
    formatted. *)
Theorem format_time_fallback (minutes : pyval) :
  match py_float minutes with
  | Raise _ | Ok (S754_infinity _) | Ok S754_nan =>
      format_time minutes = py_str minutes
  | Ok _ => exists m, rounded_minutes minutes = Ok m
  end.
Proof.
  unfold format_time, rounded_minutes.
  destruct (py_float minutes) as [[s | s | | s m e] | x];
    cbn [bind PyFloat.round_int catch]; try reflexivity; [eauto |].
  destruct (0 <=? e); eauto.
Qed.

(** X14. [scale_cooking_time] answers "N/A" when the time is not a
    number and when the base is zero, and [format_time] then shows
    "N/A". *)
Theorem scale_cooking_time_not_available (t : pyval) (servings base : Z) :
  (exists x, py_float t = Raise x) \/ base = 0 ->
  scale_cooking_time t servings base = VStr "N/A" /\
  format_time (scale_cooking_time t servings base) = "N/A".
Proof.
  intros H.
  assert (Hna : scale_cooking_time t servings base = VStr "N/A").
  { unfold scale_cooking_time. destruct H as [[x Hx] | ->].
    - rewrite Hx. reflexivity.
    - destruct (py_float t) as [f | x]; reflexivity. }
  rewrite Hna. split; reflexivity.
Qed.

Lemma scale_cooking_time_not_available_witness :
  scale_cooking_time (VStr "N/A") 4 BASE_SERVINGS = VStr "N/A" /\
  format_time (scale_cooking_time (VStr "N/A") 4 BASE_SERVINGS) = "N/A".
Proof.
  apply (scale_cooking_time_not_available (VStr "N/A") 4 BASE_SERVINGS).
  left. exists ValueError. vm_compute. reflexivity.
Defined.

(** ** The key check: properties *)

Example replace_examples :
  replace "" "-" "abc" = "-a-b-c-" /\
  replace "Bearer " "" "Bearer Bearer x" = "x" /\
  replace "Bearer " "" "BeBearer arer x" = "Bearer x" /\
  replace "aa" "b" "aaa" = "ba" /\
  replace "" "-" "" = "-" /\
  replace "a" "-" "" = "".
Proof. repeat split. Qed.

Lemma API_KEY_nonempty (env : option string) : API_KEY env <> EmptyString.
Proof.
  unfold API_KEY. destruct env as [[| c k] |]; discriminate.
Qed.

Lemma replace_from_absent (old new s : string) :
  PyStr.contains old s = false -> replace_from old new O s = s.
Proof.
  induction s as [| c s IH]; [reflexivity |].
  cbn [PyStr.contains replace_from]. intros H.
  apply orb_false_elim in H. destruct H as [Hp Hc].
  rewrite Hp. now rewrite IH.
Qed.

(** X16. A request with no [Authorization] header, an empty one, or
    the bare scheme "Bearer " is refused with 401, whatever the
    environment: the key is never empty, since an unset or empty
    [API_KEY] falls back to the built-in one. *)
Theorem require_key_refuses_no_token {A : Type} (env : option string) (fn : A) :
  require_key (API_KEY env) None fn = Aborted 401 "Unauthorized" /\
  require_key (API_KEY env) (Some "") fn = Aborted 401 "Unauthorized" /\
  require_key (API_KEY env) (Some "Bearer ") fn = Aborted 401 "Unauthorized".
Proof.
  pose proof (API_KEY_nonempty env) as Hk.
  unfold require_key. cbn [replace replace_from prefix append]. cbn.
  destruct (API_KEY env) as [| c k]; [contradiction |].
  repeat split.
Qed.

(** X17. The key passes with the scheme and without it: when the key
    itself does not hold "Bearer ", both the header "Bearer <key>" and
    the header "<key>" let the call through. *)
Theorem require_key_accepts_key {A : Type} (key : string) (fn : A) :
  PyStr.contains "Bearer " key = false ->
  require_key key (Some ("Bearer " ++ key)) fn = Called fn /\
  require_key key (Some key) fn = Called fn.
Proof.
  intros H. unfold require_key, replace.
  assert (H1 : replace_from "Bearer " "" 0 ("Bearer " ++ key) = key).
  { cbn [append replace_from prefix]. cbn.
    replace (prefix "" key) with true by (destruct key; reflexivity).
    now apply replace_from_absent. }
  rewrite H1, (replace_from_absent _ _ _ H), String.eqb_refl. split; reflexivity.
Qed.

Lemma require_key_accepts_key_witness :
  require_key (API_KEY None) (Some ("Bearer " ++ API_KEY None)) tt = Called tt /\
  require_key (API_KEY None) (Some (API_KEY None)) tt = Called tt.
Proof.
  apply (require_key_accepts_key (API_KEY None) tt). vm_compute. reflexivity.
Defined.
